(** * StressOFF: the daily health aggregator and the circadian signal generator

    A shallow embedding of the two computational parts of the backend:

    - [Main]      : the statistics and alert rules of [analyze_health]
                    (backend/main.py);
    - [Simulator] : [HealthSimulator.get_time_of_day_factor],
                    [generate_metrics] and [generate_sleep_data]
                    (backend/smartwatch_simulator.py);
    - [SleepWording] : the sleep wording [analyze_health] puts in its prompt;
    - [Simulation]   : [send_to_firestore] and the loop of [run_simulation],
                       with the calls made to Firestore as a trace;
    - [Relay]        : what [analyze_health] and [analyze_daily] do with the
                       reply of the language-model provider, and
                       [_coerce_text].

    Python [float]s are read as exact rationals ([Q]), Python [int]s as [Z],
    list lengths and indices as [nat].  Equality of computed rationals is
    therefore [Qeq] ([==]).  Exceptions are values of an error monad, and the
    calls to the [random] module thread an explicit generator state.

    The exact reading leaves out the rounding of binary64, its infinities
    and its NaN.  Two effects of binary64 are in the model: [x ** 2] raises
    [OverflowError] out of range, and [random.uniform(a, b)] can return [b].
    One range error is not: the quotient of two [int]s is kept exact, where
    Python raises [OverflowError] once it leaves the range of binary64 (see
    [Main.sedentary_hours_of]).  Statements on what the program decides
    (whether it raises, whether an alert is present, an integer result) are
    made with a margin where rounding could decide otherwise: a band around
    a threshold, a bound on the magnitudes, or the hypothesis that the
    aggregation returns. *)

From Stdlib Require Import ZArith QArith Qround Qabs Qminmax Lqa Lia.
From Stdlib Require Import List String Bool Orders.
From Stdlib Require Import Sorting.Mergesort Sorting.Sorted Sorting.Permutation.
From Stdlib Require DecimalString DecimalZ DecimalPos FinFun.
Import ListNotations.

Open Scope Q_scope.

(** ** Python built-ins used by the two files *)

Module Py.

(** The exceptions the modelled code can raise or catch. *)
Inductive exn : Type :=
| HTTPException (status_code : Z) (detail : string)
| ZeroDivisionError
| IndexError
| OverflowError.

(** A computation that returns a value or raises. *)
Definition Exc (A : Type) : Type := (exn + A)%type.

Definition ret {A} (a : A) : Exc A := inr a.
Definition raise {A} (e : exn) : Exc A := inl e.
Definition bind {A B} (c : Exc A) (k : A -> Exc B) : Exc B :=
  match c with
  | inl e => inl e
  | inr a => k a
  end.

(** [str(e)] for the exceptions above. *)
Definition str (e : exn) : string :=
  match e with
  | HTTPException _ d => d
  | ZeroDivisionError => "division by zero"
  | IndexError => "list index out of range"
  | OverflowError => "(34, 'Numerical result out of range')"
  end.

(** [len(l)] as a number. *)
Definition len {A} (l : list A) : Q := inject_Z (Z.of_nat (List.length l)).

(** [x / y] on numbers: raises on a zero divisor.  Divisions by a non-zero
    literal cannot raise and are written with [/] directly. *)
Definition truediv (x y : Q) : Exc Q :=
  if Qeq_bool y 0 then raise ZeroDivisionError else ret (x / y).

(** The least magnitude that binary64 rounds out of range: half a unit in the
    last place above the largest finite number [2^1024 - 2^971]. *)
Definition overflow_threshold : Q := inject_Z (2 ^ 1024 - 2 ^ 970).

(** [x ** n] on a float, for a non-negative integer [n]: raises when the
    result is out of range.  The test is made on the exact power of the exact
    [x]; Python takes the power of a rounded [x], so that within a relative
    [2^-52] of the threshold (and for an [x] that is itself infinite) the two
    can differ. *)
Definition pow (x : Q) (n : Z) : Exc Q :=
  if Qlt_le_dec (Qabs (x ^ n)) overflow_threshold
  then ret (x ^ n)
  else raise OverflowError.

(** [f(x) for x in l], consumed from left to right: the first exception ends
    it. *)
Fixpoint generator {A B} (f : A -> Exc B) (l : list A) : Exc (list B) :=
  match l with
  | [] => ret []
  | x :: l' => bind (f x) (fun y => bind (generator f l') (fun ys => ret (y :: ys)))
  end.

(** [l[i]] for a non-negative index. *)
Definition getitem {A} (l : list A) (i : nat) : Exc A :=
  match nth_error l i with
  | Some v => ret v
  | None => raise IndexError
  end.

(** [sum(l)]: left to right, starting from [0]. *)
Definition sum (l : list Q) : Q := fold_left Qplus l 0.
Definition sumZ (l : list Z) : Z := fold_left Z.add l 0%Z.

(** [min(a, b)] and [max(a, b)]: the first argument is kept unless the
    second is strictly smaller (resp. larger). *)
Definition min (a b : Q) : Q := if Qlt_le_dec b a then b else a.
Definition max (a b : Q) : Q := if Qlt_le_dec a b then b else a.

(** [int(x)]: truncation towards zero. *)
Definition int (x : Q) : Z :=
  if Qlt_le_dec x 0 then Qceiling x else Qfloor x.

(** [round(x)]: the nearest integer, ties going to the even one. *)
Definition round (x : Q) : Z :=
  let f := Qfloor x in
  let r := x - inject_Z f in
  if Qlt_le_dec r (1 # 2) then f
  else if Qlt_le_dec (1 # 2) r then (f + 1)%Z
  else if Z.even f then f else (f + 1)%Z.

(** [round(x, ndigits)] for [ndigits >= 0]. *)
Definition round_to (x : Q) (ndigits : nat) : Q :=
  let scale := inject_Z (10 ^ Z.of_nat ndigits) in
  inject_Z (round (x * scale)) / scale.

(** Truth value of an optional number: [None] and zero are false. *)
Definition truthy (o : option Q) : bool :=
  match o with
  | Some v => negb (Qeq_bool v 0)
  | None => false
  end.

End Py.

Notation "x <- c ;; k" := (Py.bind c (fun x => k))
  (at level 61, c at next level, right associativity).

(** [sorted(l)] on numbers: a stable merge sort for [<=]. *)
Module QOrder <: TotalLeBool.
Definition t := Q.
Definition leb := Qle_bool.
Theorem leb_total : forall x y, leb x y = true \/ leb y x = true.
Proof.
  intros x y. unfold leb. rewrite !Qle_bool_iff.
  destruct (Qlt_le_dec x y) as [H | H]; [left; apply Qlt_le_weak, H | right; exact H].
Qed.
End QOrder.

Module QSort := Sort QOrder.

Definition sorted (l : list Q) : list Q := QSort.sort l.

(** ** backend/main.py: [analyze_health] *)

Module Main.
Import Py.

(** [class HealthMetric(BaseModel)] *)
Record HealthMetric := {
  timestamp : string;
  heartRate : Q;
  restingHeartRate : Q;
  hrv : Q;
  steps : Z;
  calories : Q;
  activeMinutes : Z;
  spo2 : option Q
}.

(** [class SleepData(BaseModel)] *)
Record SleepData := {
  durationHours : Q;
  qualityScore : Q;
  deepSleepMinutes : Z;
  remSleepMinutes : Z;
  lightSleepMinutes : Z
}.

(** [class HealthAnalysisRequest(BaseModel)]; [userProfile] only feeds the
    prompt text and is left out. *)
Record HealthAnalysisRequest := {
  userId : string;
  date : string;
  metrics : list HealthMetric;
  sleepData : option SleepData
}.

(** The four alerts; the comment gives the text the code appends. *)
Inductive alert : Type :=
| HRVDropped
    (* "HRV dropped more than 20% - possible stress or overtraining" *)
| SleepDurationLow (hours : Q)
    (* f"Sleep duration low: {hours:.1f}h (recommended: 7-9h)" *)
| LowBloodOxygen (avg : Q)
    (* f"Low blood oxygen: {avg:.1f}% (normal: >95%)" *)
| VeryLowActivity.
    (* "Very low activity detected - try to move more throughout the day" *)

(** The local variables of [analyze_health] once the alert rules have run. *)
Record Locals := {
  median_hrv : Q;
  avg_resting_hr : Q;
  avg_spo2 : option Q;
  total_steps : Z;
  total_calories : Q;
  total_active_minutes : Z;
  hrv_variance : Q;
  stress_level : Q;
  sedentary_hours : Q;
  alerts : list alert
}.

(** [[m.hrv for m in request.metrics]] *)
Definition hrv_values_of (request : HealthAnalysisRequest) : list Q :=
  map hrv (metrics request).

(** [[m.spo2 for m in request.metrics if m.spo2 is not None]] *)
Fixpoint spo2_values_of (ms : list HealthMetric) : list Q :=
  match ms with
  | [] => []
  | m :: ms' =>
      match spo2 m with
      | Some v => v :: spo2_values_of ms'
      | None => spo2_values_of ms'
      end
  end.

(** [sum(spo2_values) / len(spo2_values) if spo2_values else None] *)
Definition avg_spo2_of (spo2_values : list Q) : Exc (option Q) :=
  match spo2_values with
  | [] => ret None
  | _ :: _ => a <- truediv (sum spo2_values) (len spo2_values) ;; ret (Some a)
  end.

(** [sum((x - median_hrv) ** 2 for x in hrv_values) / len(hrv_values)]: a
    square out of range raises [OverflowError]. *)
Definition hrv_variance_of (hrv_values : list Q) (median_hrv : Q) : Exc Q :=
  squares <- generator (fun x => pow (x - median_hrv) 2) hrv_values ;;
  truediv (sum squares) (len hrv_values).

(** The rule "HRV drop > 20%".  The two means and the ratio are compared as
    exact numbers; in binary64 each is rounded, so that within a few units in
    the last place of the threshold the program can decide either way (at
    HRV 50, 55, 55, 40, 44, 44, a drop of exactly 20%, it appends the
    alert). *)
Definition hrv_drop_rule (hrv_values : list Q) (alerts : list alert)
  : Exc (list alert) :=
  let half := (List.length hrv_values / 2)%nat in
  if (1 <? List.length hrv_values)%nat then
    hrv_baseline <- truediv (sum (firstn half hrv_values))
                            (inject_Z (Z.of_nat half)) ;;
    hrv_recent <- truediv (sum (skipn half hrv_values))
                          (inject_Z (Z.of_nat (List.length hrv_values - half))) ;;
    if Qlt_le_dec 0 hrv_baseline then
      drop <- truediv (hrv_baseline - hrv_recent) hrv_baseline ;;
      if Qlt_le_dec 0.20 drop then ret (alerts ++ [HRVDropped]) else ret alerts
    else ret alerts
  else ret alerts.

(** The rule "Sleep < 6h". *)
Definition sleep_rule (sleepData : option SleepData) (alerts : list alert)
  : list alert :=
  match sleepData with
  | Some sd =>
      if Qlt_le_dec (durationHours sd) 6
      then alerts ++ [SleepDurationLow (durationHours sd)]
      else alerts
  | None => alerts
  end.

(** The rule "SpO2 < 94%": [if avg_spo2 and avg_spo2 < 94]. *)
Definition spo2_rule (avg_spo2 : option Q) (alerts : list alert)
  : list alert :=
  match avg_spo2 with
  | Some a =>
      if truthy avg_spo2 then
        if Qlt_le_dec a 94 then alerts ++ [LowBloodOxygen a] else alerts
      else alerts
  | None => alerts
  end.

(** [(24 * 60 - total_active_minutes) / 60].  The quotient of the two [int]s
    is kept exact.  Python rounds it to binary64 and raises [OverflowError]
    when it is out of range, which takes active minutes that add up to a
    magnitude of more than [10^308]. *)
Definition sedentary_hours_of (total_active_minutes : Z) : Q :=
  inject_Z (24 * 60 - total_active_minutes) / 60.

(** The rule "Sedentary > 2h". *)
Definition sedentary_rule (sedentary_hours : Q) (alerts : list alert)
  : list alert :=
  if Qlt_le_dec 22 sedentary_hours then alerts ++ [VeryLowActivity] else alerts.

(** The body of [analyze_health] from the emptiness check down to the last
    alert rule, statement by statement. *)
Definition aggregate (request : HealthAnalysisRequest) : Exc Locals :=
  match metrics request with
  | [] => raise (HTTPException 400 "No health metrics provided")
  | _ :: _ =>
      let hrv_values := hrv_values_of request in
      let resting_hr_values := map restingHeartRate (metrics request) in
      let spo2_values := spo2_values_of (metrics request) in
      median_hrv <- getitem (sorted hrv_values) (List.length hrv_values / 2) ;;
      avg_resting_hr <- truediv (sum resting_hr_values) (len resting_hr_values) ;;
      avg_spo2 <- avg_spo2_of spo2_values ;;
      let total_steps := sumZ (map steps (metrics request)) in
      let total_calories := sum (map calories (metrics request)) in
      let total_active_minutes := sumZ (map activeMinutes (metrics request)) in
      hrv_variance <- hrv_variance_of hrv_values median_hrv ;;
      let stress_level := min 10 (hrv_variance / 10) in
      let alerts := [] in
      alerts <- hrv_drop_rule hrv_values alerts ;;
      let alerts := sleep_rule (sleepData request) alerts in
      let alerts := spo2_rule avg_spo2 alerts in
      let sedentary_hours := sedentary_hours_of total_active_minutes in
      let alerts := sedentary_rule sedentary_hours alerts in
      ret {| median_hrv := median_hrv;
             avg_resting_hr := avg_resting_hr;
             avg_spo2 := avg_spo2;
             total_steps := total_steps;
             total_calories := total_calories;
             total_active_minutes := total_active_minutes;
             hrv_variance := hrv_variance;
             stress_level := stress_level;
             sedentary_hours := sedentary_hours;
             alerts := alerts |}
  end.

(** The ["dailyStats"] object of the response. *)
Record DailyStats := {
  avgRestingHR : Q;
  medianHRV : Q;
  totalSteps : Z;
  totalCalories : Q;
  totalActiveMinutes : Z;
  avgSpO2 : option Q;
  stressLevel : Q
}.

(** The part of the response that does not come from the language model. *)
Record Response := {
  resp_alerts : list alert;
  dailyStats : DailyStats
}.

Definition build_response (l : Locals) : Response :=
  {| resp_alerts := alerts l;
     dailyStats :=
       {| avgRestingHR := round_to (avg_resting_hr l) 1;
          medianHRV := round_to (median_hrv l) 1;
          totalSteps := total_steps l;
          totalCalories := round_to (total_calories l) 1;
          totalActiveMinutes := total_active_minutes l;
          avgSpO2 := match avg_spo2 l with
                     | Some a => if truthy (avg_spo2 l)
                                 then Some (round_to a 1) else None
                     | None => None
                     end;
          stressLevel := round_to (stress_level l) 1 |} |}.

(** [except HTTPException: raise] / [except Exception as e: raise
    HTTPException(500, ...)]. *)
Definition reraise {A} (c : Exc A) : Exc A :=
  match c with
  | inl (HTTPException s d) => inl (HTTPException s d)
  | inl e => inl (HTTPException 500 ("Health analysis failed: " ++ str e)%string)
  | inr a => inr a
  end.

(** The part of [analyze_health] that does not depend on the language model:
    the aggregation and the statistics of the response built from it.  This is
    not the endpoint: the prompt and the relay to the provider sit between the
    two and can raise.  The endpoint is [Relay.analyze_health] below. *)
Definition analyze_health (request : HealthAnalysisRequest) : Exc Response :=
  reraise (l <- aggregate request ;; ret (build_response l)).

End Main.

(** ** backend/smartwatch_simulator.py: [HealthSimulator] *)

Module Simulator.
Import Py.

(** *** The [random] module

    The state of the generator is what it will hand out next: the standard
    normal variates behind [gauss] and the values of [random()] behind
    [uniform]. *)
Record Random := {
  normals : nat -> Q;
  randoms : nat -> Q
}.

Definition Rand (A : Type) : Type := Random -> A * Random.

Definition rret {A} (a : A) : Rand A := fun g => (a, g).
Definition rbind {A B} (c : Rand A) (k : A -> Rand B) : Rand B :=
  fun g => let (a, g') := c g in k a g'.

(** [random.gauss(mu, sigma)] *)
Definition gauss (mu sigma : Q) : Rand Q :=
  fun g => (mu + sigma * normals g 0%nat,
            {| normals := fun i => normals g (S i); randoms := randoms g |}).

(** [random.uniform(a, b)]: [a + (b - a) * random()].  The stream [randoms]
    holds how far from [a] towards [b] each call lands. *)
Definition uniform (a b : Q) : Rand Q :=
  fun g => (a + (b - a) * randoms g 0%nat,
            {| normals := normals g; randoms := fun i => randoms g (S i) |}).

(** [random()] is at least 0 and below 1, but the sum [a + (b - a) * random()]
    is rounded and can reach [b]: a call of [uniform] lands anywhere from [a] to
    [b], both included. *)
Definition unit_interval (g : Random) : Prop :=
  forall i, 0 <= randoms g i /\ randoms g i <= 1.

Notation "x <~ c ;; k" := (rbind c (fun x => k))
  (at level 61, c at next level, right associativity).

(** *** Data *)

(** The fields of [datetime] the simulator reads. *)
Record datetime := {
  year : Z;
  month : Z;
  day : Z;
  hour : Z;
  minute : Z;
  second : Z
}.

(** The ranges [datetime] guarantees for the clock fields. *)
Definition clock_time (t : datetime) : Prop :=
  (0 <= hour t < 24)%Z /\ (0 <= minute t < 60)%Z /\ (0 <= second t < 60)%Z.

Definition INTERVAL_MINUTES : Q := 1.

(** [class HealthSimulator]: the attributes the generation reads. *)
Record HealthSimulator := {
  user_id : string;
  base_resting_hr : Q;
  base_hrv : Q
}.

(** [HealthSimulator.__init__] *)
Definition init (user_id : string) : HealthSimulator :=
  {| user_id := user_id; base_resting_hr := 60; base_hrv := 50 |}.

(** The dict returned by [get_time_of_day_factor]. *)
Record Factors := {
  hr_multiplier : Q;
  hrv_multiplier : Q;
  activity : Q;
  is_sleeping : bool
}.

(** The dict returned by [generate_metrics].  [spo2] is the entry the
    consumer declares optional, so its value is an optional number. *)
Record Metrics := {
  userId : string;
  timestamp : datetime;
  heartRate : Q;
  restingHeartRate : Q;
  hrv : Q;
  steps : Z;
  calories : Q;
  activeMinutes : Z;
  spo2 : option Q;
  m_is_sleeping : bool
}.

(** The dict returned by [generate_sleep_data]. *)
Record SleepRecord := {
  s_userId : string;
  date : datetime;
  durationHours : Q;
  qualityScore : Q;
  deepSleepMinutes : Z;
  remSleepMinutes : Z;
  lightSleepMinutes : Z
}.

(** *** [get_time_of_day_factor] *)

(** [time_decimal = hour + minute / 60.0] *)
Definition time_decimal (current_time : datetime) : Q :=
  inject_Z (hour current_time) + inject_Z (minute current_time) / 60.0.

Definition get_time_of_day_factor (self : HealthSimulator)
           (current_time : datetime) : Factors :=
  let hour := hour current_time in
  let time_decimal := time_decimal current_time in
  if ((23 <=? hour) || (hour <? 7))%Z then
    {| hr_multiplier := 0.75;
       hrv_multiplier := 1.3;
       activity := 0;
       is_sleeping := true |}
  else if ((7 <=? hour) && (hour <? 9))%Z then
    let wake_progress := (time_decimal - 7) / 2.0 in
    {| hr_multiplier := 0.75 + (0.25 * wake_progress);
       hrv_multiplier := 1.3 - (0.3 * wake_progress);
       activity := wake_progress * 0.3;
       is_sleeping := false |}
  else if ((9 <=? hour) && (hour <? 12))%Z then
    {| hr_multiplier := 1.1;
       hrv_multiplier := 0.95;
       activity := 0.6;
       is_sleeping := false |}
  else if ((12 <=? hour) && (hour <? 14))%Z then
    {| hr_multiplier := 0.95;
       hrv_multiplier := 1.05;
       activity := 0.3;
       is_sleeping := false |}
  else if ((14 <=? hour) && (hour <? 18))%Z then
    {| hr_multiplier := 1.15;
       hrv_multiplier := 0.85;
       activity := 0.8;
       is_sleeping := false |}
  else if ((18 <=? hour) && (hour <? 21))%Z then
    let wind_down := (time_decimal - 18) / 3.0 in
    {| hr_multiplier := 1.1 - (0.2 * wind_down);
       hrv_multiplier := 0.9 + (0.2 * wind_down);
       activity := 0.5 - (0.3 * wind_down);
       is_sleeping := false |}
  else
    {| hr_multiplier := 0.85;
       hrv_multiplier := 1.15;
       activity := 0.1;
       is_sleeping := false |}.

(** *** [generate_metrics] *)
Definition generate_metrics (self : HealthSimulator)
           (current_time : datetime) : Rand Metrics :=
  let factors := get_time_of_day_factor self current_time in
  let hr := base_resting_hr self * hr_multiplier factors in
  noise <~ gauss 0 2 ;;
  let hr := hr + noise in
  noise <~ gauss 0 1 ;;
  let resting_hr := base_resting_hr self + noise in
  let hrv := base_hrv self * hrv_multiplier factors in
  noise <~ gauss 0 3 ;;
  let hrv := hrv + noise in
  draw <~ uniform 100 300 ;;
  let steps_per_interval := int (activity factors * draw) in
  let basal_cal_per_min := 1.2 in
  let active_cal_per_min := activity factors * 5 in
  let calories := (basal_cal_per_min + active_cal_per_min) * INTERVAL_MINUTES in
  let active_minutes := int (activity factors * INTERVAL_MINUTES) in
  noise <~ gauss 0 0.5 ;;
  let spo2 := 97 + noise in
  let spo2 := max 94 (min 100 spo2) in
  rret {| userId := user_id self;
          timestamp := current_time;
          heartRate := round_to (max 45 (min 120 hr)) 1;
          restingHeartRate := round_to (max 50 (min 75 resting_hr)) 1;
          hrv := round_to (max 20 (min 100 hrv)) 1;
          steps := steps_per_interval;
          calories := round_to calories 1;
          activeMinutes := active_minutes;
          spo2 := Some (round_to spo2 1);
          m_is_sleeping := is_sleeping factors |}.

(** *** [generate_sleep_data] *)
Definition generate_sleep_data (self : HealthSimulator)
           (date : datetime) : Rand SleepRecord :=
  duration <~ gauss 7.5 0.5 ;;
  let duration := max 5.5 (min 9.5 duration) in
  noise <~ gauss 0 5 ;;
  let quality := 70 + (duration - 6) * 5 + noise in
  let quality := max 40 (min 100 quality) in
  let total_minutes := int (duration * 60) in
  draw <~ uniform (-0.03) 0.03 ;;
  let deep_pct := 0.15 + draw in
  draw <~ uniform (-0.05) 0.05 ;;
  let rem_pct := 0.25 + draw in
  let light_pct := 1 - deep_pct - rem_pct in
  let sleep_date :=
    {| year := year date; month := month date; day := day date;
       hour := 0; minute := 0; second := 0 |} in
  rret {| s_userId := user_id self;
          date := sleep_date;
          durationHours := round_to duration 2;
          qualityScore := round_to quality 1;
          deepSleepMinutes := int (inject_Z total_minutes * deep_pct);
          remSleepMinutes := int (inject_Z total_minutes * rem_pct);
          lightSleepMinutes := int (inject_Z total_minutes * light_pct) |}.

(** *** The shared data shape

    A generated sample read as the aggregator's [HealthMetric]: the fields of
    the same name, the timestamp in the text form [isoformat] gives it. *)
Definition as_health_metric (isoformat : datetime -> string) (m : Metrics)
  : Main.HealthMetric :=
  {| Main.timestamp := isoformat (timestamp m);
     Main.heartRate := heartRate m;
     Main.restingHeartRate := restingHeartRate m;
     Main.hrv := hrv m;
     Main.steps := steps m;
     Main.calories := calories m;
     Main.activeMinutes := activeMinutes m;
     Main.spo2 := spo2 m |}.

(** The samples the loop of [run_simulation] produces at the successive
    times [ts]. *)
Fixpoint generate_batch (self : HealthSimulator) (ts : list datetime)
  : Rand (list Metrics) :=
  match ts with
  | [] => rret []
  | t :: ts' =>
      m <~ generate_metrics self t ;;
      ms <~ generate_batch self ts' ;;
      rret (m :: ms)
  end.

End Simulator.

(** ** The specification's vocabulary

    Definitions that follow the words of the specification; the theorems below
    compare the code with them. *)

Module Spec.

(** Arithmetic mean. *)
Definition mean (l : list Q) : Q :=
  fold_right Qplus 0 l / inject_Z (Z.of_nat (List.length l)).


(** The chronological split: the first [floor(n/2)] values and the rest. *)
Definition first_half (l : list Q) : list Q := firstn (List.length l / 2) l.
Definition second_half (l : list Q) : list Q := skipn (List.length l / 2) l.



(** [s] is [l] sorted ascending. *)
Definition sorted_ascending (l s : list Q) : Prop :=
  Permutation l s /\ StronglySorted Qle s.

(** The time of day in hours, from the hour, the minute and the second. *)
Definition time_of_day (hour minute second : Z) : Q :=
  inject_Z hour + inject_Z minute / 60 + inject_Z second / 3600.

(** The seven circadian phases of the table. *)
Inductive Phase : Type :=
| Sleep | WakeUp | MidMorning | LunchDip | AfternoonPeak | WindDown | PreSleep.

(** Start and end of each phase, in hours on the 24-hour clock. *)
Definition starts (p : Phase) : Q :=
  match p with
  | Sleep => 23 | WakeUp => 7 | MidMorning => 9 | LunchDip => 12
  | AfternoonPeak => 14 | WindDown => 18 | PreSleep => 21
  end.

Definition ends (p : Phase) : Q :=
  match p with
  | Sleep => 7 | WakeUp => 9 | MidMorning => 12 | LunchDip => 14
  | AfternoonPeak => 18 | WindDown => 21 | PreSleep => 23
  end.

(** The table columns: the value at the start of the phase and the value
    reached at its end (equal outside the two transition phases). *)
Definition hrMult (p : Phase) : Q * Q :=
  match p with
  | Sleep => (0.75, 0.75) | WakeUp => (0.75, 1.00)
  | MidMorning => (1.10, 1.10) | LunchDip => (0.95, 0.95)
  | AfternoonPeak => (1.15, 1.15) | WindDown => (1.10, 0.90)
  | PreSleep => (0.85, 0.85)
  end.

Definition hrvMult (p : Phase) : Q * Q :=
  match p with
  | Sleep => (1.30, 1.30) | WakeUp => (1.30, 1.00)
  | MidMorning => (0.95, 0.95) | LunchDip => (1.05, 1.05)
  | AfternoonPeak => (0.85, 0.85) | WindDown => (0.90, 1.10)
  | PreSleep => (1.15, 1.15)
  end.

Definition activityLevel (p : Phase) : Q * Q :=
  match p with
  | Sleep => (0, 0) | WakeUp => (0, 0.3)
  | MidMorning => (0.6, 0.6) | LunchDip => (0.3, 0.3)
  | AfternoonPeak => (0.8, 0.8) | WindDown => (0.5, 0.2)
  | PreSleep => (0.1, 0.1)
  end.

Definition isSleeping (p : Phase) : bool :=
  match p with
  | Sleep => true
  | _ => false
  end.

(** [t] (hours since midnight) lies in phase [p]: the start is included, the
    end is not, and a phase whose end is before its start wraps past
    midnight. *)
Definition within (p : Phase) (t : Q) : Prop :=
  if Qlt_le_dec (starts p) (ends p)
  then starts p <= t /\ t < ends p
  else starts p <= t \/ t < ends p.

(** Length of the phase and time elapsed since its start, in hours. *)
Definition span (p : Phase) : Q :=
  if Qlt_le_dec (starts p) (ends p)
  then ends p - starts p
  else ends p + 24 - starts p.

Definition elapsed (p : Phase) (t : Q) : Q :=
  if Qlt_le_dec t (starts p) then t + 24 - starts p else t - starts p.

(** Elapsed fraction of the phase span. *)
Definition progress (p : Phase) (t : Q) : Q := elapsed p t / span p.

(** Linear interpolation between the two ends of a column. *)
Definition interpolate (v : Q * Q) (x : Q) : Q :=
  fst v + (snd v - fst v) * x.

End Spec.

(** ** Order statistics and concrete inputs *)

(** How many elements of [l] are at most [v]. *)
Fixpoint count_le (v : Q) (l : list Q) : nat :=
  match l with
  | [] => 0
  | x :: l' => (if Qlt_le_dec v x then 0 else 1) + count_le v l'
  end.

Module Examples.
Import Main.
Open Scope string_scope.

(** A sample with the given HRV, active minutes and SpO2. *)
Definition metric (hrv : Q) (activeMinutes : Z) (spo2 : option Q) : HealthMetric :=
  {| timestamp := "2025-01-01T08:00:00"; heartRate := 70; restingHeartRate := 60;
     hrv := hrv; steps := 0; calories := 0;
     activeMinutes := activeMinutes; spo2 := spo2 |}.

Definition request (ms : list HealthMetric) : HealthAnalysisRequest :=
  {| userId := "u"; date := "2025-01-01"; metrics := ms; sleepData := None |}.

(** Four samples: the sorted HRV values are 10, 20, 30, 40. *)
Definition four_samples : HealthAnalysisRequest :=
  request [metric 40 60 (Some 97); metric 10 60 (Some 97);
           metric 30 60 (Some 97); metric 20 60 (Some 97)].


(** One sample whose SpO2 reading is zero. *)
Definition zero_spo2 : HealthAnalysisRequest :=
  request [metric 50 120 (Some 0)].

(** Two samples with HRV 0 and 1e200: the square of their distance is out of
    the range of binary64. *)
Definition out_of_range : HealthAnalysisRequest :=
  request [metric 0 60 (Some 97); metric (inject_Z (10 ^ 200)) 60 (Some 97)].

End Examples.

Module SimulatorExamples.
Import Simulator.
Open Scope string_scope.

Definition simulator : HealthSimulator := init "V8Fj1w8CJhPJsUgu2mB4XDPzEJs2".

Definition midnight : datetime :=
  {| year := 2025; month := 1; day := 1; hour := 0; minute := 0; second := 0 |}.

(** No gaussian noise; the two uniform draws give [deep_pct = 0.151] and
    [rem_pct = 0.251]. *)
Definition draws : Random :=
  {| normals := fun _ => 0;
     randoms := fun i => match i with O => 31 # 60 | _ => 51 # 100 end |}.

(** The same proportions for a night of 7.4999 hours. *)
Definition short_night : Random :=
  {| normals := fun i => match i with O => - (2 # 10000) | _ => 0 end;
     randoms := fun i => match i with O => 31 # 60 | _ => 51 # 100 end |}.

(** One second before 07:31. *)
Definition nearly_7_31 : datetime :=
  {| year := 2025; month := 1; day := 1; hour := 7; minute := 30; second := 59 |}.
End SimulatorExamples.

(** ** backend/main.py: the sleep wording of [analyze_health] *)

Module SleepWording.
Import Main.
Open Scope string_scope.

(** The comparisons [x >= y] and [x < y] as truth values. *)
Definition ge (x y : Q) : bool := if Qlt_le_dec x y then false else true.
Definition lt (x y : Q) : bool := if Qlt_le_dec x y then true else false.

(** [sleep_quality_description], as [analyze_health] computes it for the
    prompt: empty without sleep data, otherwise chosen from the quality score
    and the duration. *)
Definition sleep_quality_description (sleepData : option SleepData) : string :=
  match sleepData with
  | None => ""
  | Some sd =>
      let score := qualityScore sd in
      let duration := durationHours sd in
      if ge score 85 && ge duration 7 then "excellent and restful"
      else if ge score 70 then "good"
      else if ge score 50 then
        if lt duration 6
        then "short and likely interrupted"
        else "fair, possibly light"
      else
        if lt duration 5
        then "very poor and short"
        else "poor and likely fitful"
  end.

End SleepWording.

(** ** The shared data shape, sleep side

    A generated sleep summary read as the aggregator's [SleepData]: the fields
    of the same name. *)
Definition as_sleep_data (s : Simulator.SleepRecord) : Main.SleepData :=
  {| Main.durationHours := Simulator.durationHours s;
     Main.qualityScore := Simulator.qualityScore s;
     Main.deepSleepMinutes := Simulator.deepSleepMinutes s;
     Main.remSleepMinutes := Simulator.remSleepMinutes s;
     Main.lightSleepMinutes := Simulator.lightSleepMinutes s |}.

(** ** backend/smartwatch_simulator.py: [send_to_firestore] and
       [run_simulation]

    The outside world of the run loop: the state of the [random] module, what
    [time.time()] will return, and whether the coming calls of Firestore's
    [set] return or raise.  The calls made to [set] are the trace of a run. *)

Module Simulation.
Import Py Simulator.

(** [str(n)] for an integer [n]: its decimal digits. *)
Definition str_int (n : Z) : string := DecimalString.NilZero.string_of_int (Z.to_int n).

Record World := {
  random : Random;
  clock : nat -> Q;
  set_returns : nat -> bool
}.

(** The dict handed to [set]. *)
Inductive document : Type :=
| HealthMetrics (m : Metrics)
| SleepData (s : SleepRecord).

(** One call
    [db.collection('users').document(user).collection(c).document(doc_id).set(data)]:
    the path, the data with its added ['id'] entry, and whether [set]
    returned. *)
Record set_call := {
  user : string;
  collection : string;
  doc_id : string;
  data : document;
  data_id : string;
  returned : bool
}.

(** [send_to_firestore]: the document id is built from the clock, stored in
    the data and used as the document name; an exception raised by [set] is
    caught and printed, so the caller sees no difference. *)
Definition send_to_firestore (self : HealthSimulator) (collection : string)
           (data : document) (w : World) : set_call * World :=
  let doc_id :=
    (user_id self ++ "_" ++ str_int (int (clock w 0%nat * 1000)))%string in
  ({| user := user_id self;
      collection := collection;
      doc_id := doc_id;
      data := data;
      data_id := doc_id;
      returned := set_returns w 0%nat |},
   {| random := random w;
      clock := fun i => clock w (S i);
      set_returns := fun i => set_returns w (S i) |}).

(** [current_time.date()] *)
Definition date_of (t : datetime) : Z * Z * Z := (year t, month t, day t).

Definition date_eqb (a b : Z * Z * Z) : bool :=
  let '(y1, m1, d1) := a in
  let '(y2, m2, d2) := b in
  ((y1 =? y2) && (m1 =? m2) && (d1 =? d2))%Z.

(** [current_time.date() != last_sleep_date] *)
Definition date_differs (d : Z * Z * Z) (last_sleep_date : option (Z * Z * Z))
  : bool :=
  match last_sleep_date with
  | None => true
  | Some l => negb (date_eqb d l)
  end.

(** One turn of the [while True] loop of [run_simulation], for the reading
    [current_time] of [datetime.now()]: the calls it makes, the new
    [last_sleep_date] and the new state of the world. *)
Definition iteration (self : HealthSimulator) (current_time : datetime)
           (last_sleep_date : option (Z * Z * Z)) (w : World)
  : list set_call * option (Z * Z * Z) * World :=
  let (metrics, g) := generate_metrics self current_time (random w) in
  let w := {| random := g; clock := clock w; set_returns := set_returns w |} in
  let (call1, w) := send_to_firestore self "health_metrics" (HealthMetrics metrics) w in
  if ((hour current_time =? 0)%Z
      && date_differs (date_of current_time) last_sleep_date)%bool
  then
    let (sleep_data, g) := generate_sleep_data self current_time (random w) in
    let w := {| random := g; clock := clock w; set_returns := set_returns w |} in
    let (call2, w) := send_to_firestore self "sleep_data" (SleepData sleep_data) w in
    ([call1; call2], Some (date_of current_time), w)
  else ([call1], last_sleep_date, w).

(** The loop, for the successive readings [nows] of [datetime.now()]. *)
Fixpoint run_from (self : HealthSimulator) (nows : list datetime)
         (last_sleep_date : option (Z * Z * Z)) (w : World) : list set_call :=
  match nows with
  | [] => []
  | current_time :: rest =>
      let '(calls, last_sleep_date, w) :=
        iteration self current_time last_sleep_date w in
      calls ++ run_from self rest last_sleep_date w
  end.

(** [run_simulation]: the loop entered with [last_sleep_date = None]. *)
Definition run_simulation (self : HealthSimulator) (nows : list datetime)
           (w : World) : list set_call :=
  run_from self nows None w.

(** The samples and the sleep summaries among the documents of a trace. *)
Fixpoint samples_sent (calls : list set_call) : list Metrics :=
  match calls with
  | [] => []
  | c :: rest =>
      match data c with
      | HealthMetrics m => m :: samples_sent rest
      | SleepData _ => samples_sent rest
      end
  end.

Fixpoint summaries_sent (calls : list set_call) : list SleepRecord :=
  match calls with
  | [] => []
  | c :: rest =>
      match data c with
      | HealthMetrics _ => summaries_sent rest
      | SleepData s => s :: summaries_sent rest
      end
  end.

(** Calendar order of dates. *)
Definition date_lt (a b : Z * Z * Z) : Prop :=
  let '(y1, m1, d1) := a in
  let '(y2, m2, d2) := b in
  (y1 < y2 \/ (y1 = y2 /\ (m1 < m2 \/ (m1 = m2 /\ d1 < d2))))%Z.

Definition date_le (a b : Z * Z * Z) : Prop := date_lt a b \/ a = b.

(** The readings never go back to an earlier day. *)
Definition chronological (nows : list datetime) : Prop :=
  StronglySorted (fun a b => date_le (date_of a) (date_of b)) nows.

(** A list of dates with every run of equal neighbours reduced to one, the
    first being compared with [prev]. *)
Fixpoint squeeze (prev : option (Z * Z * Z)) (l : list (Z * Z * Z))
  : list (Z * Z * Z) :=
  match l with
  | [] => []
  | d :: rest =>
      if date_differs d prev then d :: squeeze (Some d) rest
      else squeeze (Some d) rest
  end.

End Simulation.

(** ** Further concrete inputs *)

Module Scenarios.
Import Main.
Open Scope string_scope.

(** Two samples after a night of five hours. *)
Definition short_sleep : HealthAnalysisRequest :=
  {| userId := "u"; date := "2025-01-01";
     metrics := [Examples.metric 50 0 (Some 97); Examples.metric 55 0 (Some 97)];
     sleepData := Some {| durationHours := 5; qualityScore := 60;
                          deepSleepMinutes := 45; remSleepMinutes := 75;
                          lightSleepMinutes := 180 |} |}.

(** The four samples of [Examples.four_samples] in ascending order of HRV. *)
Definition four_samples_sorted : HealthAnalysisRequest :=
  Examples.request [Examples.metric 10 60 (Some 97); Examples.metric 20 60 (Some 97);
                    Examples.metric 30 60 (Some 97); Examples.metric 40 60 (Some 97)].

(** HRV falling from 60 to 40 over the day, and the same readings rising. *)
Definition hrv_falling : HealthAnalysisRequest :=
  Examples.request [Examples.metric 60 0 (Some 97); Examples.metric 60 0 (Some 97);
                    Examples.metric 40 0 (Some 97); Examples.metric 40 0 (Some 97)].

Definition hrv_rising : HealthAnalysisRequest :=
  Examples.request [Examples.metric 40 0 (Some 97); Examples.metric 40 0 (Some 97);
                    Examples.metric 60 0 (Some 97); Examples.metric 60 0 (Some 97)].

(** A quarter past three in the afternoon and in the night. *)
Definition afternoon : Simulator.datetime :=
  {| Simulator.year := 2025; Simulator.month := 1; Simulator.day := 1;
     Simulator.hour := 15; Simulator.minute := 15; Simulator.second := 0 |}.

Definition night : Simulator.datetime :=
  {| Simulator.year := 2025; Simulator.month := 1; Simulator.day := 1;
     Simulator.hour := 3; Simulator.minute := 15; Simulator.second := 0 |}.

(** Readings a few minutes after midnight. *)
Definition after_midnight (day minute : Z) : Simulator.datetime :=
  {| Simulator.year := 2025; Simulator.month := 1; Simulator.day := day;
     Simulator.hour := 0; Simulator.minute := minute; Simulator.second := 0 |}.

(** Two readings in the first night, one in the second. *)
Definition three_midnights : list Simulator.datetime :=
  [after_midnight 1 10; after_midnight 1 11; after_midnight 2 10].

(** The clock is set back a day between the second and the third reading. *)
Definition clock_set_back : list Simulator.datetime :=
  [after_midnight 1 10; after_midnight 2 10; after_midnight 1 20].

(** A world without noise whose clock advances by a minute per reading and
    whose writes all succeed. *)
Definition world : Simulation.World :=
  {| Simulation.random := SimulatorExamples.draws;
     Simulation.clock := fun i => 1735689600 + 60 * inject_Z (Z.of_nat i);
     Simulation.set_returns := fun _ => true |}.


End Scenarios.

(** ** backend/main.py: the relay to the language model

    What the endpoints do with the reply of the provider.  The reply of
    [requests.post] is an input; the library functions the code calls on text
    ([json.loads], [json.dumps], [str], [strip], [lower]) are taken as given.
    The text of the prompts is not modelled, only whether building it
    raises. *)

Module Relay.
Import Py.
Open Scope string_scope.

(** A value decoded from JSON. *)
#[warnings="-register-all"]
Inductive json : Type :=
| JNull
| JBool (b : bool)
| JInt (n : Z)
| JFloat (x : Q)
| JStr (s : string)
| JList (l : list json)
| JDict (d : list (string * json)).

(** What can be raised: the exceptions of [Py], and those of the relay. *)
Inductive error : Type :=
| Raised (e : exn)
| RequestException
| HTTPError
| JSONDecodeError
| AttributeError
| TypeError
| KeyError.

Definition Result (A : Type) : Type := (error + A)%type.

Definition ok {A} (a : A) : Result A := inr a.
Definition fail {A} (e : error) : Result A := inl e.
Definition and_then {A B} (c : Result A) (k : A -> Result B) : Result B :=
  match c with
  | inl e => inl e
  | inr a => k a
  end.

Notation "x <== c ;; k" := (and_then c (fun x => k))
  (at level 61, c at next level, right associativity).

(** [raise HTTPException(status_code=..., detail=...)] *)
Definition http {A} (status_code : Z) (detail : string) : Result A :=
  fail (Raised (HTTPException status_code detail)).

(** The library functions taken as given. *)
Record Library := {
  loads : string -> option json;
  dumps : json -> string;
  str_value : json -> string;
  str_error : error -> string;
  strip_lower : string -> string
}.

(** The outcome of [requests.post]: it raised, or it returned a response with
    a status code and a body, [None] when [response.json()] raises. *)
Inductive reply : Type :=
| NoResponse
| Response (status_code : Z) (body : option json).

(** [response.raise_for_status()] raises for the codes 400 to 599, and
    [response.ok] is true when it does not. *)
Definition is_error_status (status_code : Z) : bool :=
  ((400 <=? status_code) && (status_code <? 600))%Z.

(** Truth value of a decoded value. *)
Definition truth (v : json) : bool :=
  match v with
  | JNull => false
  | JBool b => b
  | JInt n => negb (n =? 0)%Z
  | JFloat x => negb (Qeq_bool x 0)
  | JStr s => negb (s =? "")
  | JList l => match l with [] => false | _ :: _ => true end
  | JDict d => match d with [] => false | _ :: _ => true end
  end.

(** [d.get(key, default)] on a dict. *)
Fixpoint get_default (d : list (string * json)) (key : string) (default : json)
  : json :=
  match d with
  | [] => default
  | (k, v) :: rest => if k =? key then v else get_default rest key default
  end.

(** [value.get(key)] and [value.get(key, default)]: only a dict has [get]. *)
Definition get (value : json) (key : string) : Result json :=
  match value with
  | JDict d => ok (get_default d key JNull)
  | _ => fail AttributeError
  end.

Definition get_or (value : json) (key : string) (default : json) : Result json :=
  match value with
  | JDict d => ok (get_default d key default)
  | _ => fail AttributeError
  end.

(** [value[0]] *)
Definition item0 (value : json) : Result json :=
  match value with
  | JList (x :: _) => ok x
  | JList [] => fail (Raised IndexError)
  | JStr (String c _) => ok (JStr (String c ""))
  | JStr "" => fail (Raised IndexError)
  | JDict _ => fail KeyError
  | _ => fail TypeError
  end.

(** [response.json()] *)
Definition response_json (body : option json) : Result json :=
  match body with
  | Some v => ok v
  | None => fail JSONDecodeError
  end.

(** [json.loads(content)]: the argument must be text. *)
Definition json_loads (py : Library) (content : json) : Result json :=
  match content with
  | JStr s => match loads py s with
              | Some v => ok v
              | None => fail JSONDecodeError
              end
  | _ => fail TypeError
  end.

(** [str(value)]: a string is its own text. *)
Definition str (py : Library) (value : json) : string :=
  match value with
  | JStr s => s
  | _ => str_value py value
  end.

(** [choices[0].get("message") if isinstance(choices[0], dict) else None] *)
Definition message_of (choices : json) : Result json :=
  first <== item0 choices ;;
  match first with
  | JDict _ => get first "message"
  | _ => ok JNull
  end.

(** [(message or {}).get("content") if isinstance(message, dict) else None] *)
Definition content_of (message : json) : Result json :=
  match message with
  | JDict _ => get (if truth message then message else JDict []) "content"
  | _ => ok JNull
  end.

(** [item not in (None, "")] *)
Definition kept (item : json) : bool :=
  match item with
  | JNull => false
  | JStr "" => false
  | _ => true
  end.

(** [_coerce_text] *)
Definition _coerce_text (py : Library) (value : json) : string :=
  match value with
  | JNull => ""
  | JList l => String.concat " " (map (str py) (filter kept l))
  | JDict _ => dumps py value
  | _ => str py value
  end.

(** *** [analyze_health], with the reply of the provider *)

Record HealthResponse := {
  summary : string;
  action : string;
  breakfastSuggestion : string;
  indicatorToWatch : string;
  sleepRemark : string;
  sleepPractices : string;
  alerts : list Main.alert;
  dailyStats : Main.DailyStats
}.

(** An exception of the aggregation, as the endpoint sees it. *)
Definition lift {A} (c : Exc A) : Result A :=
  match c with
  | inl e => inl (Raised e)
  | inr a => inr a
  end.

(** Building the prompt.  Its line
    [- Blood oxygen (SpO2): {avg_spo2:.1f}% if avg_spo2 else 'Not available']
    lies inside the f-string, so [avg_spo2] is formatted with ['.1f'] in every
    case, and [None] does not accept a format.  The other fields are numbers
    and strings, whose formats cannot raise. *)
Definition build_prompt (locals : Main.Locals) : Result unit :=
  match Main.avg_spo2 locals with
  | Some _ => ok tt
  | None => fail TypeError
  end.

(** From [requests.post] to [json.loads(content)]. *)
Definition health_analysis_of (py : Library) (r : reply) : Result json :=
  match r with
  | NoResponse => fail RequestException
  | Response status_code body =>
      if is_error_status status_code
      then http 502 "Health analysis service temporarily unavailable"
      else
        result <== response_json body ;;
        choices <== get result "choices" ;;
        if negb (truth choices)
        then http 502 "Invalid response from health analysis service"
        else
          message <== message_of choices ;;
          content <== content_of message ;;
          if negb (truth content)
          then http 502 "Empty response from health analysis service"
          else json_loads py content
  end.

(** [except HTTPException: raise] / [except Exception as e: raise
    HTTPException(500, f"Health analysis failed: {str(e)}")] *)
Definition health_handler {A} (py : Library) (c : Result A) : Result A :=
  match c with
  | inl (Raised (HTTPException s d)) => inl (Raised (HTTPException s d))
  | inl e => http 500 ("Health analysis failed: " ++ str_error py e)
  | inr a => inr a
  end.

Definition analyze_health (py : Library) (request : Main.HealthAnalysisRequest)
           (r : reply) : Result HealthResponse :=
  health_handler py
    (locals <== lift (Main.aggregate request) ;;
     prompt <== build_prompt locals ;;
     analysis <== health_analysis_of py r ;;
     summary <== get analysis "summary" ;;
     action <== get analysis "action" ;;
     breakfastSuggestion <== get analysis "breakfastSuggestion" ;;
     indicatorToWatch <== get analysis "indicatorToWatch" ;;
     sleepRemark <== get analysis "sleepRemark" ;;
     sleepPractices <== get analysis "sleepPractices" ;;
     ok {| summary := _coerce_text py summary;
           action := _coerce_text py action;
           breakfastSuggestion := _coerce_text py breakfastSuggestion;
           indicatorToWatch := _coerce_text py indicatorToWatch;
           sleepRemark := _coerce_text py sleepRemark;
           sleepPractices := _coerce_text py sleepPractices;
           alerts := Main.alerts locals;
           dailyStats := Main.dailyStats (Main.build_response locals) |}).

(** *** [analyze_daily] *)

(** [class Nutrition(BaseModel)] *)
Record Nutrition := {
  calories : Q;
  proteins : Q;
  carbs : Q;
  fats : Q;
  fibers : Q
}.

(** [class MealAnalysis(BaseModel)] *)
Record MealAnalysis := {
  meal_userId : string;
  mealType : string;
  timestamp : string;
  dishName : string;
  ingredients : list string;
  nutrition : Nutrition;
  healthAdvice : string;
  recommendation : string;
  allergiesDetected : option (list string)
}.

(** [class DailyAnalysisRequest(BaseModel)] *)
Record DailyAnalysisRequest := {
  userId : string;
  date : string;
  meals : list MealAnalysis
}.

(** The [summary] dict that [analyze_daily] returns. *)
Record DailySummary := {
  id : string;
  summary_userId : string;
  summary_date : string;
  mealAnalysisIds : list string;
  totalNutrition : Nutrition;
  globalAdvice : string;
  recommendations : string;
  needsMet : bool
}.

(** The [needsMet] entry: a string is compared, once stripped and lowered,
    with the four spellings of yes; anything else counts by its truth
    value. *)
Definition needs_met_of (py : Library) (needs_met : json) : bool :=
  match needs_met with
  | JStr s =>
      existsb (String.eqb (strip_lower py s)) ["true"; "oui"; "yes"; "1"]
  | _ => truth needs_met
  end.

(** From [requests.post] to [json.loads(content)].  The detail of the
    [HTTPException] raised for a reply without choices is the provider's own
    message when there is one; it is kept here as its text. *)
Definition daily_analysis_of (py : Library) (r : reply) : Result json :=
  match r with
  | NoResponse => fail RequestException
  | Response status_code body =>
      if is_error_status status_code then fail HTTPError
      else
        result <== response_json body ;;
        choices <== get result "choices" ;;
        if negb (truth choices)
        then
          error_detail <==
            match result with
            | JDict _ =>
                error <== get_or result "error" (JDict []) ;;
                get error "message"
            | _ => ok JNull
            end ;;
          http 502 (if truth error_detail then str py error_detail
                    else "Réponse inattendue du fournisseur OpenRouter.")
        else
          message <== message_of choices ;;
          content <== content_of message ;;
          if negb (truth content)
          then http 502 "Réponse vide d'OpenRouter. Réessayez ultérieurement."
          else json_loads py content
  end.

(** [except Exception as e: raise HTTPException(500, ...)]: the only handler
    of [analyze_daily], which therefore also catches the [HTTPException]s
    raised above. *)
Definition daily_handler {A} (py : Library) (c : Result A) : Result A :=
  match c with
  | inl e => http 500 ("Erreur d'analyse journalière: " ++ str_error py e)
  | inr a => inr a
  end.

Definition analyze_daily (py : Library) (request : DailyAnalysisRequest)
           (r : reply) : Result DailySummary :=
  daily_handler py
    (let total_calories :=
       sum (map (fun meal => calories (nutrition meal)) (meals request)) in
     let total_proteins :=
       sum (map (fun meal => proteins (nutrition meal)) (meals request)) in
     let total_carbs :=
       sum (map (fun meal => carbs (nutrition meal)) (meals request)) in
     let total_fats :=
       sum (map (fun meal => fats (nutrition meal)) (meals request)) in
     let total_fibers :=
       sum (map (fun meal => fibers (nutrition meal)) (meals request)) in
     daily_analysis <== daily_analysis_of py r ;;
     needs_met <== get_or daily_analysis "needsMet" (JBool false) ;;
     let needs_met := needs_met_of py needs_met in
     globalAdvice <== get daily_analysis "globalAdvice" ;;
     recommendations <== get daily_analysis "recommendations" ;;
     ok {| id := userId request ++ "_" ++ date request;
           summary_userId := userId request;
           summary_date := date request;
           mealAnalysisIds := map timestamp (meals request);
           totalNutrition := {| calories := total_calories;
                                proteins := total_proteins;
                                carbs := total_carbs;
                                fats := total_fats;
                                fibers := total_fibers |};
           globalAdvice := _coerce_text py globalAdvice;
           recommendations := _coerce_text py recommendations;
           needsMet := needs_met |}).

End Relay.

(** ** Concrete inputs of the relay *)

Module RelayExamples.
Import Relay.
Open Scope string_scope.

(** A library whose [json.loads] reads the empty object only. *)
Definition library : Library :=
  {| loads := fun s => if s =? "{}" then Some (JDict []) else None;
     dumps := fun _ => "{}";
     str_value := fun _ => "";
     str_error := fun _ => "";
     strip_lower := fun s => s |}.

(** The reply of a provider whose first choice carries the text [content]. *)
Definition completion (content : string) : reply :=
  Response 200
    (Some (JDict [("choices",
                   JList [JDict [("message",
                                  JDict [("content", JStr content)])]])])).

(** A day without meals, and a day with two. *)
Definition no_meals : DailyAnalysisRequest :=
  {| userId := "u"; date := "2025-01-01"; meals := [] |}.

Definition meal (timestamp : string) (calories : Q) : MealAnalysis :=
  {| meal_userId := "u"; mealType := "lunch"; timestamp := timestamp;
     dishName := "soup"; ingredients := [];
     nutrition := {| calories := calories; proteins := 10; carbs := 20;
                     fats := 5; fibers := 3 |};
     healthAdvice := ""; recommendation := ""; allergiesDetected := None |}.

Definition two_meals : DailyAnalysisRequest :=
  {| userId := "u"; date := "2025-01-01";
     meals := [meal "2025-01-01T12:00:00" 400; meal "2025-01-01T19:00:00" 600] |}.

End RelayExamples.

(** * Proofs *)

Import Py.

(** Divisions by the literals of the code, turned into multiplications so that
    linear arithmetic applies. *)
Ltac divisions :=
  unfold Qdiv in *;
  repeat match goal with
    | |- context [Qinv ?c] =>
        let v := eval vm_compute in (Qinv c) in
        lazymatch v with Qmake _ _ => change (Qinv c) with v in * end
    | H : context [Qinv ?c] |- _ =>
        let v := eval vm_compute in (Qinv c) in
        lazymatch v with Qmake _ _ => change (Qinv c) with v in * end
  end.

Section PythonFacts.

Lemma truediv_ok x y : ~ y == 0 -> truediv x y = inr (x / y).
Proof.
  intros H. unfold truediv. destruct (Qeq_bool y 0) eqn:E; [|reflexivity].
  apply Qeq_bool_eq in E. contradiction.
Qed.

Lemma fold_left_Qplus l : forall a, fold_left Qplus l a == a + fold_right Qplus 0 l.
Proof.
  induction l as [|x l IH]; intros a; simpl.
  - ring.
  - rewrite IH. ring.
Qed.

Lemma sum_fold_right l : sum l == fold_right Qplus 0 l.
Proof. unfold sum. rewrite fold_left_Qplus. ring. Qed.


Lemma of_nat_pos n : (0 < n)%nat -> 0 < inject_Z (Z.of_nat n).
Proof.
  intros H. change 0 with (inject_Z 0). rewrite <- Zlt_Qlt. lia.
Qed.

Lemma len_pos {A} (l : list A) : l <> [] -> 0 < len l.
Proof.
  intros H. apply of_nat_pos. destruct l; [congruence | simpl; lia].
Qed.

Lemma half_lt n : (0 < n)%nat -> (n / 2 < n)%nat.
Proof. intros H. apply Nat.div_lt; lia. Qed.

Lemma getitem_nth {A} (l : list A) i d :
  (i < List.length l)%nat -> getitem l i = inr (nth i l d).
Proof.
  intros H. unfold getitem. rewrite (nth_error_nth' l d H). reflexivity.
Qed.

End PythonFacts.

Section PythonRounding.

Lemma round_floor_or_next x :
  round x = Qfloor x
  \/ (round x = Qfloor x + 1)%Z /\ inject_Z (Qfloor x) + (1 # 2) <= x.
Proof.
  unfold round. cbv zeta.
  destruct (Qlt_le_dec (x - inject_Z (Qfloor x)) (1 # 2)) as [H|H]; [left; reflexivity|].
  destruct (Qlt_le_dec (1 # 2) (x - inject_Z (Qfloor x))) as [H'|H'].
  - right. split; [reflexivity | lra].
  - destruct (Z.even (Qfloor x)); [left; reflexivity | right; split; [reflexivity | lra]].
Qed.

Lemma round_lower (z : Z) x : inject_Z z <= x -> (z <= round x)%Z.
Proof.
  intros H. apply Qfloor_resp_le in H. rewrite Qfloor_Z in H.
  destruct (round_floor_or_next x) as [E|[E _]]; lia.
Qed.

Lemma round_upper (z : Z) x : x <= inject_Z z -> (round x <= z)%Z.
Proof.
  intros H. pose proof (Qfloor_le x) as Hf.
  destruct (round_floor_or_next x) as [E|[E Hh]]; rewrite E.
  - rewrite Zle_Qle. lra.
  - assert (inject_Z (Qfloor x) < inject_Z z) by lra.
    rewrite <- Zlt_Qlt in *. lia.
Qed.

(** Rounding to one decimal keeps a value inside integer bounds. *)
Lemma round_to_1_bounds (a b : Z) x :
  inject_Z a <= x -> x <= inject_Z b ->
  inject_Z a <= round_to x 1 /\ round_to x 1 <= inject_Z b.
Proof.
  intros Ha Hb. unfold round_to. change (inject_Z (10 ^ Z.of_nat 1)) with 10.
  assert (La : (a * 10 <= round (x * 10))%Z).
  { apply round_lower. rewrite inject_Z_mult. change (inject_Z 10) with 10. lra. }
  assert (Lb : (round (x * 10) <= b * 10)%Z).
  { apply round_upper. rewrite inject_Z_mult. change (inject_Z 10) with 10. lra. }
  rewrite Zle_Qle, inject_Z_mult in La, Lb. change (inject_Z 10) with 10 in *.
  set (r := inject_Z (round (x * 10))) in *.
  split.
  - apply Qle_shift_div_l; lra.
  - apply Qle_shift_div_r; lra.
Qed.

Lemma round_near x :
  inject_Z (round x) - (1 # 2) <= x /\ x <= inject_Z (round x) + (1 # 2).
Proof.
  pose proof (Qfloor_le x) as Hlo. pose proof (Qlt_floor x) as Hhi.
  rewrite inject_Z_plus in Hhi. change (inject_Z 1) with 1 in Hhi.
  unfold round. cbv zeta.
  destruct (Qlt_le_dec (x - inject_Z (Qfloor x)) (1 # 2)) as [H|H]; [split; lra|].
  destruct (Qlt_le_dec (1 # 2) (x - inject_Z (Qfloor x))) as [H'|H'].
  - rewrite inject_Z_plus. change (inject_Z 1) with 1. split; lra.
  - destruct (Z.even (Qfloor x)); [split; lra|].
    rewrite inject_Z_plus. change (inject_Z 1) with 1. split; lra.
Qed.

Lemma round_to_2_near x :
  round_to x 2 - (1 # 200) <= x /\ x <= round_to x 2 + (1 # 200).
Proof.
  unfold round_to. change (inject_Z (10 ^ Z.of_nat 2)) with 100.
  destruct (round_near (x * 100)) as [H1 H2].
  set (r := inject_Z (round (x * 100))) in *.
  divisions. split; lra.
Qed.

Lemma int_floor x : 0 <= x -> int x = Qfloor x.
Proof.
  intros H. unfold int. destruct (Qlt_le_dec x 0); [lra | reflexivity].
Qed.

End PythonRounding.

Section Sorting.

Lemma sorted_permutation l : Permutation l (sorted l).
Proof. apply QSort.Permuted_sort. Qed.

Lemma sorted_length l : List.length (sorted l) = List.length l.
Proof. symmetry. apply Permutation_length, sorted_permutation. Qed.

Lemma sorted_strongly l : StronglySorted Qle (sorted l).
Proof.
  assert (T : Transitive (fun x y : Q => is_true (Qle_bool x y))).
  { intros x y z. unfold is_true. rewrite !Qle_bool_iff. apply Qle_trans. }
  pose proof (QSort.StronglySorted_sort l T) as H. unfold sorted.
  induction H as [|a s Hs IH Ha]; constructor; auto.
  eapply Forall_impl; [|exact Ha]. intros b Hb. apply Qle_bool_iff, Hb.
Qed.

Lemma sorted_is_ascending l : Spec.sorted_ascending l (sorted l).
Proof. split; [apply sorted_permutation | apply sorted_strongly]. Qed.

Lemma count_le_permutation v l l' :
  Permutation l l' -> count_le v l = count_le v l'.
Proof.
  induction 1; simpl; lia.
Qed.

Lemma count_le_above s k :
  StronglySorted Qle s -> (k < List.length s)%nat ->
  (k < count_le (nth k s 0%Q) s)%nat.
Proof.
  intros Hs. revert k.
  induction Hs as [|a s Hs IH Ha]; intros k Hk; simpl in Hk; [lia|].
  destruct k as [|k]; simpl.
  - destruct (Qlt_le_dec a a) as [H|H]; [lra | lia].
  - assert (Hk' : (k < List.length s)%nat) by lia.
    specialize (IH k Hk').
    assert (Hle : a <= nth k s 0).
    { rewrite Forall_forall in Ha. apply Ha, nth_In, Hk'. }
    destruct (Qlt_le_dec (nth k s 0) a) as [H|H]; [lra | lia].
Qed.

Lemma count_le_below u s k :
  StronglySorted Qle s -> (k < List.length s)%nat ->
  u < nth k s 0 -> (count_le u s <= k)%nat.
Proof.
  intros Hs. revert k.
  induction Hs as [|a s Hs IH Ha]; intros k Hk Hu; simpl in Hk; [lia|].
  destruct k as [|k]; simpl in *.
  - destruct (Qlt_le_dec u a) as [H|H]; [|lra].
    assert (E : count_le u s = 0%nat).
    { clear IH Hs Hk. induction s as [|b s IHs]; simpl; [reflexivity|].
      inversion Ha; subst.
      destruct (Qlt_le_dec u b) as [Hb|Hb]; [auto | lra]. }
    lia.
  - assert (Hk' : (k < List.length s)%nat) by lia.
    specialize (IH k Hk' Hu).
    destruct (Qlt_le_dec u a); lia.
Qed.

(** The order statistics of a list do not depend on how it was sorted. *)
Lemma order_statistic_unique l s1 s2 k :
  Spec.sorted_ascending l s1 -> Spec.sorted_ascending l s2 ->
  (k < List.length l)%nat -> nth k s1 0 == nth k s2 0.
Proof.
  intros [P1 S1] [P2 S2] Hk.
  assert (L1 : (k < List.length s1)%nat)
    by (rewrite <- (Permutation_length P1); exact Hk).
  assert (L2 : (k < List.length s2)%nat)
    by (rewrite <- (Permutation_length P2); exact Hk).
  assert (P12 : Permutation s1 s2)
    by (eapply Permutation_trans; [apply Permutation_sym, P1 | exact P2]).
  destruct (Q_dec (nth k s1 0) (nth k s2 0)) as [[H|H]|H]; [| |exact H]; exfalso.
  - pose proof (count_le_above s1 k S1 L1) as A.
    pose proof (count_le_below _ s2 k S2 L2 H) as B.
    rewrite (count_le_permutation _ _ _ P12) in A. lia.
  - pose proof (count_le_above s2 k S2 L2) as A.
    pose proof (count_le_below _ s1 k S1 L1 H) as B.
    rewrite (count_le_permutation _ _ _ P12) in B. lia.
Qed.

End Sorting.

Section Aggregation.
Import Main.

Lemma in_sleep_rule x sd a :
  In x (sleep_rule sd a) <->
  In x a \/ exists s, sd = Some s /\ durationHours s < 6
                      /\ x = SleepDurationLow (durationHours s).
Proof.
  unfold sleep_rule. destruct sd as [s|].
  - destruct (Qlt_le_dec (durationHours s) 6) as [H|H].
    + rewrite in_app_iff. simpl. split.
      * intros [Hx|[Hx|[]]]; [left; exact Hx | right; exists s; auto].
      * intros [Hx|(s' & E & _ & Hx)]; [left; exact Hx|].
        inversion E; subst. right. left. reflexivity.
    + split; [auto|]. intros [Hx|(s' & E & Hlt & _)]; [exact Hx|].
      inversion E; subst. lra.
  - split; [auto|]. intros [Hx|(s' & E & _)]; [exact Hx | discriminate].
Qed.

Lemma in_spo2_rule x o a :
  In x (spo2_rule o a) <->
  In x a \/ exists v, o = Some v /\ ~ v == 0 /\ v < 94 /\ x = LowBloodOxygen v.
Proof.
  unfold spo2_rule. destruct o as [v|]; simpl.
  - destruct (Qeq_bool v 0) eqn:E; simpl.
    + apply Qeq_bool_eq in E. split; [auto|].
      intros [Hx|(v' & Ev & Hn & _)]; [exact Hx|]. inversion Ev; subst. contradiction.
    + apply Qeq_bool_neq in E.
      destruct (Qlt_le_dec v 94) as [H|H].
      * rewrite in_app_iff. simpl. split.
        -- intros [Hx|[Hx|[]]]; [left; exact Hx | right; exists v; auto].
        -- intros [Hx|(v' & Ev & _ & _ & Hx)]; [left; exact Hx|].
           inversion Ev; subst. right. left. reflexivity.
      * split; [auto|]. intros [Hx|(v' & Ev & _ & Hlt & _)]; [exact Hx|].
        inversion Ev; subst. lra.
  - split; [auto|]. intros [Hx|(v' & Ev & _)]; [exact Hx | discriminate].
Qed.

Lemma in_sedentary_rule x h a :
  In x (sedentary_rule h a) <-> In x a \/ (22 < h /\ x = VeryLowActivity).
Proof.
  unfold sedentary_rule. destruct (Qlt_le_dec 22 h) as [H|H].
  - rewrite in_app_iff. simpl. split.
    + intros [Hx|[Hx|[]]]; auto.
    + intros [Hx|[_ Hx]]; auto.
  - split; [auto|]. intros [Hx|[Hlt _]]; [exact Hx | lra].
Qed.

Lemma mean_first_half l :
  sum (firstn (List.length l / 2) l) / inject_Z (Z.of_nat (List.length l / 2))
  == Spec.mean (Spec.first_half l).
Proof.
  unfold Spec.mean, Spec.first_half. rewrite sum_fold_right.
  rewrite length_firstn, Nat.min_l; [reflexivity|].
  apply Nat.Div0.div_le_upper_bound. lia.
Qed.

Lemma mean_second_half l :
  sum (skipn (List.length l / 2) l)
    / inject_Z (Z.of_nat (List.length l - List.length l / 2))
  == Spec.mean (Spec.second_half l).
Proof.
  unfold Spec.mean, Spec.second_half. rewrite sum_fold_right.
  rewrite length_skipn. reflexivity.
Qed.

(** The condition under which the code appends the HRV-drop alert. *)
Lemma hrv_drop_rule_spec l a :
  exists a',
    hrv_drop_rule l a = inr a' /\
    (a' = a \/ a' = a ++ [HRVDropped]) /\
    forall x, In x a' <->
              In x a \/
              (x = HRVDropped /\ (1 < List.length l)%nat
               /\ 0 < Spec.mean (Spec.first_half l)
               /\ 0.20 * Spec.mean (Spec.first_half l)
                  < Spec.mean (Spec.first_half l) - Spec.mean (Spec.second_half l)).
Proof.
  unfold hrv_drop_rule.
  destruct (Nat.ltb_spec 1 (List.length l)) as [Hn|Hn].
  2:{ exists a. split; [reflexivity|]. split; [left; reflexivity|].
      intros x. split; [auto|].
      intros [Hx|(_ & Hlt & _)]; [exact Hx | lia]. }
  assert (Hhalf : (0 < List.length l / 2)%nat).
  { apply Nat.div_str_pos. lia. }
  assert (Hrest : (0 < List.length l - List.length l / 2)%nat).
  { pose proof (half_lt (List.length l)). lia. }
  rewrite truediv_ok by (pose proof (of_nat_pos _ Hhalf); lra).
  rewrite truediv_ok by (pose proof (of_nat_pos _ Hrest); lra).
  cbn [bind].
  pose proof (mean_first_half l) as Eb. pose proof (mean_second_half l) as Er.
  set (b := sum (firstn _ l) / _) in *. set (r := sum (skipn _ l) / _) in *.
  set (mb := Spec.mean (Spec.first_half l)) in *.
  set (mr := Spec.mean (Spec.second_half l)) in *.
  destruct (Qlt_le_dec 0 b) as [Hb|Hb].
  2:{ exists a. split; [reflexivity|]. split; [left; reflexivity|].
      intros x. split; [auto|].
      intros [Hx|(_ & _ & Hpos & _)]; [exact Hx | lra]. }
  rewrite truediv_ok by lra. cbn [bind].
  assert (Hd : (b - r) / b * b == b - r) by (field; lra).
  set (d := (b - r) / b) in *.
  destruct (Qlt_le_dec 0.20 d) as [Hlt|Hge].
  - exists (a ++ [HRVDropped]). split; [reflexivity|].
    split; [right; reflexivity|]. intros x.
    rewrite in_app_iff. simpl. split.
    + intros [Hx|[Hx|[]]]; [left; exact Hx|]. right.
      repeat split; auto; try lra. nra.
    + intros [Hx|[Hx _]]; auto.
  - exists a. split; [reflexivity|]. split; [left; reflexivity|].
    intros x. split; [auto|].
    intros [Hx|(_ & _ & _ & Hc)]; [exact Hx|]. exfalso. nra.
Qed.

Lemma avg_spo2_of_ok vs :
  avg_spo2_of vs =
  inr (match vs with [] => None | _ :: _ => Some (sum vs / len vs) end).
Proof.
  destruct vs as [|v vs]; [reflexivity|].
  unfold avg_spo2_of. rewrite truediv_ok; [reflexivity|].
  assert (0 < len (v :: vs)) by (apply len_pos; discriminate). lra.
Qed.

(** A square is its own magnitude. *)
Lemma square_nonneg x : 0 <= x ^ 2.
Proof. assert (E : x ^ 2 == x * x) by (simpl; ring). rewrite E. nra. Qed.

Lemma pow_2_returns x : x ^ 2 < overflow_threshold -> pow x 2 = inr (x ^ 2).
Proof.
  intros H. unfold pow. pose proof (Qabs_pos _ (square_nonneg x)) as Ea.
  destruct (Qlt_le_dec (Qabs (x ^ 2)) overflow_threshold) as [L|L];
    [reflexivity|].
  rewrite Ea in L. exfalso. apply (Qlt_not_le _ _ H L).
Qed.

Lemma pow_2_raises x : overflow_threshold <= x ^ 2 -> pow x 2 = inl OverflowError.
Proof.
  intros H. unfold pow. pose proof (Qabs_pos _ (square_nonneg x)) as Ea.
  destruct (Qlt_le_dec (Qabs (x ^ 2)) overflow_threshold) as [L|L];
    [|reflexivity].
  rewrite Ea in L. exfalso. apply (Qlt_not_le _ _ L H).
Qed.

(** The squares of the deviations: all of them, or [OverflowError] at the
    first one that is out of range. *)
Lemma generator_squares l c :
  (Forall (fun x => (x - c) ^ 2 < overflow_threshold) l /\
   generator (fun x => pow (x - c) 2) l = inr (map (fun x => (x - c) ^ 2) l))
  \/ (Exists (fun x => overflow_threshold <= (x - c) ^ 2) l /\
      generator (fun x => pow (x - c) 2) l = inl OverflowError).
Proof.
  induction l as [|x l IH]; cbn [generator map].
  - left. split; [constructor | reflexivity].
  - destruct (Qlt_le_dec ((x - c) ^ 2) overflow_threshold) as [H|H].
    + rewrite (pow_2_returns _ H). cbn [bind].
      destruct IH as [[Hall ->]|[Hex ->]]; cbn [bind].
      * left. split; [constructor; assumption | reflexivity].
      * right. split; [apply Exists_cons_tl, Hex | reflexivity].
    + rewrite (pow_2_raises _ H). cbn [bind].
      right. split; [apply Exists_cons_hd, H | reflexivity].
Qed.

Lemma hrv_variance_of_spec l c :
  l <> [] ->
  (Forall (fun x => (x - c) ^ 2 < overflow_threshold) l /\
   hrv_variance_of l c = inr (sum (map (fun x => (x - c) ^ 2) l) / len l))
  \/ (Exists (fun x => overflow_threshold <= (x - c) ^ 2) l /\
      hrv_variance_of l c = inl OverflowError).
Proof.
  intros Hne. unfold hrv_variance_of.
  destruct (generator_squares l c) as [[Hall ->]|[Hex ->]]; cbn [bind].
  - left. split; [exact Hall|].
    apply truediv_ok. pose proof (len_pos _ Hne). lra.
  - right. split; [exact Hex | reflexivity].
Qed.

(** A deviation out of range and deviations all in range exclude each
    other. *)
Lemma in_range_or_not l c :
  Forall (fun x => (x - c) ^ 2 < overflow_threshold) l ->
  Exists (fun x => overflow_threshold <= (x - c) ^ 2) l -> False.
Proof.
  intros Hall Hex. apply Exists_exists in Hex. destruct Hex as (x & Hx & Hge).
  rewrite Forall_forall in Hall. specialize (Hall x Hx). cbv beta in *.
  apply (Qlt_not_le _ _ Hall Hge).
Qed.

(** The two outcomes of [aggregate] on a non-empty batch: [OverflowError]
    when the square of a deviation from the median is out of range, and
    otherwise the locals, field by field. *)
Lemma aggregate_cases request :
  metrics request <> [] ->
  (Exists (fun x => overflow_threshold
                    <= (x - nth (List.length (hrv_values_of request) / 2)
                                (sorted (hrv_values_of request)) 0) ^ 2)
          (hrv_values_of request)
   /\ aggregate request = inl OverflowError)
  \/ (Forall (fun x => (x - nth (List.length (hrv_values_of request) / 2)
                                (sorted (hrv_values_of request)) 0) ^ 2
                       < overflow_threshold)
             (hrv_values_of request)
      /\ exists loc a1,
          aggregate request = inr loc /\
          hrv_drop_rule (hrv_values_of request) [] = inr a1 /\
          (a1 = [] \/ a1 = [HRVDropped]) /\
          median_hrv loc
          = nth (List.length (hrv_values_of request) / 2)
                (sorted (hrv_values_of request)) 0 /\
          avg_resting_hr loc
          = sum (map restingHeartRate (metrics request))
            / len (map restingHeartRate (metrics request)) /\
          avg_spo2 loc
          = match spo2_values_of (metrics request) with
            | [] => None
            | _ :: _ => Some (sum (spo2_values_of (metrics request))
                              / len (spo2_values_of (metrics request)))
            end /\
          total_steps loc = sumZ (map steps (metrics request)) /\
          total_calories loc = sum (map calories (metrics request)) /\
          total_active_minutes loc = sumZ (map activeMinutes (metrics request)) /\
          hrv_variance loc
          = sum (map (fun x => (x - median_hrv loc) ^ 2) (hrv_values_of request))
            / len (hrv_values_of request) /\
          stress_level loc = min 10 (hrv_variance loc / 10) /\
          sedentary_hours loc = sedentary_hours_of (total_active_minutes loc) /\
          alerts loc = sedentary_rule (sedentary_hours loc)
                         (spo2_rule (avg_spo2 loc)
                                    (sleep_rule (sleepData request) a1))).
Proof.
  intros Hne. unfold aggregate.
  destruct (metrics request) as [|m ms] eqn:Em; [congruence|]. rewrite <- Em.
  assert (Hh : hrv_values_of request <> []).
  { unfold hrv_values_of. rewrite Em. discriminate. }
  assert (Hr : map restingHeartRate (metrics request) <> []).
  { rewrite Em. discriminate. }
  rewrite (getitem_nth _ _ 0).
  2:{ rewrite sorted_length. apply half_lt.
      destruct (hrv_values_of request); [congruence | simpl; lia]. }
  cbn [bind].
  rewrite truediv_ok by (pose proof (len_pos _ Hr); lra). cbn [bind].
  rewrite avg_spo2_of_ok. cbn [bind].
  set (med := nth (List.length (hrv_values_of request) / 2)
                  (sorted (hrv_values_of request)) 0).
  destruct (hrv_variance_of_spec (hrv_values_of request) med Hh)
    as [[Hall ->]|[Hex ->]]; cbn [bind].
  2:{ left. split; [exact Hex | reflexivity]. }
  right. split; [exact Hall|].
  destruct (hrv_drop_rule_spec (hrv_values_of request) []) as (a1 & E1 & Ha1 & _).
  rewrite E1. cbn [bind].
  eexists. exists a1. split; [reflexivity|]. cbn.
  repeat split; auto.
Qed.

(** The locals of a batch on which [aggregate] returns, field by field. *)
Lemma aggregate_fields request loc :
  aggregate request = inr loc ->
  exists a1,
    metrics request <> [] /\
    hrv_drop_rule (hrv_values_of request) [] = inr a1 /\
    (a1 = [] \/ a1 = [HRVDropped]) /\
    median_hrv loc
    = nth (List.length (hrv_values_of request) / 2)
          (sorted (hrv_values_of request)) 0 /\
    avg_resting_hr loc
    = sum (map restingHeartRate (metrics request))
      / len (map restingHeartRate (metrics request)) /\
    avg_spo2 loc
    = match spo2_values_of (metrics request) with
      | [] => None
      | _ :: _ => Some (sum (spo2_values_of (metrics request))
                        / len (spo2_values_of (metrics request)))
      end /\
    total_steps loc = sumZ (map steps (metrics request)) /\
    total_calories loc = sum (map calories (metrics request)) /\
    total_active_minutes loc = sumZ (map activeMinutes (metrics request)) /\
    hrv_variance loc
    = sum (map (fun x => (x - median_hrv loc) ^ 2) (hrv_values_of request))
      / len (hrv_values_of request) /\
    stress_level loc = min 10 (hrv_variance loc / 10) /\
    sedentary_hours loc = sedentary_hours_of (total_active_minutes loc) /\
    alerts loc = sedentary_rule (sedentary_hours loc)
                   (spo2_rule (avg_spo2 loc) (sleep_rule (sleepData request) a1)).
Proof.
  intros E.
  assert (Hne : metrics request <> []).
  { intros E0. unfold aggregate in E. rewrite E0 in E. discriminate. }
  destruct (aggregate_cases request Hne) as [[_ E']|[_ (loc' & a1 & E' & H)]].
  - congruence.
  - rewrite E in E'. injection E' as <-. exists a1. split; [exact Hne | exact H].
Qed.

(** The same, with the fields the alert rules read. *)
Lemma aggregate_ok request loc :
  aggregate request = inr loc ->
  exists a1,
    median_hrv loc
    = nth (List.length (hrv_values_of request) / 2) (sorted (hrv_values_of request)) 0 /\
    avg_spo2_of (spo2_values_of (metrics request)) = inr (avg_spo2 loc) /\
    total_active_minutes loc = sumZ (map activeMinutes (metrics request)) /\
    hrv_variance loc
    = sum (map (fun x => (x - median_hrv loc) ^ 2) (hrv_values_of request))
      / len (hrv_values_of request) /\
    stress_level loc = min 10 (hrv_variance loc / 10) /\
    sedentary_hours loc = sedentary_hours_of (total_active_minutes loc) /\
    hrv_drop_rule (hrv_values_of request) [] = inr a1 /\
    alerts loc = sedentary_rule (sedentary_hours loc)
                   (spo2_rule (avg_spo2 loc) (sleep_rule (sleepData request) a1)).
Proof.
  intros E.
  destruct (aggregate_fields request loc E)
    as (a1 & _ & Hd & _ & Hmed & _ & Hs & _ & _ & Ht & Hv & Hst & Hsed & Ha).
  exists a1. split; [exact Hmed|].
  split; [rewrite avg_spo2_of_ok, Hs; reflexivity|].
  repeat split; assumption.
Qed.

(** [aggregate] returns on a non-empty batch whose squared deviations from
    the median are in range. *)
Lemma aggregate_returns request :
  metrics request <> [] ->
  Forall (fun x => (x - nth (List.length (hrv_values_of request) / 2)
                             (sorted (hrv_values_of request)) 0) ^ 2
                   < overflow_threshold)
         (hrv_values_of request) ->
  exists loc, aggregate request = inr loc.
Proof.
  intros Hne Hall.
  destruct (aggregate_cases request Hne) as [[Hex _]|[_ (loc & _ & E & _)]].
  - exfalso. exact (in_range_or_not _ _ Hall Hex).
  - exists loc. exact E.
Qed.


(** The only exceptions of [aggregate]: the empty-input error on an empty
    batch, [OverflowError] on a non-empty one. *)
Lemma aggregate_raises request e :
  aggregate request = inl e ->
  (metrics request = []
   /\ e = HTTPException 400 "No health metrics provided")
  \/ (metrics request <> [] /\ e = OverflowError).
Proof.
  intros E. destruct (metrics request) as [|m ms] eqn:Em.
  - left. split; [reflexivity|]. unfold aggregate in E. rewrite Em in E.
    injection E as <-. reflexivity.
  - right. assert (Hne : metrics request <> []) by (rewrite Em; discriminate).
    rewrite <- Em. split; [exact Hne|].
    destruct (aggregate_cases request Hne) as [[_ E']|[_ (loc & _ & E' & _)]];
      congruence.
Qed.

(** Magnitudes up to [10^150] have deviations whose squares are in range. *)
Lemma moderate_square_in_range x c :
  Qabs x <= inject_Z (10 ^ 150) -> Qabs c <= inject_Z (10 ^ 150) ->
  (x - c) ^ 2 < overflow_threshold.
Proof.
  intros Hx Hc. apply Qabs_Qle_condition in Hx. apply Qabs_Qle_condition in Hc.
  assert (E : (x - c) ^ 2 == (x - c) * (x - c)) by (simpl; ring). rewrite E.
  set (B := inject_Z (10 ^ 150)) in *.
  assert (HB : 0 <= B) by lra.
  assert (H4 : 4 * (B * B) < overflow_threshold).
  { unfold B, overflow_threshold. rewrite <- inject_Z_mult.
    change 4 with (inject_Z 4). rewrite <- inject_Z_mult, <- Zlt_Qlt.
    vm_compute. reflexivity. }
  assert (Hd : - (2 * B) <= x - c /\ x - c <= 2 * B) by (split; lra).
  set (d := x - c) in *. nra.
Qed.


(** The median is one of the values. *)
Lemma median_in l :
  l <> [] -> In (nth (List.length l / 2) (sorted l) 0) l.
Proof.
  intros Hne. apply (Permutation_in _ (Permutation_sym (sorted_permutation l))).
  apply nth_In. rewrite sorted_length. apply half_lt.
  destruct l; [congruence | simpl; lia].
Qed.

(** [aggregate] returns on a non-empty batch whose HRV values have magnitudes
    up to [10^150]. *)
Lemma aggregate_returns_moderate request :
  metrics request <> [] ->
  (forall m, In m (metrics request) -> Qabs (hrv m) <= inject_Z (10 ^ 150)) ->
  exists loc, aggregate request = inr loc.
Proof.
  intros Hne Hm. apply (aggregate_returns request Hne).
  assert (Hall : forall x, In x (hrv_values_of request)
                           -> Qabs x <= inject_Z (10 ^ 150)).
  { intros x Hx. apply in_map_iff in Hx. destruct Hx as (m & <- & Hin).
    apply Hm, Hin. }
  assert (Hh : hrv_values_of request <> []).
  { unfold hrv_values_of. destruct (metrics request); [congruence | discriminate]. }
  apply Forall_forall. intros x Hx.
  apply moderate_square_in_range; [apply Hall, Hx | apply Hall, median_in, Hh].
Qed.

End Aggregation.

Section Statistics.
Import Main.

Lemma length_hrv_values request :
  List.length (hrv_values_of request) = List.length (metrics request).
Proof. apply length_map. Qed.

(** C1: whenever the aggregation of a batch returns, the median HRV it
    computed is the element at index [floor(n/2)] of the HRV values sorted
    ascending, whichever way they were sorted: the upper-middle element when
    [n] is even.  (The response reports this value rounded to one decimal.) *)
Theorem median_hrv_upper_middle request loc s :
  aggregate request = inr loc ->
  Spec.sorted_ascending (hrv_values_of request) s ->
  median_hrv loc == nth (List.length (metrics request) / 2) s 0.
Proof.
  intros E Hs.
  destruct (aggregate_fields request loc E) as (a1 & Hne & _ & _ & Hmed & _).
  rewrite Hmed, length_hrv_values.
  apply (order_statistic_unique (hrv_values_of request)).
  - apply sorted_is_ascending.
  - exact Hs.
  - rewrite length_hrv_values. apply half_lt.
    destruct (metrics request); [congruence | simpl; lia].
Qed.

(** Four samples with HRV 40, 10, 30, 20: the median is 30, not 25. *)
Lemma median_hrv_upper_middle_witness :
  exists loc,
    aggregate Examples.four_samples = inr loc /\ median_hrv loc == 30.
Proof.
  eexists.
  refine ((fun E => conj E (median_hrv_upper_middle Examples.four_samples _
                              [10; 20; 30; 40] E _)) _).
  - split.
    + apply Permutation_sym.
      apply (Permutation_cons_app [40] [30; 20] 10).
      apply (Permutation_cons_app [40; 30] [] 20).
      apply (Permutation_cons_app [40] [] 30).
      apply Permutation_refl.
    + repeat constructor; discriminate.
  - vm_compute. reflexivity.
Defined.





(** A deviation of [10^155] or more has its square out of range. *)
Lemma large_square_out_of_range d :
  inject_Z (10 ^ 155) <= Qabs d -> overflow_threshold <= d ^ 2.
Proof.
  intros Hd.
  assert (E : d ^ 2 == Qabs d * Qabs d).
  { assert (E0 : d ^ 2 == d * d) by (simpl; ring). rewrite E0.
    rewrite <- Qabs_Qmult. symmetry. apply Qabs_pos. nra. }
  rewrite E. set (B := inject_Z (10 ^ 155)) in *.
  assert (HB : overflow_threshold <= B * B).
  { unfold B, overflow_threshold. rewrite <- inject_Z_mult, <- Zle_Qle.
    vm_compute. discriminate. }
  assert (HB0 : 0 <= B) by (unfold B; change 0 with (inject_Z 0);
                            rewrite <- Zle_Qle; vm_compute; discriminate).
  set (a := Qabs d) in *. clearbody a B. nra.
Qed.

(** C3, amended: on an empty batch the aggregation raises the empty-input
    error (HTTP 400, "No health metrics provided") as its first step, and
    that is the endpoint's answer whatever the provider would reply.  On a
    non-empty batch there are two outcomes and no third: the aggregation
    raises [OverflowError] and the endpoint answers 500, no statistic and no
    alert being returned; or it returns the complete result, every statistic
    and the alert list as the four rules in their order give it.  It returns
    when the HRV readings have magnitudes up to [10^150] and the active
    minutes add up to a magnitude of at most [10^300]; it raises when some
    HRV reading is at a distance between [10^155] and [10^300] from the
    median, the square of that distance being out of the range of
    binary64. *)
Theorem empty_input_fails_atomically request :
  match metrics request with
  | [] =>
      aggregate request = inl (HTTPException 400 "No health metrics provided")
      /\ forall py r,
          Relay.analyze_health py request r
          = inl (Relay.Raised (HTTPException 400 "No health metrics provided"))
  | _ :: _ =>
      (aggregate request = inl OverflowError
       /\ forall py r,
           Relay.analyze_health py request r
           = inl (Relay.Raised
                    (HTTPException 500
                       ("Health analysis failed: "
                        ++ Relay.str_error py (Relay.Raised OverflowError)))))
      \/ (exists loc a1,
             aggregate request = inr loc /\
             median_hrv loc
             = nth (List.length (hrv_values_of request) / 2)
                   (sorted (hrv_values_of request)) 0 /\
             avg_resting_hr loc
             = sum (map restingHeartRate (metrics request))
               / len (map restingHeartRate (metrics request)) /\
             avg_spo2 loc
             = match spo2_values_of (metrics request) with
               | [] => None
               | _ :: _ => Some (sum (spo2_values_of (metrics request))
                                 / len (spo2_values_of (metrics request)))
               end /\
             total_steps loc = sumZ (map steps (metrics request)) /\
             total_calories loc = sum (map calories (metrics request)) /\
             total_active_minutes loc
             = sumZ (map activeMinutes (metrics request)) /\
             hrv_variance loc
             = sum (map (fun x => (x - median_hrv loc) ^ 2)
                        (hrv_values_of request))
               / len (hrv_values_of request) /\
             stress_level loc = min 10 (hrv_variance loc / 10) /\
             sedentary_hours loc
             = sedentary_hours_of (total_active_minutes loc) /\
             hrv_drop_rule (hrv_values_of request) [] = inr a1 /\
             alerts loc
             = sedentary_rule (sedentary_hours loc)
                 (spo2_rule (avg_spo2 loc)
                            (sleep_rule (sleepData request) a1)))
  end
  /\ (metrics request <> [] ->
      (forall m, In m (metrics request)
                 -> Qabs (hrv m) <= inject_Z (10 ^ 150)) ->
      (Z.abs (sumZ (map activeMinutes (metrics request))) <= 10 ^ 300)%Z ->
      exists loc, aggregate request = inr loc)
  /\ (forall x,
         In x (hrv_values_of request) ->
         inject_Z (10 ^ 155)
         <= Qabs (x - nth (List.length (hrv_values_of request) / 2)
                          (sorted (hrv_values_of request)) 0) ->
         Qabs (x - nth (List.length (hrv_values_of request) / 2)
                       (sorted (hrv_values_of request)) 0)
         <= inject_Z (10 ^ 300) ->
         aggregate request = inl OverflowError).
Proof.
  split; [|split].
  - destruct (metrics request) as [|m ms] eqn:Em.
    + assert (E : aggregate request
                  = inl (HTTPException 400 "No health metrics provided")).
      { unfold aggregate. rewrite Em. reflexivity. }
      split; [exact E|]. intros py r.
      unfold Relay.analyze_health. rewrite E. reflexivity.
    + assert (Hne : metrics request <> []) by (rewrite Em; discriminate).
      rewrite <- Em.
      destruct (aggregate_cases request Hne)
        as [[_ E]|[_ (loc & a1 & E & Hd & _ & Hmed & Hr & Hs & Hst & Hc & Ht
                      & Hv & Hl & Hsed & Ha)]].
      * left. split; [exact E|]. intros py r.
        unfold Relay.analyze_health. rewrite E. reflexivity.
      * right. exists loc, a1.
        repeat (split; [assumption|]). exact Ha.
  - intros Hne Hm _. apply (aggregate_returns_moderate request Hne Hm).
  - intros x Hx Hlo _.
    assert (Hne : metrics request <> []).
    { intros E. unfold hrv_values_of in Hx. rewrite E in Hx. contradiction. }
    destruct (aggregate_cases request Hne) as [[_ E]|[Hall _]]; [exact E|].
    exfalso. rewrite Forall_forall in Hall. specialize (Hall x Hx).
    cbv beta in Hall.
    apply (Qlt_not_le _ _ Hall), large_square_out_of_range, Hlo.
Qed.

(** C3 as stated fails: a batch of two samples, with HRV 0 and 1e200, on
    which the aggregation returns no result; the endpoint answers 500. *)
Lemma nonempty_batch_can_fail :
  metrics Examples.out_of_range <> [] /\
  aggregate Examples.out_of_range = inl OverflowError /\
  (forall loc, aggregate Examples.out_of_range <> inr loc) /\
  forall py r,
    Relay.analyze_health py Examples.out_of_range r
    = inl (Relay.Raised
             (HTTPException 500
                ("Health analysis failed: "
                 ++ Relay.str_error py (Relay.Raised OverflowError)))).
Proof.
  assert (E : aggregate Examples.out_of_range = inl OverflowError)
    by (vm_compute; reflexivity).
  split; [discriminate|]. split; [exact E|]. split.
  - intros loc. rewrite E. discriminate.
  - intros py r. unfold Relay.analyze_health. rewrite E. reflexivity.
Qed.

End Statistics.

Section Alerts.
Import Main.

(** Which alerts a batch produces when its aggregation returns. *)
Lemma alerts_spec request loc :
  aggregate request = inr loc ->
  avg_spo2_of (spo2_values_of (metrics request)) = inr (avg_spo2 loc) /\
  total_active_minutes loc = sumZ (map activeMinutes (metrics request)) /\
  sedentary_hours loc = sedentary_hours_of (total_active_minutes loc) /\
  forall x,
    In x (alerts loc) <->
    (x = HRVDropped
     /\ (1 < List.length (hrv_values_of request))%nat
     /\ 0 < Spec.mean (Spec.first_half (hrv_values_of request))
     /\ 0.20 * Spec.mean (Spec.first_half (hrv_values_of request))
        < Spec.mean (Spec.first_half (hrv_values_of request))
          - Spec.mean (Spec.second_half (hrv_values_of request)))
    \/ (exists s, sleepData request = Some s /\ durationHours s < 6
                  /\ x = SleepDurationLow (durationHours s))
    \/ (exists v, avg_spo2 loc = Some v /\ ~ v == 0 /\ v < 94
                  /\ x = LowBloodOxygen v)
    \/ (22 < sedentary_hours loc /\ x = VeryLowActivity).
Proof.
  intros E.
  destruct (aggregate_ok request loc E)
    as (a1 & _ & Hs & Ht & _ & _ & Hsed & Hd & Ha).
  repeat (split; [assumption|]).
  destruct (hrv_drop_rule_spec (hrv_values_of request) []) as (a1' & E1 & _ & Hin).
  rewrite Hd in E1. injection E1 as <-.
  intros x. rewrite Ha, in_sedentary_rule, in_spo2_rule, in_sleep_rule, Hin.
  simpl. tauto.
Qed.




Lemma sumZ_fold_right l : sumZ l = fold_right Z.add 0%Z l.
Proof.
  unfold sumZ. apply fold_symmetric; intros; lia.
Qed.

(** C5: whenever the aggregation of a batch returns, the sedentary-day alert
    is emitted if and only if the total of [activeMinutes] over all samples is
    strictly below 120, which is the same as
    [sedentaryHours = (24*60 - total)/60 > 22]. *)
Theorem sedentary_alert_iff request loc :
  aggregate request = inr loc ->
  total_active_minutes loc
  = fold_right Z.add 0%Z (map activeMinutes (metrics request)) /\
  sedentary_hours loc
  == (24 * 60 - inject_Z (total_active_minutes loc)) / 60 /\
  (In VeryLowActivity (alerts loc) <-> (total_active_minutes loc < 120)%Z) /\
  ((total_active_minutes loc < 120)%Z <-> 22 < sedentary_hours loc).
Proof.
  intros E. destruct (alerts_spec request loc E) as (_ & Ht & Hs & Hin).
  split; [rewrite Ht; apply sumZ_fold_right|].
  assert (Hh : sedentary_hours loc
               == (24 * 60 - inject_Z (total_active_minutes loc)) / 60).
  { rewrite Hs. unfold sedentary_hours_of.
    unfold Z.sub. rewrite inject_Z_plus, inject_Z_opp. reflexivity. }
  assert (Hlt : (total_active_minutes loc < 120)%Z <-> 22 < sedentary_hours loc).
  { rewrite Hh, Zlt_Qlt. change (inject_Z 120) with 120.
    divisions. split; intros H; lra. }
  split; [exact Hh|]. split; [|exact Hlt].
  rewrite Hlt, Hin. split.
  - intros [(H & _)|[(s & _ & _ & H)|[(v & _ & _ & _ & H)|(H & _)]]];
      [discriminate H .. | exact H].
  - intros H. right. right. right. split; [exact H | reflexivity].
Qed.

Lemma sedentary_alert_iff_witness :
  exists loc,
    aggregate Examples.zero_spo2 = inr loc /\
    total_active_minutes loc = 120%Z /\
    sedentary_hours loc
    == (24 * 60 - inject_Z (total_active_minutes loc)) / 60 /\
    (In VeryLowActivity (alerts loc) <-> (total_active_minutes loc < 120)%Z) /\
    ((total_active_minutes loc < 120)%Z <-> 22 < sedentary_hours loc).
Proof.
  eexists.
  refine ((fun E => conj E (sedentary_alert_iff Examples.zero_spo2 _ E)) _).
  vm_compute. reflexivity.
Defined.

(** What the SpO2 rule does when the aggregation returns. *)
Lemma low_spo2_alert_spec request loc :
  aggregate request = inr loc ->
  (spo2_values_of (metrics request) = [] -> avg_spo2 loc = None) /\
  (spo2_values_of (metrics request) <> [] ->
   exists a, avg_spo2 loc = Some a
             /\ a == Spec.mean (spo2_values_of (metrics request))) /\
  ((exists v, In (LowBloodOxygen v) (alerts loc)) <->
   exists a, avg_spo2 loc = Some a /\ ~ a == 0 /\ a < 94).
Proof.
  intros E. destruct (alerts_spec request loc E) as (Hs & _ & _ & Hin).
  rewrite avg_spo2_of_ok in Hs. injection Hs as Hs.
  split; [|split].
  - intros H0. rewrite H0 in Hs. congruence.
  - intros H0. destruct (spo2_values_of (metrics request)) as [|v vs]; [congruence|].
    eexists. split; [symmetry; exact Hs|].
    unfold Spec.mean, len. rewrite sum_fold_right. reflexivity.
  - split.
    + intros (v & Hv). apply Hin in Hv.
      destruct Hv as [(H & _)|[(s & _ & _ & H)|[(a & Ha & Hnz & Hlt & H)|(_ & H)]]];
        try discriminate H.
      exists a. auto.
    + intros (a & Ha & Hnz & Hlt). exists a. apply Hin.
      right. right. left. exists a. auto.
Qed.

(** C6 at its failing input: one sample whose SpO2 reading is zero.  The
    average is present and below 94, yet no low-SpO2 alert is emitted, and the
    response reports the average as absent. *)
Theorem low_spo2_alert_lost_at_zero :
  exists loc a,
    aggregate Examples.zero_spo2 = inr loc /\
    avg_spo2 loc = Some a /\ a < 94 /\
    (forall v, ~ In (LowBloodOxygen v) (alerts loc)) /\
    avgSpO2 (dailyStats (build_response loc)) = None.
Proof.
  eexists. eexists. split; [vm_compute; reflexivity|].
  split; [reflexivity|]. split; [reflexivity|]. split; [|reflexivity].
  intros v H. simpl in H. exact H.
Qed.

End Alerts.

Section Circadian.
Import Simulator SimulatorExamples.

Lemma time_decimal_bounds t :
  clock_time t ->
  exists m, 0 <= m /\ m < 1 /\ time_decimal t = inject_Z (hour t) + m.
Proof.
  intros (_ & [Hm0 Hm1] & _).
  exists (inject_Z (minute t) / 60.0). split; [|split; [|reflexivity]].
  - rewrite Zle_Qle in Hm0. divisions. change (inject_Z 0) with 0 in Hm0. lra.
  - rewrite Zlt_Qlt in Hm1. divisions. change (inject_Z 60) with 60 in Hm1. lra.
Qed.

Lemma hour_cases t :
  clock_time t ->
  In (hour t) [0; 1; 2; 3; 4; 5; 6; 7; 8; 9; 10; 11; 12; 13; 14; 15; 16; 17; 18;
               19; 20; 21; 22; 23]%Z.
Proof.
  intros ([H0 H1] & _). simpl.
  assert (hour t = 0 \/ hour t = 1 \/ hour t = 2 \/ hour t = 3 \/ hour t = 4
          \/ hour t = 5 \/ hour t = 6 \/ hour t = 7 \/ hour t = 8 \/ hour t = 9
          \/ hour t = 10 \/ hour t = 11 \/ hour t = 12 \/ hour t = 13
          \/ hour t = 14 \/ hour t = 15 \/ hour t = 16 \/ hour t = 17
          \/ hour t = 18 \/ hour t = 19 \/ hour t = 20 \/ hour t = 21
          \/ hour t = 22 \/ hour t = 23)%Z as H by lia.
  intuition auto.
Qed.

(** The minute and the second of a clock time, as numbers. *)
Lemma minute_second_bounds t :
  clock_time t ->
  (0 <= inject_Z (minute t) /\ inject_Z (minute t) <= 59) /\
  (0 <= inject_Z (second t) /\ inject_Z (second t) <= 59).
Proof.
  intros (_ & [Hm0 Hm1] & [Hs0 Hs1]).
  assert (Hm2 : (minute t <= 59)%Z) by lia.
  assert (Hs2 : (second t <= 59)%Z) by lia.
  rewrite Zle_Qle in Hm0, Hm2, Hs0, Hs2.
  change (inject_Z 0) with 0 in *. change (inject_Z 59) with 59 in *.
  split; split; assumption.
Qed.

Ltac phase_bounds :=
  unfold Spec.within, Spec.progress, Spec.elapsed, Spec.span, Spec.interpolate,
    Spec.starts, Spec.ends, Spec.hrMult, Spec.hrvMult, Spec.activityLevel,
    Spec.isSleeping, fst, snd in *;
  repeat match goal with
    | |- context [Qlt_le_dec ?a ?b] => destruct (Qlt_le_dec a b)
    | H : context [Qlt_le_dec ?a ?b] |- _ => destruct (Qlt_le_dec a b)
    end.

Ltac bounds :=
  unfold inject_Z in *;
  solve [ lra | split; lra | left; lra | right; lra ].

(** C7, amended: at every clock time the factors are the values of the
    seven-phase table.  The time of day, read to the second, lies in some
    phase; for every phase that contains it (start included, end excluded,
    Sleep wrapping past midnight) the three multipliers are the linear
    interpolation of the phase's column by the elapsed fraction of its span,
    the time elapsed being counted in whole minutes: the seconds are left
    out.  [is_sleeping] is true exactly in Sleep.  In particular during the
    hour of 03:00 the user sleeps with activity 0, and during the hour of
    15:00 the activity is 0.8. *)
Theorem time_of_day_factor_table self t :
  clock_time t ->
  (exists p, Spec.within p (Spec.time_of_day (hour t) (minute t) (second t))) /\
  (forall p,
      Spec.within p (Spec.time_of_day (hour t) (minute t) (second t)) ->
      hr_multiplier (get_time_of_day_factor self t)
      == Spec.interpolate (Spec.hrMult p)
           (Spec.progress p (Spec.time_of_day (hour t) (minute t) 0)) /\
      hrv_multiplier (get_time_of_day_factor self t)
      == Spec.interpolate (Spec.hrvMult p)
           (Spec.progress p (Spec.time_of_day (hour t) (minute t) 0)) /\
      activity (get_time_of_day_factor self t)
      == Spec.interpolate (Spec.activityLevel p)
           (Spec.progress p (Spec.time_of_day (hour t) (minute t) 0)) /\
      is_sleeping (get_time_of_day_factor self t) = Spec.isSleeping p) /\
  (hour t = 3%Z ->
   is_sleeping (get_time_of_day_factor self t) = true
   /\ activity (get_time_of_day_factor self t) == 0) /\
  (hour t = 15%Z -> activity (get_time_of_day_factor self t) == 0.8).
Proof.
  intros Hc.
  destruct (minute_second_bounds t Hc) as ([Hm0 Hm1] & [Hs0 Hs1]).
  pose proof (hour_cases t Hc) as Hh.
  unfold get_time_of_day_factor, time_decimal, Spec.time_of_day. clear Hc.
  change (inject_Z 0) with 0.
  set (M := inject_Z (minute t)) in *. set (S := inject_Z (second t)) in *.
  clearbody M S.
  generalize dependent (hour t). intros h Hh.
  split; [|split; [|split]].
  - simpl in Hh.
    repeat (destruct Hh as [<-|Hh];
            [ first [ exists Spec.Sleep; phase_bounds; divisions; bounds
                    | exists Spec.WakeUp; phase_bounds; divisions; bounds
                    | exists Spec.MidMorning; phase_bounds; divisions; bounds
                    | exists Spec.LunchDip; phase_bounds; divisions; bounds
                    | exists Spec.AfternoonPeak; phase_bounds; divisions; bounds
                    | exists Spec.WindDown; phase_bounds; divisions; bounds
                    | exists Spec.PreSleep; phase_bounds; divisions; bounds ] | ]).
    contradiction.
  - intros p Hp. simpl in Hh.
    repeat (destruct Hh as [<-|Hh];
            [ destruct p; phase_bounds; cbn in *; divisions;
              try (exfalso; bounds);
              (repeat split; try reflexivity; bounds) | ]).
    contradiction.
  - intros ->. cbn. split; reflexivity.
  - intros ->. cbn. reflexivity.
Qed.

(** At 07:30:59 the time lies in Wake-up, and the factor is the one a quarter
    of the way through. *)
Lemma time_of_day_factor_table_witness :
  clock_time nearly_7_31 /\
  Spec.within Spec.WakeUp (Spec.time_of_day 7 30 59) /\
  Spec.progress Spec.WakeUp (Spec.time_of_day 7 30 0) == 0.25 /\
  hr_multiplier (get_time_of_day_factor simulator nearly_7_31)
  == Spec.interpolate (Spec.hrMult Spec.WakeUp)
       (Spec.progress Spec.WakeUp (Spec.time_of_day 7 30 0)).
Proof.
  assert (Hc : clock_time nearly_7_31).
  { unfold clock_time. simpl. lia. }
  assert (Hw : Spec.within Spec.WakeUp (Spec.time_of_day 7 30 59)).
  { vm_compute. split; [discriminate | reflexivity]. }
  split; [exact Hc|]. split; [exact Hw|]. split; [reflexivity|].
  destruct (time_of_day_factor_table simulator nearly_7_31 Hc)
    as (_ & Hall & _).
  apply (Hall Spec.WakeUp Hw).
Defined.

(** C7 as stated fails: at 07:30:59 the elapsed fraction of the Wake-up span
    is 1859/7200, and the heart-rate multiplier is not the interpolation of
    the table at that fraction. *)
Lemma interpolation_stops_at_the_minute :
  clock_time nearly_7_31 /\
  Spec.within Spec.WakeUp (Spec.time_of_day 7 30 59) /\
  Spec.progress Spec.WakeUp (Spec.time_of_day 7 30 59) == 1859 # 7200 /\
  ~ hr_multiplier (get_time_of_day_factor simulator nearly_7_31)
    == Spec.interpolate (Spec.hrMult Spec.WakeUp)
         (Spec.progress Spec.WakeUp (Spec.time_of_day 7 30 59)).
Proof.
  split; [unfold clock_time; simpl; lia|].
  split; [vm_compute; split; [discriminate | reflexivity]|].
  split; [vm_compute; reflexivity|].
  vm_compute. discriminate.
Qed.

End Circadian.

Section Clamps.

(** [max(lo, min(hi, x))] lies between [lo] and [hi]. *)
Lemma clamp_bounds lo hi x :
  lo <= hi -> lo <= max lo (min hi x) /\ max lo (min hi x) <= hi.
Proof.
  intros H. unfold max, min.
  destruct (Qlt_le_dec x hi); destruct (Qlt_le_dec lo _); split; lra.
Qed.

Lemma round_clamp_bounds (lo hi : Z) x :
  (lo <= hi)%Z ->
  inject_Z lo <= round_to (max (inject_Z lo) (min (inject_Z hi) x)) 1
  /\ round_to (max (inject_Z lo) (min (inject_Z hi) x)) 1 <= inject_Z hi.
Proof.
  intros H. rewrite Zle_Qle in H.
  destruct (clamp_bounds (inject_Z lo) (inject_Z hi) x H).
  apply round_to_1_bounds; assumption.
Qed.

End Clamps.

Section Generator.
Import Simulator.

(** C8: whatever the clock time and the random draws, the generated sample has
    [heartRate] in [45,120], [restingHeartRate] in [50,75], [hrv] in [20,100]
    and [spo2] in [94,100]. *)
Theorem generated_metrics_within_clamps self t g :
  (45 <= heartRate (fst (generate_metrics self t g))
   /\ heartRate (fst (generate_metrics self t g)) <= 120) /\
  (50 <= restingHeartRate (fst (generate_metrics self t g))
   /\ restingHeartRate (fst (generate_metrics self t g)) <= 75) /\
  (20 <= hrv (fst (generate_metrics self t g))
   /\ hrv (fst (generate_metrics self t g)) <= 100) /\
  (exists v, spo2 (fst (generate_metrics self t g)) = Some v
             /\ 94 <= v /\ v <= 100).
Proof.
  unfold generate_metrics, rbind, rret, gauss, uniform.
  cbn [fst heartRate restingHeartRate hrv spo2].
  split; [|split; [|split]].
  - apply (round_clamp_bounds 45 120). lia.
  - apply (round_clamp_bounds 50 75). lia.
  - apply (round_clamp_bounds 20 100). lia.
  - eexists. split; [reflexivity|]. apply (round_clamp_bounds 94 100). lia.
Qed.

Lemma generate_batch_spo2 self ts :
  forall g, Forall (fun m => spo2 m <> None) (fst (generate_batch self ts g)).
Proof.
  induction ts as [|t ts IH]; intros g; cbn [generate_batch].
  - constructor.
  - unfold rbind at 1. destruct (generate_metrics self t g) as [m g1] eqn:E1.
    unfold rbind. specialize (IH g1).
    destruct (generate_batch self ts g1) as [ms g2].
    cbn [fst rret] in *. constructor; [|exact IH].
    assert (Em : m = fst (generate_metrics self t g)) by (rewrite E1; reflexivity).
    rewrite Em. discriminate.
Qed.

Lemma generate_batch_length self ts :
  forall g, List.length (fst (generate_batch self ts g)) = List.length ts.
Proof.
  induction ts as [|t ts IH]; intros g; cbn [generate_batch]; [reflexivity|].
  unfold rbind at 1. destruct (generate_metrics self t g) as [m g1].
  unfold rbind. specialize (IH g1).
  destruct (generate_batch self ts g1) as [ms g2].
  cbn [fst rret] in *. simpl. congruence.
Qed.

Lemma spo2_values_of_generated isoformat ms :
  Forall (fun m => spo2 m <> None) ms ->
  List.length (Main.spo2_values_of (map (as_health_metric isoformat) ms))
  = List.length ms.
Proof.
  induction 1 as [|m ms Hm _ IH]; [reflexivity|].
  cbn [map Main.spo2_values_of as_health_metric Main.spo2].
  destruct (spo2 m); [simpl; congruence | congruence].
Qed.

(** What holds of every generated sample holds of every sample of a batch. *)
Lemma generate_batch_forall (P : Metrics -> Prop) self ts :
  (forall t g, In t ts -> P (fst (generate_metrics self t g))) ->
  forall g, Forall P (fst (generate_batch self ts g)).
Proof.
  induction ts as [|t ts IH]; intros HP g; cbn [generate_batch].
  - constructor.
  - unfold rbind at 1. destruct (generate_metrics self t g) as [m g1] eqn:E1.
    unfold rbind.
    assert (IH' : Forall P (fst (generate_batch self ts g1))).
    { apply IH. intros t' g' Ht'. apply HP. right. exact Ht'. }
    destruct (generate_batch self ts g1) as [ms g2].
    cbn [fst rret] in *. constructor; [|exact IH'].
    replace m with (fst (generate_metrics self t g)) by (rewrite E1; reflexivity).
    apply HP. left. reflexivity.
Qed.

(** The HRV of a generated sample is the rounding of a clamped value. *)
Lemma generated_hrv_range self t g :
  20 <= hrv (fst (generate_metrics self t g))
  /\ hrv (fst (generate_metrics self t g)) <= 100.
Proof.
  unfold generate_metrics, rbind, rret, gauss, uniform. cbn [fst hrv].
  apply (round_clamp_bounds 20 100). lia.
Qed.

(** The aggregation of a non-empty batch of generated samples returns: the
    squares of their HRV deviations are far inside the range. *)
Lemma generated_batch_aggregates self isoformat uid d sd t ts g :
  exists loc,
    Main.aggregate
      {| Main.userId := uid; Main.date := d;
         Main.metrics :=
           map (as_health_metric isoformat)
               (fst (generate_batch self (t :: ts) g));
         Main.sleepData := sd |} = inr loc.
Proof.
  set (ms := fst (generate_batch self (t :: ts) g)).
  assert (Hlen : List.length ms = S (List.length ts)).
  { apply (generate_batch_length self (t :: ts)). }
  apply aggregate_returns_moderate.
  - cbn [Main.metrics]. destruct ms; [discriminate Hlen | discriminate].
  - cbn [Main.metrics]. intros m Hm. apply in_map_iff in Hm.
    destruct Hm as (m0 & <- & Hin). cbn [as_health_metric Main.hrv].
    assert (Hall : Forall (fun m => 20 <= hrv m /\ hrv m <= 100) ms).
    { apply generate_batch_forall. intros t' g' _. apply generated_hrv_range. }
    rewrite Forall_forall in Hall. destruct (Hall m0 Hin) as [H0 H1].
    apply Qabs_Qle_condition.
    assert (HB : 100 <= inject_Z (10 ^ 150)).
    { change 100 with (inject_Z 100). rewrite <- Zle_Qle. vm_compute. discriminate. }
    split; lra.
Qed.

(** C10: every generated sample carries an SpO2 value, whatever the clock time
    and the random draws; hence on every non-empty batch of generated samples
    the aggregator computes an average SpO2 and never takes the branch for a
    batch without SpO2. *)
Theorem generator_always_emits_spo2 self :
  (forall t g, exists v, spo2 (fst (generate_metrics self t g)) = Some v) /\
  (forall isoformat uid d sd t ts g,
      exists loc a,
        Main.aggregate
          {| Main.userId := uid; Main.date := d;
             Main.metrics :=
               map (as_health_metric isoformat)
                   (fst (generate_batch self (t :: ts) g));
             Main.sleepData := sd |} = inr loc
        /\ Main.avg_spo2 loc = Some a).
Proof.
  split.
  - intros t g. eexists. reflexivity.
  - intros isoformat uid d sd t ts g.
    destruct (generated_batch_aggregates self isoformat uid d sd t ts g)
      as (loc & E).
    set (ms := fst (generate_batch self (t :: ts) g)) in *.
    set (request := {| Main.userId := uid; Main.metrics := _ |}) in *.
    assert (Hlen : List.length ms = S (List.length ts)).
    { apply (generate_batch_length self (t :: ts)). }
    destruct (low_spo2_alert_spec request loc E) as (_ & Hsome & _).
    destruct Hsome as (a & Ha & _).
    { cbn [request Main.metrics].
      pose proof (spo2_values_of_generated isoformat ms
                    (generate_batch_spo2 self (t :: ts) g)) as Hl.
      destruct (Main.spo2_values_of _); [simpl in Hl; lia | discriminate]. }
    exists loc, a. split; assumption.
Qed.

End Generator.

Section Sleep.
Import Simulator SimulatorExamples.

(** Three floors of numbers that add up to [T], give or take less than one,
    add up to between [T - 3] and [T]. *)
Lemma three_floors_with_noise (T : Z) x y z :
  Qabs (x + y + z - inject_Z T) < 1 ->
  (T - 3 <= Qfloor x + Qfloor y + Qfloor z <= T)%Z.
Proof.
  intros H. apply Qabs_Qlt_condition in H. destruct H as [H1 H2].
  pose proof (Qfloor_le x). pose proof (Qfloor_le y). pose proof (Qfloor_le z).
  pose proof (Qlt_floor x) as Hx. pose proof (Qlt_floor y) as Hy.
  pose proof (Qlt_floor z) as Hz.
  rewrite inject_Z_plus in Hx, Hy, Hz. change (inject_Z 1) with 1 in *.
  assert (A : inject_Z (Qfloor x + Qfloor y + Qfloor z) < inject_Z (T + 1)).
  { rewrite !inject_Z_plus. change (inject_Z 1) with 1. lra. }
  assert (B : inject_Z (T - 4) < inject_Z (Qfloor x + Qfloor y + Qfloor z)).
  { unfold Z.sub. rewrite !inject_Z_plus, inject_Z_opp.
    change (inject_Z 4) with 4. lra. }
  rewrite <- Zlt_Qlt in A, B. lia.
Qed.

(** C9, amended: for every generated sleep summary each stage count is the
    floor of [totalMinutes = floor(duration * 60)] times its proportion, the
    duration lying in [5.5,9.5], [deepPct] in 0.15 +- 0.03, [remPct] in
    0.25 +- 0.05 and the three proportions adding up to 1 within a billionth
    (the rounding of [1 - deep_pct - rem_pct]).  The three counts add up to
    between [totalMinutes - 3] and [totalMinutes], and to between
    [round(durationHours * 60) - 4] and [round(durationHours * 60)]. *)
Theorem sleep_stage_minutes_slack self d g :
  unit_interval g ->
  exists duration deep_pct rem_pct light_pct,
    (5.5 <= duration /\ duration <= 9.5) /\
    (0.15 - 0.03 <= deep_pct /\ deep_pct <= 0.15 + 0.03) /\
    (0.25 - 0.05 <= rem_pct /\ rem_pct <= 0.25 + 0.05) /\
    Qabs (deep_pct + rem_pct + light_pct - 1) <= 0.000000001 /\
    durationHours (fst (generate_sleep_data self d g)) = round_to duration 2 /\
    deepSleepMinutes (fst (generate_sleep_data self d g))
    = Qfloor (inject_Z (Qfloor (duration * 60)) * deep_pct) /\
    remSleepMinutes (fst (generate_sleep_data self d g))
    = Qfloor (inject_Z (Qfloor (duration * 60)) * rem_pct) /\
    lightSleepMinutes (fst (generate_sleep_data self d g))
    = Qfloor (inject_Z (Qfloor (duration * 60)) * light_pct) /\
    (Qfloor (duration * 60) - 3
     <= deepSleepMinutes (fst (generate_sleep_data self d g))
        + remSleepMinutes (fst (generate_sleep_data self d g))
        + lightSleepMinutes (fst (generate_sleep_data self d g))
     <= Qfloor (duration * 60))%Z /\
    (round (durationHours (fst (generate_sleep_data self d g)) * 60) - 4
     <= deepSleepMinutes (fst (generate_sleep_data self d g))
        + remSleepMinutes (fst (generate_sleep_data self d g))
        + lightSleepMinutes (fst (generate_sleep_data self d g))
     <= round (durationHours (fst (generate_sleep_data self d g)) * 60))%Z.
Proof.
  intros Hu.
  destruct (Hu 0%nat) as [Hu0a Hu0b]. destruct (Hu 1%nat) as [Hu1a Hu1b].
  unfold generate_sleep_data, rbind, rret, gauss, uniform.
  cbn [fst snd normals randoms durationHours deepSleepMinutes remSleepMinutes
       lightSleepMinutes].
  set (u0 := randoms g 0%nat) in *. set (u1 := randoms g 1%nat) in *.
  set (duration := max 5.5 (min 9.5 (7.5 + 0.5 * normals g 0%nat))).
  set (deep_pct := 0.15 + (- 0.03 + (0.03 - - 0.03) * u0)).
  set (rem_pct := 0.25 + (- 0.05 + (0.05 - - 0.05) * u1)).
  set (light_pct := 1 - deep_pct - rem_pct).
  assert (Hd : 5.5 <= duration /\ duration <= 9.5).
  { apply clamp_bounds. lra. }
  assert (Hdp : 0.15 - 0.03 <= deep_pct /\ deep_pct <= 0.15 + 0.03).
  { unfold deep_pct. split; lra. }
  assert (Hrp : 0.25 - 0.05 <= rem_pct /\ rem_pct <= 0.25 + 0.05).
  { unfold rem_pct. split; lra. }
  assert (Hone : Qabs (deep_pct + rem_pct + light_pct - 1) <= 0.000000001).
  { apply Qabs_Qle_condition. unfold light_pct. split; lra. }
  assert (Hint : int (duration * 60) = Qfloor (duration * 60)).
  { apply int_floor. lra. }
  rewrite Hint.
  pose proof (Qfloor_le (duration * 60)) as Hfl.
  pose proof (Qlt_floor (duration * 60)) as Hfu.
  rewrite inject_Z_plus in Hfu. change (inject_Z 1) with 1 in Hfu.
  set (total := inject_Z (Qfloor (duration * 60))) in *.
  assert (Ht : 0 <= total) by lra.
  assert (Hlp : 0 <= light_pct) by (unfold light_pct; lra).
  rewrite !int_floor by nra.
  exists duration, deep_pct, rem_pct, light_pct.
  repeat (split; [first [tauto | reflexivity]|]).
  assert (Hsum : (Qfloor (duration * 60) - 3
     <= Qfloor (total * deep_pct) + Qfloor (total * rem_pct)
        + Qfloor (total * light_pct)
     <= Qfloor (duration * 60))%Z).
  { apply three_floors_with_noise. fold total.
    apply Qabs_Qle_condition in Hone. destruct Hone as [Ho1 Ho2].
    apply Qabs_Qlt_condition.
    set (e := deep_pct + rem_pct + light_pct - 1) in *.
    assert (Ee : total * deep_pct + total * rem_pct + total * light_pct - total
                 == total * e) by (unfold e; ring).
    rewrite Ee. clearbody e. split; nra. }
  split; [exact Hsum|].
  destruct (round_to_2_near duration) as [Hr1 Hr2].
  destruct (round_near (round_to duration 2 * 60)) as [Hn1 Hn2].
  set (R := round (round_to duration 2 * 60)) in *.
  assert (HR1 : inject_Z (Qfloor (duration * 60) - 1) < inject_Z R).
  { unfold Z.sub. rewrite inject_Z_plus, inject_Z_opp. fold total.
    change (inject_Z 1) with 1. lra. }
  assert (HR2 : inject_Z R < inject_Z (Qfloor (duration * 60) + 2)).
  { rewrite inject_Z_plus. fold total. change (inject_Z 2) with 2. lra. }
  rewrite <- Zlt_Qlt in HR1, HR2. lia.
Qed.

Lemma sleep_draws_unit_interval : unit_interval draws.
Proof. intros [|i]; split; vm_compute; congruence. Qed.

Lemma sleep_stage_minutes_slack_witness :
  unit_interval draws /\
  (round (durationHours (fst (generate_sleep_data simulator midnight draws)) * 60)
   - 4
   <= deepSleepMinutes (fst (generate_sleep_data simulator midnight draws))
      + remSleepMinutes (fst (generate_sleep_data simulator midnight draws))
      + lightSleepMinutes (fst (generate_sleep_data simulator midnight draws))
   <= round (durationHours (fst (generate_sleep_data simulator midnight draws))
             * 60))%Z.
Proof.
  split; [exact sleep_draws_unit_interval|].
  destruct (sleep_stage_minutes_slack simulator midnight draws
              sleep_draws_unit_interval)
    as (duration & deep & rem & light & _ & _ & _ & _ & _ & _ & _ & _ & _ & H).
  exact H.
Defined.

(** C9 as stated fails: a night of exactly 7.5 hours, with [deep_pct = 0.151]
    and [rem_pct = 0.251], whose stage minutes 67 + 112 + 269 = 448 are two
    short of [round(durationHours * 60) = 450]. *)
Lemma sleep_stages_two_minutes_short :
  unit_interval draws /\
  durationHours (fst (generate_sleep_data simulator midnight draws)) == 7.5 /\
  ~ (Z.abs (deepSleepMinutes (fst (generate_sleep_data simulator midnight draws))
            + remSleepMinutes (fst (generate_sleep_data simulator midnight draws))
            + lightSleepMinutes (fst (generate_sleep_data simulator midnight draws))
            - round (durationHours (fst (generate_sleep_data simulator midnight draws))
                     * 60))
     <= 1)%Z.
Proof.
  split; [exact sleep_draws_unit_interval|].
  split; [vm_compute; reflexivity|].
  vm_compute. intros H. apply H. reflexivity.
Qed.

(** With proportions that add up to 1 exactly the counts can already be three
    short: a night of 7.4999 hours is reported as 7.5 hours, and its stage
    minutes 67 + 112 + 268 add up to 447. *)
Lemma sleep_stages_three_minutes_short :
  unit_interval short_night /\
  (deepSleepMinutes (fst (generate_sleep_data simulator midnight short_night))
   + remSleepMinutes (fst (generate_sleep_data simulator midnight short_night))
   + lightSleepMinutes (fst (generate_sleep_data simulator midnight short_night))
   = 447)%Z /\
  round (durationHours (fst (generate_sleep_data simulator midnight short_night))
         * 60) = 450%Z.
Proof.
  split; [intros [|i]; split; vm_compute; congruence|].
  split; vm_compute; reflexivity.
Qed.

End Sleep.

(** * Further properties of the code *)

Section Sums.


(** The mean of a non-empty list lies between any bounds of its elements. *)
Lemma mean_between lo hi l :
  l <> [] -> Forall (fun x => lo <= x /\ x <= hi) l ->
  lo <= sum l / len l /\ sum l / len l <= hi.
Proof.
  intros Hne Hall. pose proof (len_pos l Hne) as Hlen.
  assert (Hs : lo * len l <= sum l /\ sum l <= hi * len l).
  { rewrite sum_fold_right. unfold len. clear Hne Hlen.
    induction Hall as [|x l [Hx1 Hx2] _ IH].
    - cbn [fold_right List.length]. change (inject_Z (Z.of_nat 0)) with 0.
      split; lra.
    - cbn [fold_right List.length].
      rewrite Nat2Z.inj_succ, <- Z.add_1_r, inject_Z_plus.
      change (inject_Z 1) with 1. destruct IH as [IH1 IH2]. split; lra. }
  destruct Hs as [Hs1 Hs2]. split.
  - apply Qle_shift_div_l; [exact Hlen | exact Hs1].
  - apply Qle_shift_div_r; [exact Hlen | exact Hs2].
Qed.

End Sums.

Section Median.
Import Main.



End Median.

Section AlertList.
Import Main.

(** X2: When the aggregation of a batch returns, the alerts hold a
    sleep-duration alert carrying [d] exactly when sleep data was sent, its
    duration is below 6 hours, and [d] is that duration. *)
Theorem sleep_alert_iff request loc :
  aggregate request = inr loc ->
  forall d,
    In (SleepDurationLow d) (alerts loc) <->
    exists s, sleepData request = Some s /\ durationHours s < 6
              /\ d = durationHours s.
Proof.
  intros E. destruct (alerts_spec request loc E) as (_ & _ & _ & Hin).
  intros d. rewrite Hin. split.
  - intros [(H & _)|[(s & Hs & Hlt & H)|[(v & _ & _ & _ & H)|(_ & H)]]];
      try discriminate H.
    injection H as ->. exists s. auto.
  - intros (s & Hs & Hlt & ->). right. left. exists s. auto.
Qed.

Lemma sleep_alert_iff_witness :
  exists loc,
    aggregate Scenarios.short_sleep = inr loc /\
    forall d,
      In (SleepDurationLow d) (alerts loc) <->
      exists s, sleepData Scenarios.short_sleep = Some s /\ durationHours s < 6
                /\ d = durationHours s.
Proof.
  eexists.
  refine ((fun E => conj E (sleep_alert_iff Scenarios.short_sleep _ E)) _).
  vm_compute. reflexivity.
Defined.

(** X3: When the aggregation of a batch returns, the alerts are a selection,
    in this order and each at most once, of: HRV drop, short sleep, low blood
    oxygen, very low activity.  There are never more than four. *)
Theorem alerts_in_fixed_order request loc :
  aggregate request = inr loc ->
  exists (drop short low idle : bool) d a,
    alerts loc
    = (if drop then [HRVDropped] else [])
        ++ (if short then [SleepDurationLow d] else [])
        ++ (if low then [LowBloodOxygen a] else [])
        ++ (if idle then [VeryLowActivity] else []) /\
    (List.length (alerts loc) <= 4)%nat.
Proof.
  intros E.
  destruct (aggregate_fields request loc E)
    as (a1 & _ & _ & Ha1 & _ & _ & _ & _ & _ & _ & _ & _ & _ & Ha).
  assert (H : exists (drop short low idle : bool) d a,
             alerts loc
             = (if drop then [HRVDropped] else [])
                 ++ (if short then [SleepDurationLow d] else [])
                 ++ (if low then [LowBloodOxygen a] else [])
                 ++ (if idle then [VeryLowActivity] else [])).
  { rewrite Ha. unfold sedentary_rule, spo2_rule, sleep_rule.
    exists (match a1 with [] => false | _ => true end).
    exists (match sleepData request with
            | Some sd => if Qlt_le_dec (durationHours sd) 6 then true else false
            | None => false end).
    exists (match avg_spo2 loc with
            | Some v => if truthy (avg_spo2 loc)
                        then if Qlt_le_dec v 94 then true else false else false
            | None => false end).
    exists (if Qlt_le_dec 22 (sedentary_hours loc) then true else false).
    exists (match sleepData request with Some sd => durationHours sd | None => 0 end).
    exists (match avg_spo2 loc with Some v => v | None => 0 end).
    destruct Ha1 as [-> | ->];
      destruct (sleepData request) as [sd|];
      try destruct (Qlt_le_dec (durationHours sd) 6);
      destruct (avg_spo2 loc) as [v|];
      try destruct (truthy (Some v));
      try destruct (Qlt_le_dec v 94);
      destruct (Qlt_le_dec 22 (sedentary_hours loc)); reflexivity. }
  destruct H as (drop & short & low & idle & d & a & H).
  exists drop, short, low, idle, d, a. split; [exact H|].
  rewrite H. destruct drop, short, low, idle; simpl; lia.
Qed.

Lemma alerts_in_fixed_order_witness :
  exists loc,
    aggregate Scenarios.short_sleep = inr loc /\
    exists (drop short low idle : bool) d a,
      alerts loc
      = (if drop then [HRVDropped] else [])
          ++ (if short then [SleepDurationLow d] else [])
          ++ (if low then [LowBloodOxygen a] else [])
          ++ (if idle then [VeryLowActivity] else []) /\
      (List.length (alerts loc) <= 4)%nat.
Proof.
  eexists.
  refine ((fun E => conj E (alerts_in_fixed_order Scenarios.short_sleep _ E)) _).
  vm_compute. reflexivity.
Defined.

End AlertList.

Section OrderOfSamples.
Import Main.

Lemma aggregate_inr request loc :
  aggregate request = inr loc -> metrics request <> [].
Proof.
  unfold aggregate. destruct (metrics request); [discriminate | discriminate].
Qed.

(** The alerts that do not look at the order of the samples. *)
Lemma order_free_alerts request loc :
  aggregate request = inr loc ->
  (In VeryLowActivity (alerts loc)
   <-> 22 < sedentary_hours_of (sumZ (map activeMinutes (metrics request)))) /\
  (forall d, In (SleepDurationLow d) (alerts loc)
             <-> exists s, sleepData request = Some s /\ durationHours s < 6
                           /\ d = durationHours s) /\
  ((exists v, In (LowBloodOxygen v) (alerts loc))
   <-> exists a, avg_spo2 loc = Some a /\ ~ a == 0 /\ a < 94).
Proof.
  intros E.
  destruct (alerts_spec request loc E) as (_ & Ht & Hs & Hin).
  rewrite Hs, Ht in Hin.
  split; [|split].
  - rewrite Hin. split.
    + intros [(H & _)|[(s & _ & _ & H)|[(v & _ & _ & _ & H)|(H & _)]]];
        [discriminate H .. | exact H].
    + intros H. right. right. right. split; [exact H | reflexivity].
  - intros d. rewrite Hin. split.
    + intros [(H & _)|[(s & Hsd & Hlt & H)|[(v & _ & _ & _ & H)|(_ & H)]]];
        try discriminate H.
      injection H as ->. exists s. auto.
    + intros (s & Hsd & Hlt & ->). right. left. exists s. auto.
  - split.
    + intros (v & Hv). apply Hin in Hv.
      destruct Hv as [(H & _)|[(s & _ & _ & H)|[(a & Ha & Hnz & Hlt & H)|(_ & H)]]];
        try discriminate H.
      exists a. auto.
    + intros (a & Ha & Hnz & Hlt). exists a. apply Hin.
      right. right. left. exists a. auto.
Qed.



(** The HRV-drop alert does look at the order: 60, 60, 40, 40 raises it, the
    same values sorted ascending do not. *)
Lemma hrv_drop_depends_on_order :
  Permutation (metrics Scenarios.hrv_falling) (metrics Scenarios.hrv_rising) /\
  (exists loc, aggregate Scenarios.hrv_falling = inr loc
               /\ In HRVDropped (alerts loc)) /\
  (exists loc, aggregate Scenarios.hrv_rising = inr loc
               /\ ~ In HRVDropped (alerts loc)).
Proof.
  split; [|split].
  - cbn [metrics Scenarios.hrv_falling Scenarios.hrv_rising].
    apply (Permutation_app_comm [_; _] [_; _]).
  - eexists. split; [vm_compute; reflexivity|]. simpl. auto.
  - eexists. split; [vm_compute; reflexivity|]. simpl. intuition discriminate.
Qed.

End OrderOfSamples.

Section SteadyBatch.
Import Main.






End SteadyBatch.

Section ReportedValues.
Import Main.

Lemma round_to_1_near x : Qabs (round_to x 1 - x) <= 0.05.
Proof.
  apply Qabs_Qle_condition.
  unfold round_to. change (inject_Z (10 ^ Z.of_nat 1)) with 10.
  destruct (round_near (x * 10)) as [H1 H2].
  set (r := inject_Z (round (x * 10))) in *.
  divisions. split; lra.
Qed.

End ReportedValues.

Section FactorRanges.
Import Simulator.

Ltac in_range :=
  unfold inject_Z in *;
  solve [ lra | split; lra | repeat split; lra ].

(** The activity level at any time of the day. *)
Lemma activity_level_range self t :
  clock_time t ->
  0 <= activity (get_time_of_day_factor self t)
  /\ activity (get_time_of_day_factor self t) <= 0.8.
Proof.
  intros Hc.
  destruct (time_decimal_bounds t Hc) as (m & Hm0 & Hm1 & Etd).
  pose proof (hour_cases t Hc) as Hh.
  unfold get_time_of_day_factor. rewrite Etd. clear Etd Hc.
  generalize dependent (hour t). intros h Hh. simpl in Hh.
  repeat (destruct Hh as [<-|Hh]; [ cbn; divisions; in_range | ]).
  contradiction.
Qed.

(** X7: At any time of the day the heart-rate multiplier lies in [0.75, 1.15],
    the HRV multiplier in [0.85, 1.3] and the activity level in [0, 0.8];
    whenever the factor says the wearer is asleep the activity level is zero. *)
Theorem time_of_day_factor_ranges self t :
  clock_time t ->
  (0.75 <= hr_multiplier (get_time_of_day_factor self t)
   /\ hr_multiplier (get_time_of_day_factor self t) <= 1.15) /\
  (0.85 <= hrv_multiplier (get_time_of_day_factor self t)
   /\ hrv_multiplier (get_time_of_day_factor self t) <= 1.3) /\
  (0 <= activity (get_time_of_day_factor self t)
   /\ activity (get_time_of_day_factor self t) <= 0.8) /\
  (is_sleeping (get_time_of_day_factor self t) = true ->
   activity (get_time_of_day_factor self t) == 0).
Proof.
  intros Hc.
  destruct (time_decimal_bounds t Hc) as (m & Hm0 & Hm1 & Etd).
  pose proof (hour_cases t Hc) as Hh.
  unfold get_time_of_day_factor. rewrite Etd. clear Etd Hc.
  generalize dependent (hour t). intros h Hh. simpl in Hh.
  repeat (destruct Hh as [<-|Hh];
          [ cbn; divisions; repeat split; try in_range;
            solve [ intros; reflexivity | intros; discriminate ] | ]).
  contradiction.
Qed.

Lemma time_of_day_factor_ranges_witness :
  clock_time Scenarios.afternoon /\
  0 <= activity (get_time_of_day_factor SimulatorExamples.simulator
                   Scenarios.afternoon)
  /\ activity (get_time_of_day_factor SimulatorExamples.simulator
                 Scenarios.afternoon) <= 0.8.
Proof.
  assert (Hc : clock_time Scenarios.afternoon).
  { unfold clock_time. simpl. lia. }
  split; [exact Hc|].
  apply (time_of_day_factor_ranges SimulatorExamples.simulator
           Scenarios.afternoon Hc).
Defined.

End FactorRanges.

Section GeneratedFields.
Import Simulator.

Lemma round_to_scaled_bounds n (a b : Z) x :
  inject_Z a <= x * inject_Z (10 ^ Z.of_nat n) ->
  x * inject_Z (10 ^ Z.of_nat n) <= inject_Z b ->
  inject_Z a / inject_Z (10 ^ Z.of_nat n) <= round_to x n
  /\ round_to x n <= inject_Z b / inject_Z (10 ^ Z.of_nat n).
Proof.
  intros Ha Hb. unfold round_to.
  assert (Hs : 0 < inject_Z (10 ^ Z.of_nat n)).
  { change 0 with (inject_Z 0). rewrite <- Zlt_Qlt. apply Z.pow_pos_nonneg; lia. }
  set (s := inject_Z (10 ^ Z.of_nat n)) in *.
  apply round_lower in Ha. apply round_upper in Hb.
  rewrite Zle_Qle in Ha, Hb. set (r := inject_Z (round (x * s))) in *.
  assert (Ea : inject_Z a / s * s == inject_Z a) by (field; lra).
  assert (Eb : inject_Z b / s * s == inject_Z b) by (field; lra).
  split.
  - apply Qle_shift_div_l; [exact Hs|]. rewrite Ea. exact Ha.
  - apply Qle_shift_div_r; [exact Hs|]. rewrite Eb. exact Hb.
Qed.

Lemma int_compat x y : x == y -> int x = int y.
Proof.
  intros E. unfold int.
  destruct (Qlt_le_dec x 0), (Qlt_le_dec y 0); try lra.
  - apply Qceiling_comp, E.
  - apply Qfloor_comp, E.
Qed.

Lemma int_below_one x : 0 <= x -> x < 1 -> int x = 0%Z.
Proof.
  intros H0 H1. rewrite int_floor by exact H0.
  pose proof (Qfloor_le x) as Hl. pose proof (Qlt_floor x) as Hu.
  rewrite inject_Z_plus in Hu. change (inject_Z 1) with 1 in Hu.
  assert (A : inject_Z (Qfloor x) < inject_Z 1) by (change (inject_Z 1) with 1; lra).
  assert (B : inject_Z (-1) < inject_Z (Qfloor x)) by (change (inject_Z (-1)) with (-1); lra).
  rewrite <- Zlt_Qlt in A, B. lia.
Qed.

(** The fields of a generated sample, as expressions of the draws. *)
Lemma generate_metrics_fields self t g :
  let f := get_time_of_day_factor self t in
  let m := fst (generate_metrics self t g) in
  userId m = user_id self /\
  timestamp m = t /\
  heartRate m
  = round_to (max 45 (min 120 (base_resting_hr self * hr_multiplier f
                                + (0 + 2 * normals g 0%nat)))) 1 /\
  restingHeartRate m
  = round_to (max 50 (min 75 (base_resting_hr self
                               + (0 + 1 * normals g 1%nat)))) 1 /\
  hrv m
  = round_to (max 20 (min 100 (base_hrv self * hrv_multiplier f
                                + (0 + 3 * normals g 2%nat)))) 1 /\
  steps m = int (activity f * (100 + (300 - 100) * randoms g 0%nat)) /\
  calories m = round_to ((1.2 + activity f * 5) * INTERVAL_MINUTES) 1 /\
  activeMinutes m = int (activity f * INTERVAL_MINUTES) /\
  spo2 m
  = Some (round_to (max 94 (min 100 (97 + (0 + 0.5 * normals g 3%nat)))) 1) /\
  m_is_sleeping m = is_sleeping f.
Proof.
  cbv zeta. unfold generate_metrics, rbind, rret, gauss, uniform.
  cbn [fst userId timestamp heartRate restingHeartRate hrv steps calories
       activeMinutes spo2 m_is_sleeping normals randoms].
  repeat split; reflexivity.
Qed.

(** X8: A generated sample has [activeMinutes = 0] at every time of the day
    (the activity level is below one and the interval is one minute), between
    0 and 240 steps (240 when the uniform draw returns its upper end, 300),
    between 1.2 and 5.2 calories, the simulator's user id and the time it was
    generated for. *)
Theorem generated_activity_fields self t g :
  clock_time t -> unit_interval g ->
  activeMinutes (fst (generate_metrics self t g)) = 0%Z /\
  (0 <= steps (fst (generate_metrics self t g)) <= 240)%Z /\
  (1.2 <= calories (fst (generate_metrics self t g))
   /\ calories (fst (generate_metrics self t g)) <= 5.2) /\
  userId (fst (generate_metrics self t g)) = user_id self /\
  timestamp (fst (generate_metrics self t g)) = t.
Proof.
  intros Hc Hu.
  destruct (generate_metrics_fields self t g)
    as (Hid & Hts & _ & _ & _ & Hst & Hcal & Ham & _ & _).
  destruct (activity_level_range self t Hc) as [Ha0 Ha1].
  set (a := activity (get_time_of_day_factor self t)) in *.
  destruct (Hu 0%nat) as [Hu0 Hu1]. set (u := randoms g 0%nat) in *.
  split; [|split; [|split; [|split; assumption]]].
  - rewrite Ham. apply int_below_one; unfold INTERVAL_MINUTES; lra.
  - rewrite Hst. rewrite int_floor by nra.
    assert (L : inject_Z 0 <= a * (100 + (300 - 100) * u)).
    { change (inject_Z 0) with 0. nra. }
    assert (U : a * (100 + (300 - 100) * u) <= inject_Z 240).
    { change (inject_Z 240) with 240. nra. }
    apply Qfloor_resp_le in L. rewrite Qfloor_Z in L.
    apply Qfloor_resp_le in U. rewrite Qfloor_Z in U. lia.
  - rewrite Hcal. unfold INTERVAL_MINUTES.
    destruct (round_to_scaled_bounds 1 12 52 ((1.2 + a * 5) * 1)) as [L U].
    + change (inject_Z (10 ^ Z.of_nat 1)) with 10. change (inject_Z 12) with 12. lra.
    + change (inject_Z (10 ^ Z.of_nat 1)) with 10. change (inject_Z 52) with 52. lra.
    + change (inject_Z (10 ^ Z.of_nat 1)) with 10 in *.
      change (inject_Z 12) with 12 in L. change (inject_Z 52) with 52 in U.
      divisions. split; lra.
Qed.

Lemma generated_activity_fields_witness :
  clock_time Scenarios.afternoon /\
  unit_interval SimulatorExamples.draws /\
  activeMinutes (fst (generate_metrics SimulatorExamples.simulator
                        Scenarios.afternoon SimulatorExamples.draws)) = 0%Z.
Proof.
  assert (Hc : clock_time Scenarios.afternoon).
  { unfold clock_time. simpl. lia. }
  split; [exact Hc|]. split; [exact sleep_draws_unit_interval|].
  apply (generated_activity_fields SimulatorExamples.simulator
           Scenarios.afternoon SimulatorExamples.draws Hc
           sleep_draws_unit_interval).
Defined.

End GeneratedFields.

Section AsleepAndSleepSummary.
Import Simulator.

Lemma factor_asleep self t :
  (23 <= hour t \/ hour t < 7)%Z ->
  get_time_of_day_factor self t
  = {| hr_multiplier := 0.75; hrv_multiplier := 1.3; activity := 0;
       is_sleeping := true |}.
Proof.
  intros H. unfold get_time_of_day_factor.
  destruct ((23 <=? hour t) || (hour t <? 7))%Z eqn:E; [reflexivity|].
  apply orb_false_iff in E. destruct E as [E1 E2].
  apply Z.leb_gt in E1. apply Z.ltb_ge in E2. lia.
Qed.

(** X9: A sample generated between 23:00 and 07:00 is marked as sleeping, has
    no steps and no active minutes, and 1.2 calories; with the default resting
    heart rate of 60 and non-positive noise its heart rate is clamped at the
    floor of 45. *)
Theorem sample_while_asleep self t g :
  (23 <= hour t \/ hour t < 7)%Z ->
  m_is_sleeping (fst (generate_metrics self t g)) = true /\
  steps (fst (generate_metrics self t g)) = 0%Z /\
  activeMinutes (fst (generate_metrics self t g)) = 0%Z /\
  calories (fst (generate_metrics self t g)) == 1.2 /\
  (base_resting_hr self == 60 -> normals g 0%nat <= 0 ->
   heartRate (fst (generate_metrics self t g)) == 45).
Proof.
  intros Hh.
  destruct (generate_metrics_fields self t g)
    as (_ & _ & Hhr & _ & _ & Hst & Hcal & Ham & _ & Hsl).
  rewrite (factor_asleep self t Hh) in *.
  cbn [hr_multiplier hrv_multiplier activity is_sleeping] in *.
  split; [exact Hsl|]. split; [|split; [|split]].
  - rewrite Hst. rewrite (int_compat _ 0) by ring. reflexivity.
  - rewrite Ham. rewrite (int_compat _ 0) by ring. reflexivity.
  - rewrite Hcal. unfold INTERVAL_MINUTES. reflexivity.
  - intros Hb Hz. rewrite Hhr.
    set (x := base_resting_hr self * 0.75 + (0 + 2 * normals g 0%nat)).
    assert (Hx : x <= 45) by (unfold x; lra).
    unfold max, min.
    destruct (Qlt_le_dec x 120); [|lra].
    destruct (Qlt_le_dec 45 x); [lra|]. reflexivity.
Qed.

Lemma sample_while_asleep_witness :
  (23 <= hour Scenarios.night \/ hour Scenarios.night < 7)%Z /\
  steps (fst (generate_metrics SimulatorExamples.simulator Scenarios.night
                SimulatorExamples.draws)) = 0%Z /\
  heartRate (fst (generate_metrics SimulatorExamples.simulator Scenarios.night
                    SimulatorExamples.draws)) == 45.
Proof.
  assert (H : (23 <= hour Scenarios.night \/ hour Scenarios.night < 7)%Z).
  { right. simpl. lia. }
  split; [exact H|].
  destruct (sample_while_asleep SimulatorExamples.simulator Scenarios.night
              SimulatorExamples.draws H) as (_ & Hs & _ & _ & Hhr).
  split; [exact Hs|]. apply Hhr; [reflexivity | simpl; lra].
Defined.

(** The fields of a generated sleep summary, as expressions of the draws. *)
Lemma generate_sleep_data_fields self d g :
  let duration := max 5.5 (min 9.5 (7.5 + 0.5 * normals g 0%nat)) in
  let quality :=
    max 40 (min 100 (70 + (duration - 6) * 5 + (0 + 5 * normals g 1%nat))) in
  let total_minutes := int (duration * 60) in
  let deep_pct := 0.15 + (- 0.03 + (0.03 - - 0.03) * randoms g 0%nat) in
  let rem_pct := 0.25 + (- 0.05 + (0.05 - - 0.05) * randoms g 1%nat) in
  let s := fst (generate_sleep_data self d g) in
  s_userId s = user_id self /\
  date s = {| year := year d; month := month d; day := day d;
              hour := 0; minute := 0; second := 0 |} /\
  durationHours s = round_to duration 2 /\
  qualityScore s = round_to quality 1 /\
  deepSleepMinutes s = int (inject_Z total_minutes * deep_pct) /\
  remSleepMinutes s = int (inject_Z total_minutes * rem_pct) /\
  lightSleepMinutes s = int (inject_Z total_minutes * (1 - deep_pct - rem_pct)).
Proof.
  cbv zeta. unfold generate_sleep_data, rbind, rret, gauss, uniform.
  cbn [fst s_userId date durationHours qualityScore deepSleepMinutes
       remSleepMinutes lightSleepMinutes normals randoms].
  repeat split; reflexivity.
Qed.

(** X10: A generated sleep summary has a duration within [5.5, 9.5] hours and
    a quality score within [40, 100]; its stage minutes are ordered [0 <= deep
    <= rem <= light <= 570]; its date is the day passed in. *)
Theorem generated_sleep_summary_ranges self d g :
  unit_interval g ->
  (5.5 <= durationHours (fst (generate_sleep_data self d g))
   /\ durationHours (fst (generate_sleep_data self d g)) <= 9.5) /\
  (40 <= qualityScore (fst (generate_sleep_data self d g))
   /\ qualityScore (fst (generate_sleep_data self d g)) <= 100) /\
  (0 <= deepSleepMinutes (fst (generate_sleep_data self d g))
   <= remSleepMinutes (fst (generate_sleep_data self d g)))%Z /\
  (remSleepMinutes (fst (generate_sleep_data self d g))
   <= lightSleepMinutes (fst (generate_sleep_data self d g)) <= 570)%Z /\
  date (fst (generate_sleep_data self d g))
  = {| year := year d; month := month d; day := day d;
       hour := 0; minute := 0; second := 0 |}.
Proof.
  intros Hu.
  destruct (generate_sleep_data_fields self d g)
    as (_ & Hdate & Hdur & Hq & Hdeep & Hrem & Hlight).
  destruct (Hu 0%nat) as [Hu0a Hu0b]. destruct (Hu 1%nat) as [Hu1a Hu1b].
  set (u0 := randoms g 0%nat) in *. set (u1 := randoms g 1%nat) in *.
  set (duration := max 5.5 (min 9.5 (7.5 + 0.5 * normals g 0%nat))) in *.
  assert (Hd : 5.5 <= duration /\ duration <= 9.5) by (apply clamp_bounds; lra).
  split; [|split; [|split; [|split; [|exact Hdate]]]].
  - rewrite Hdur.
    destruct (round_to_scaled_bounds 2 550 950 duration) as [L U].
    + change (inject_Z (10 ^ Z.of_nat 2)) with 100. change (inject_Z 550) with 550. lra.
    + change (inject_Z (10 ^ Z.of_nat 2)) with 100. change (inject_Z 950) with 950. lra.
    + change (inject_Z (10 ^ Z.of_nat 2)) with 100 in *.
      change (inject_Z 550) with 550 in L. change (inject_Z 950) with 950 in U.
      divisions. split; lra.
  - rewrite Hq. apply (round_clamp_bounds 40 100). lia.
  - rewrite Hdeep, Hrem. rewrite (int_floor (duration * 60)) by lra.
    pose proof (Qfloor_le (duration * 60)) as Hfl.
    pose proof (Qlt_floor (duration * 60)) as Hfu.
    rewrite inject_Z_plus in Hfu. change (inject_Z 1) with 1 in Hfu.
    set (total := inject_Z (Qfloor (duration * 60))) in *.
    rewrite !int_floor by nra. split.
    + assert (L : inject_Z 0 <= total * (0.15 + (- 0.03 + (0.03 - - 0.03) * u0))).
      { change (inject_Z 0) with 0. nra. }
      apply Qfloor_resp_le in L. rewrite Qfloor_Z in L. exact L.
    + apply Qfloor_resp_le. nra.
  - rewrite Hrem, Hlight. rewrite (int_floor (duration * 60)) by lra.
    pose proof (Qfloor_le (duration * 60)) as Hfl.
    pose proof (Qlt_floor (duration * 60)) as Hfu.
    rewrite inject_Z_plus in Hfu. change (inject_Z 1) with 1 in Hfu.
    set (total := inject_Z (Qfloor (duration * 60))) in *.
    rewrite !int_floor by nra. split.
    + apply Qfloor_resp_le. nra.
    + assert (U : total * (1 - (0.15 + (- 0.03 + (0.03 - - 0.03) * u0))
                           - (0.25 + (- 0.05 + (0.05 - - 0.05) * u1)))
                  <= inject_Z 570).
      { change (inject_Z 570) with 570. nra. }
      apply Qfloor_resp_le in U. rewrite Qfloor_Z in U. exact U.
Qed.

Lemma generated_sleep_summary_ranges_witness :
  unit_interval SimulatorExamples.draws /\
  5.5 <= durationHours (fst (generate_sleep_data SimulatorExamples.simulator
                               SimulatorExamples.midnight SimulatorExamples.draws))
  /\ durationHours (fst (generate_sleep_data SimulatorExamples.simulator
                           SimulatorExamples.midnight SimulatorExamples.draws))
     <= 9.5.
Proof.
  split; [exact sleep_draws_unit_interval|].
  apply (generated_sleep_summary_ranges SimulatorExamples.simulator
           SimulatorExamples.midnight SimulatorExamples.draws
           sleep_draws_unit_interval).
Defined.

End AsleepAndSleepSummary.

Section GeneratedBatch.
Import Simulator.

Lemma sumZ_of_zeros l : Forall (fun z => z = 0%Z) l -> sumZ l = 0%Z.
Proof.
  intros H. rewrite sumZ_fold_right.
  induction H as [|z l Hz _ IH]; simpl; lia.
Qed.

Lemma spo2_values_between isoformat lo hi ms :
  Forall (fun m => exists v, spo2 m = Some v /\ lo <= v /\ v <= hi) ms ->
  Forall (fun v => lo <= v /\ v <= hi)
         (Main.spo2_values_of (map (as_health_metric isoformat) ms)).
Proof.
  induction 1 as [|m ms (v & Hv & Hr) _ IH]; [constructor|].
  cbn [map Main.spo2_values_of as_health_metric Main.spo2]. rewrite Hv.
  constructor; assumption.
Qed.

(** X11: A day of generated samples sent to the aggregator: the analysis
    succeeds, the median HRV lies in [20, 100], the average resting heart rate
    in [50, 75], the average SpO2 in [94, 100]; the low-SpO2 alert is never
    raised, the active minutes add up to zero and the very-low-activity alert
    is always raised. *)
Theorem generated_batch_analysis self isoformat uid d sd t ts g :
  Forall clock_time (t :: ts) ->
  exists loc,
    Main.aggregate
      {| Main.userId := uid; Main.date := d;
         Main.metrics :=
           map (as_health_metric isoformat)
               (fst (generate_batch self (t :: ts) g));
         Main.sleepData := sd |} = inr loc /\
    (20 <= Main.median_hrv loc /\ Main.median_hrv loc <= 100) /\
    (50 <= Main.avg_resting_hr loc /\ Main.avg_resting_hr loc <= 75) /\
    (exists a, Main.avg_spo2 loc = Some a /\ 94 <= a /\ a <= 100) /\
    (forall v, ~ In (Main.LowBloodOxygen v) (Main.alerts loc)) /\
    Main.total_active_minutes loc = 0%Z /\
    In Main.VeryLowActivity (Main.alerts loc).
Proof.
  intros Hc.
  set (ms := fst (generate_batch self (t :: ts) g)).
  set (request := {| Main.userId := uid; Main.metrics := _ |}).
  assert (Hlen : List.length ms = S (List.length ts))
    by apply (generate_batch_length self (t :: ts)).
  assert (Hne : Main.metrics request <> []).
  { cbn. destruct ms; [discriminate Hlen | discriminate]. }
  assert (Hall : Forall (fun m =>
                   (20 <= hrv m /\ hrv m <= 100)
                   /\ (50 <= restingHeartRate m /\ restingHeartRate m <= 75)
                   /\ (exists v, spo2 m = Some v /\ 94 <= v /\ v <= 100)
                   /\ activeMinutes m = 0%Z) ms).
  { apply generate_batch_forall. intros t' g' Ht'.
    destruct (generate_metrics_fields self t' g')
      as (_ & _ & _ & Hr & Hh & _ & _ & Ha & Hs & _).
    rewrite Forall_forall in Hc.
    destruct (activity_level_range self t' (Hc t' Ht')) as [A0 A1].
    rewrite Hr, Hh, Hs, Ha. repeat split.
    - apply (round_clamp_bounds 20 100). lia.
    - apply (round_clamp_bounds 20 100). lia.
    - apply (round_clamp_bounds 50 75). lia.
    - apply (round_clamp_bounds 50 75). lia.
    - eexists. split; [reflexivity|]. apply (round_clamp_bounds 94 100). lia.
    - apply int_below_one; unfold INTERVAL_MINUTES; lra. }
  destruct (generated_batch_aggregates self isoformat uid d sd t ts g)
    as (loc & E).
  fold ms in E. fold request in E.
  destruct (aggregate_fields request loc E)
    as (a1 & _ & _ & _ & Hm & Hr & Hs & _ & _ & Ht & _).
  exists loc. split; [exact E|].
  assert (Hh : Main.hrv_values_of request <> []).
  { unfold Main.hrv_values_of. destruct (Main.metrics request); [congruence | discriminate]. }
  split; [|split; [|split; [|split; [|split]]]].
  - rewrite Hm. pose proof (median_in _ Hh) as Hin.
    unfold Main.hrv_values_of in Hin at 3. cbn [request Main.metrics] in Hin.
    rewrite map_map in Hin. apply in_map_iff in Hin.
    destruct Hin as (m & <- & Hmin). cbn [as_health_metric Main.hrv].
    rewrite Forall_forall in Hall. apply (Hall m Hmin).
  - rewrite Hr. apply mean_between.
    + destruct (Main.metrics request); [congruence | discriminate].
    + cbn [request Main.metrics]. rewrite map_map. apply Forall_map.
      eapply Forall_impl; [|exact Hall]. cbv beta. intros m Hmm.
      cbn [as_health_metric Main.restingHeartRate]. tauto.
  - rewrite Hs.
    assert (Hv : Forall (fun v => 94 <= v /\ v <= 100)
                        (Main.spo2_values_of (Main.metrics request))).
    { cbn [request Main.metrics]. apply spo2_values_between.
      eapply Forall_impl; [|exact Hall]. cbv beta. tauto. }
    assert (Hvn : Main.spo2_values_of (Main.metrics request) <> []).
    { cbn [request Main.metrics].
      pose proof (spo2_values_of_generated isoformat ms
                    (generate_batch_spo2 self (t :: ts) g)) as Hl.
      fold ms in Hl. intros E0. rewrite E0 in Hl. simpl in Hl. lia. }
    destruct (Main.spo2_values_of (Main.metrics request)) as [|v vs] eqn:Ev;
      [congruence|].
    eexists. split; [reflexivity|]. apply mean_between; [discriminate | exact Hv].
  - intros v Hv.
    destruct (order_free_alerts request loc E) as (_ & _ & Ho).
    destruct (proj1 Ho (ex_intro _ v Hv)) as (a & Ha & _ & Hlt).
    rewrite Hs in Ha.
    assert (Hvs : Forall (fun v => 94 <= v /\ v <= 100)
                         (Main.spo2_values_of (Main.metrics request))).
    { cbn [request Main.metrics]. apply spo2_values_between.
      eapply Forall_impl; [|exact Hall]. cbv beta. tauto. }
    destruct (Main.spo2_values_of (Main.metrics request)) as [|v0 vs] eqn:Ev;
      [discriminate|].
    injection Ha as <-.
    destruct (mean_between 94 100 (v0 :: vs)) as [L _]; [discriminate | exact Hvs | lra].
  - rewrite Ht. apply sumZ_of_zeros. cbn [request Main.metrics].
    rewrite map_map. apply Forall_map.
    eapply Forall_impl; [|exact Hall]. cbv beta. intros m Hmm.
    cbn [as_health_metric Main.activeMinutes]. tauto.
  - destruct (order_free_alerts request loc E) as (Hi & _ & _).
    apply Hi. rewrite <- Ht.
    replace (Main.total_active_minutes loc) with 0%Z.
    + vm_compute. reflexivity.
    + symmetry. rewrite Ht. apply sumZ_of_zeros. cbn [request Main.metrics].
      rewrite map_map. apply Forall_map.
      eapply Forall_impl; [|exact Hall]. cbv beta. intros m Hmm.
      cbn [as_health_metric Main.activeMinutes]. tauto.
Qed.

Lemma generated_batch_analysis_witness :
  Forall clock_time [Scenarios.afternoon; Scenarios.night] /\
  exists loc,
    Main.aggregate
      {| Main.userId := "u"; Main.date := "2025-01-01";
         Main.metrics :=
           map (as_health_metric (fun _ => ""%string))
               (fst (generate_batch SimulatorExamples.simulator
                       [Scenarios.afternoon; Scenarios.night]
                       SimulatorExamples.draws));
         Main.sleepData := None |} = inr loc /\
    Main.total_active_minutes loc = 0%Z /\
    In Main.VeryLowActivity (Main.alerts loc).
Proof.
  assert (Hc : Forall clock_time [Scenarios.afternoon; Scenarios.night]).
  { repeat constructor; unfold clock_time; simpl; lia. }
  split; [exact Hc|].
  destruct (generated_batch_analysis SimulatorExamples.simulator
              (fun _ => ""%string) "u"%string "2025-01-01"%string None
              Scenarios.afternoon [Scenarios.night] SimulatorExamples.draws Hc)
    as (loc & E & _ & _ & _ & _ & Ht & Ha).
  exists loc. split; [exact E|]. split; [exact Ht | exact Ha].
Defined.

End GeneratedBatch.

Section Wording.
Import Main SleepWording.
Open Scope string_scope.

(** X12: The wording chosen for a generated sleep summary is one of five:
    since the generator never yields less than 5.5 hours, "very poor and
    short" is never chosen. *)
Theorem generated_sleep_wording self d g :
  In (sleep_quality_description
        (Some (as_sleep_data (fst (Simulator.generate_sleep_data self d g)))))
     ["excellent and restful"; "good"; "fair, possibly light";
      "short and likely interrupted"; "poor and likely fitful"].
Proof.
  destruct (generate_sleep_data_fields self d g) as (_ & _ & Hdur & _).
  set (duration := max 5.5 (min 9.5 (7.5 + 0.5 * Simulator.normals g 0%nat))) in *.
  assert (Hd : 5.5 <= duration /\ duration <= 9.5) by (apply clamp_bounds; lra).
  assert (H5 : 5.5 <= round_to duration 2).
  { destruct (round_to_scaled_bounds 2 550 950 duration) as [L U].
    - change (inject_Z (10 ^ Z.of_nat 2)) with 100. change (inject_Z 550) with 550. lra.
    - change (inject_Z (10 ^ Z.of_nat 2)) with 100. change (inject_Z 950) with 950. lra.
    - change (inject_Z (10 ^ Z.of_nat 2)) with 100 in *.
      change (inject_Z 550) with 550 in L. divisions. lra. }
  unfold sleep_quality_description, as_sleep_data.
  cbn [qualityScore durationHours]. rewrite Hdur. unfold ge, lt.
  repeat match goal with
         | |- context [Qlt_le_dec ?a ?b] => destruct (Qlt_le_dec a b)
         end; cbn [andb]; simpl; try tauto; lra.
Qed.

End Wording.

Section RunLoop.
Import Simulator Simulation.

Lemma date_eqb_eq a b : date_eqb a b = true <-> a = b.
Proof.
  destruct a as [[y1 m1] d1], b as [[y2 m2] d2]. unfold date_eqb.
  rewrite !andb_true_iff, !Z.eqb_eq. split.
  - intros [[-> ->] ->]. reflexivity.
  - intros E. injection E as -> -> ->. auto.
Qed.

(** What one turn of the loop sends. *)
Lemma iteration_sends self t last w :
  let '(calls, last', w') := iteration self t last w in
  samples_sent calls = [fst (generate_metrics self t (random w))] /\
  (if ((hour t =? 0)%Z && date_differs (date_of t) last)%bool
   then exists s, summaries_sent calls = [s] /\ date_of (date s) = date_of t
                  /\ last' = Some (date_of t)
   else summaries_sent calls = [] /\ last' = last).
Proof.
  unfold iteration.
  destruct (generate_metrics self t (random w)) as [m g1] eqn:Em.
  cbn [send_to_firestore fst snd].
  destruct ((hour t =? 0)%Z && date_differs (date_of t) last)%bool eqn:Ec.
  - cbn [random clock set_returns].
    pose proof (generate_sleep_data_fields self t g1) as Hf. cbv zeta in Hf.
    destruct (generate_sleep_data self t g1) as [s g2] eqn:Es.
    cbn [fst] in Hf. destruct Hf as (_ & Hdate & _).
    cbn [samples_sent summaries_sent data]. split; [reflexivity|].
    exists s. split; [reflexivity|]. split; [|reflexivity].
    rewrite Hdate. reflexivity.
  - cbn [samples_sent summaries_sent data]. auto.
Qed.

Lemma samples_sent_app a b : samples_sent (a ++ b) = samples_sent a ++ samples_sent b.
Proof.
  induction a as [|c a IH]; [reflexivity|]. cbn [app samples_sent].
  destruct (data c); [cbn [app]; f_equal|]; exact IH.
Qed.

Lemma summaries_sent_app a b :
  summaries_sent (a ++ b) = summaries_sent a ++ summaries_sent b.
Proof.
  induction a as [|c a IH]; [reflexivity|]. cbn [app summaries_sent].
  destruct (data c); [|cbn [app]; f_equal]; exact IH.
Qed.

Lemma run_from_samples self nows :
  forall last w, map timestamp (samples_sent (run_from self nows last w)) = nows.
Proof.
  induction nows as [|t rest IH]; intros last w; [reflexivity|].
  cbn [run_from]. pose proof (iteration_sends self t last w) as H.
  destruct (iteration self t last w) as [[calls last'] w'].
  destruct H as [Hs _]. rewrite samples_sent_app, map_app, Hs, IH.
  cbn [map app]. reflexivity.
Qed.

(** X13: The run loop sends exactly one health sample per turn, in order, each
    stamped with the time read at its turn. *)
Theorem run_sends_one_sample_per_tick self nows w :
  map timestamp (samples_sent (run_simulation self nows w)) = nows /\
  List.length (samples_sent (run_simulation self nows w)) = List.length nows.
Proof.
  assert (H : map timestamp (samples_sent (run_simulation self nows w)) = nows)
    by apply run_from_samples.
  split; [exact H|]. rewrite <- H at 2. rewrite length_map. reflexivity.
Qed.

Lemma run_from_summaries self nows :
  forall last w,
    map (fun s => date_of (date s)) (summaries_sent (run_from self nows last w))
    = squeeze last (map date_of (filter (fun t => (hour t =? 0)%Z) nows)).
Proof.
  induction nows as [|t rest IH]; intros last w; [reflexivity|].
  cbn [run_from filter]. pose proof (iteration_sends self t last w) as H.
  destruct (iteration self t last w) as [[calls last'] w'].
  destruct H as [_ H]. rewrite summaries_sent_app, map_app, IH.
  destruct (hour t =? 0)%Z eqn:Eh; cbn [andb] in H.
  - cbn [map squeeze]. destruct (date_differs (date_of t) last) eqn:Ed.
    + destruct H as (s & -> & Hd & ->). cbn [map app]. rewrite Hd. reflexivity.
    + destruct H as [-> ->]. cbn [map app].
      destruct last as [l|]; [|discriminate]. cbn [date_differs] in Ed.
      apply negb_false_iff, date_eqb_eq in Ed. rewrite Ed. reflexivity.
  - destruct H as [-> ->]. reflexivity.
Qed.

(** X14: The dates of the sleep summaries a run sends are the dates of the
    turns taken during the hour after midnight, with every run of equal
    neighbours reduced to its first. *)
Theorem run_sends_summary_on_new_midnight_date self nows w :
  map (fun s => date_of (date s)) (summaries_sent (run_simulation self nows w))
  = squeeze None (map date_of (filter (fun t => (hour t =? 0)%Z) nows)).
Proof. apply run_from_summaries. Qed.

End RunLoop.

Section Dates.
Import Simulator Simulation.

Lemma date_lt_irrefl a : ~ date_lt a a.
Proof. destruct a as [[y m] d]. unfold date_lt. lia. Qed.

Lemma date_lt_trans a b c : date_lt a b -> date_lt b c -> date_lt a c.
Proof.
  destruct a as [[y1 m1] d1], b as [[y2 m2] d2], c as [[y3 m3] d3].
  unfold date_lt. lia.
Qed.

Lemma date_le_lt_trans a b c : date_le a b -> date_lt b c -> date_lt a c.
Proof. intros [H| ->] Hbc; [eapply date_lt_trans; eassumption | exact Hbc]. Qed.

Lemma date_differs_some d l : date_differs d (Some l) = true <-> d <> l.
Proof.
  cbn [date_differs]. rewrite negb_true_iff. split.
  - intros E ->. assert (H : date_eqb l l = true) by (apply date_eqb_eq; reflexivity).
    congruence.
  - intros N. destruct (date_eqb d l) eqn:E; [|reflexivity].
    apply date_eqb_eq in E. contradiction.
Qed.

Lemma squeeze_incl prev l d : In d (squeeze prev l) -> In d l.
Proof.
  revert prev. induction l as [|x l IH]; intros prev; cbn [squeeze]; [tauto|].
  destruct (date_differs x prev).
  - intros [<-|H]; [left; reflexivity | right; eapply IH, H].
  - intros H. right. eapply IH, H.
Qed.

Lemma squeeze_keeps prev l d :
  In d l -> In d (squeeze prev l) \/ prev = Some d.
Proof.
  revert prev. induction l as [|x l IH]; intros prev; cbn [squeeze]; [tauto|].
  intros [->|H].
  - destruct (date_differs d prev) eqn:E; [left; left; reflexivity|].
    destruct prev as [p|]; [|discriminate]. right.
    cbn [date_differs] in E. apply negb_false_iff, date_eqb_eq in E. congruence.
  - destruct (IH (Some x) H) as [Hin|E].
    + left. destruct (date_differs x prev); [right|]; exact Hin.
    + injection E as ->. destruct (date_differs d prev) eqn:E; [left; left; reflexivity|].
      destruct prev as [p|]; [|discriminate]. right.
      cbn [date_differs] in E. apply negb_false_iff, date_eqb_eq in E. congruence.
Qed.

Lemma squeeze_sorted l :
  forall prev,
    StronglySorted date_le l ->
    (forall p, prev = Some p -> Forall (date_le p) l) ->
    StronglySorted date_lt (squeeze prev l)
    /\ (forall p, prev = Some p -> Forall (date_lt p) (squeeze prev l)).
Proof.
  induction l as [|x l IH]; intros prev Hs Hp; cbn [squeeze].
  - split; [constructor | intros; constructor].
  - inversion Hs as [|? ? Hs' Hx]; subst.
    destruct (IH (Some x) Hs') as [IH1 IH2].
    { intros p E. injection E as <-. exact Hx. }
    specialize (IH2 x eq_refl).
    destruct (date_differs x prev) eqn:E.
    + split; [constructor; assumption|].
      intros p ->. apply date_differs_some in E.
      assert (Hpx : date_lt p x).
      { specialize (Hp p eq_refl). inversion Hp as [|? ? [H| ->] _]; subst;
          [exact H | contradiction]. }
      constructor; [exact Hpx|].
      eapply Forall_impl; [|exact IH2]. intros y Hy.
      eapply date_lt_trans; eassumption.
    + split; [exact IH1|]. intros p ->.
      cbn [date_differs] in E. apply negb_false_iff, date_eqb_eq in E. subst.
      exact IH2.
Qed.

Lemma strictly_sorted_nodup l : StronglySorted date_lt l -> NoDup l.
Proof.
  induction 1 as [|x l _ IH Hx]; constructor; [|exact IH].
  intros Hin. rewrite Forall_forall in Hx. apply (date_lt_irrefl x), Hx, Hin.
Qed.

End Dates.

Section SummaryPerDay.
Import Simulator Simulation.

(** X15: When the readings of the clock never go back to an earlier day, a run
    sends one sleep summary, and only one, for each day on which a turn falls
    in the hour after midnight. *)
Theorem run_sends_one_summary_per_day self nows w :
  chronological nows ->
  NoDup (map (fun s => date_of (date s))
             (summaries_sent (run_simulation self nows w))) /\
  (forall d,
      In d (map (fun s => date_of (date s))
                (summaries_sent (run_simulation self nows w)))
      <-> exists t, In t nows /\ hour t = 0%Z /\ date_of t = d).
Proof.
  intros Hc. unfold run_simulation. rewrite run_from_summaries.
  set (l := map date_of (filter (fun t => (hour t =? 0)%Z) nows)).
  assert (Hl : forall d, In d l <-> exists t, In t nows /\ hour t = 0%Z /\ date_of t = d).
  { intros d. unfold l. rewrite in_map_iff. split.
    - intros (t & <- & Ht). apply filter_In in Ht. destruct Ht as [Ht Hh].
      exists t. rewrite Z.eqb_eq in Hh. auto.
    - intros (t & Ht & Hh & <-). exists t. split; [reflexivity|].
      apply filter_In. rewrite Z.eqb_eq. auto. }
  split.
  - apply strictly_sorted_nodup.
    apply (squeeze_sorted l None); [|discriminate].
    unfold l. clear Hl. unfold chronological in Hc.
    induction Hc as [|t rest Hs IH Ht]; cbn [filter map]; [constructor|].
    destruct (hour t =? 0)%Z; [|exact IH]. cbn [map]. constructor; [exact IH|].
    apply Forall_forall. intros d Hd. apply in_map_iff in Hd.
    destruct Hd as (t' & <- & Ht'). apply filter_In in Ht'.
    rewrite Forall_forall in Ht. apply Ht, Ht'.
  - intros d. rewrite <- Hl. split.
    + apply squeeze_incl.
    + intros H. destruct (squeeze_keeps None l d H) as [Hin|E];
        [exact Hin | discriminate].
Qed.

Lemma run_sends_one_summary_per_day_witness :
  chronological Scenarios.three_midnights /\
  NoDup (map (fun s => date_of (date s))
             (summaries_sent (run_simulation SimulatorExamples.simulator
                                Scenarios.three_midnights Scenarios.world))).
Proof.
  assert (Hc : chronological Scenarios.three_midnights).
  { unfold chronological, date_le, Scenarios.three_midnights.
    repeat constructor; cbn; first [right; reflexivity | left; lia]. }
  split; [exact Hc|].
  apply (run_sends_one_summary_per_day SimulatorExamples.simulator
           Scenarios.three_midnights Scenarios.world Hc).
Defined.

(** A clock that goes back to an earlier day has its sleep summary sent a
    second time. *)
Lemma summary_sent_twice_when_clock_goes_back :
  map (fun s => date_of (date s))
      (summaries_sent (run_simulation SimulatorExamples.simulator
                         Scenarios.clock_set_back Scenarios.world))
  = [(2025, 1, 1); (2025, 1, 2); (2025, 1, 1)]%Z.
Proof. unfold run_simulation. rewrite run_from_summaries. reflexivity. Qed.

End SummaryPerDay.

Section DocumentIds.
Import Simulator Simulation.

Lemma str_int_inj a b : str_int a = str_int b -> a = b.
Proof.
  unfold str_int. intros E.
  assert (N : forall z, Z.to_int z <> Decimal.Pos Decimal.Nil
                        /\ Z.to_int z <> Decimal.Neg Decimal.Nil).
  { intros [|p|p]; cbn; split; try discriminate;
      intros H; injection H as H; exact (DecimalPos.Unsigned.to_uint_nonnil p H). }
  pose proof (DecimalString.NilZero.isi (Z.to_int a) (proj1 (N a)) (proj2 (N a))) as Ha.
  pose proof (DecimalString.NilZero.isi (Z.to_int b) (proj1 (N b)) (proj2 (N b))) as Hb.
  rewrite E, Hb in Ha. injection Ha as Ha.
  rewrite <- (DecimalZ.of_to a), <- (DecimalZ.of_to b), Ha. reflexivity.
Qed.

Lemma append_inj_r (p a b : string) : (p ++ a = p ++ b)%string -> a = b.
Proof.
  induction p as [|c p IH]; cbn; [tauto|]. intros E. injection E as E. auto.
Qed.

(** The document id of a call is built from the reading of the clock. *)
Lemma send_doc_id self c d w :
  doc_id (fst (send_to_firestore self c d w))
  = (user_id self ++ "_" ++ str_int (int (clock w 0%nat * 1000)))%string.
Proof. reflexivity. Qed.

(** X16: Two documents sent by a simulator get the same document id exactly
    when they are sent within the same millisecond. *)
Theorem document_ids_collide_iff self c1 d1 w1 c2 d2 w2 :
  doc_id (fst (send_to_firestore self c1 d1 w1))
  = doc_id (fst (send_to_firestore self c2 d2 w2))
  <-> int (clock w1 0%nat * 1000) = int (clock w2 0%nat * 1000).
Proof.
  rewrite !send_doc_id. split.
  - intros E. apply append_inj_r, append_inj_r in E. apply str_int_inj, E.
  - intros ->. reflexivity.
Qed.

(** The calls of one turn read the clock one after the other. *)
Lemma iteration_clock self t last w :
  let '(calls, _, w') := iteration self t last w in
  map doc_id calls
  = map (fun i => (user_id self ++ "_" ++ str_int (int (clock w i * 1000)))%string)
        (seq 0 (List.length calls)) /\
  map returned calls = map (set_returns w) (seq 0 (List.length calls)) /\
  (forall i, clock w' i = clock w (List.length calls + i)%nat) /\
  (forall i, set_returns w' i = set_returns w (List.length calls + i)%nat) /\
  Forall (fun c => user c = user_id self /\ data_id c = doc_id c
                   /\ collection c = match data c with
                                     | HealthMetrics _ => "health_metrics"%string
                                     | SleepData _ => "sleep_data"%string
                                     end) calls.
Proof.
  unfold iteration.
  destruct (generate_metrics self t (random w)) as [m g1].
  cbn [send_to_firestore fst snd].
  destruct ((hour t =? 0)%Z && date_differs (date_of t) last)%bool.
  - cbn [random clock set_returns].
    destruct (generate_sleep_data self t g1) as [s g2].
    cbn. repeat split; try reflexivity. repeat constructor.
  - cbn. repeat split; try reflexivity. repeat constructor.
Qed.

Lemma run_from_clock self nows :
  forall last w,
    map doc_id (run_from self nows last w)
    = map (fun i => (user_id self ++ "_" ++ str_int (int (clock w i * 1000)))%string)
          (seq 0 (List.length (run_from self nows last w))) /\
    map returned (run_from self nows last w)
    = map (set_returns w) (seq 0 (List.length (run_from self nows last w))) /\
    Forall (fun c => user c = user_id self /\ data_id c = doc_id c
                     /\ collection c = match data c with
                                       | HealthMetrics _ => "health_metrics"%string
                                       | SleepData _ => "sleep_data"%string
                                       end) (run_from self nows last w).
Proof.
  induction nows as [|t rest IH]; intros last w.
  - cbn. repeat split; constructor.
  - cbn [run_from]. pose proof (iteration_clock self t last w) as H.
    destruct (iteration self t last w) as [[calls last'] w'].
    destruct H as (Hid & Hret & Hck & Hsr & Hall).
    destruct (IH last' w') as (IHid & IHret & IHall).
    rewrite !map_app, length_app, seq_app, !map_app. cbn [Nat.add].
    split; [|split].
    + f_equal; [exact Hid|]. rewrite IHid.
      set (n := List.length (run_from self rest last' w')).
      clearbody n. clear -Hck.
      assert (G : forall o, map (fun i => (user_id self ++ "_"
                              ++ str_int (int (clock w' i * 1000)))%string) (seq o n)
                  = map (fun i => (user_id self ++ "_"
                              ++ str_int (int (clock w i * 1000)))%string)
                        (seq (List.length calls + o) n)).
      { induction n as [|n IHn]; intros o; [reflexivity|].
        cbn [seq map]. rewrite Hck. f_equal.
        rewrite IHn. rewrite Nat.add_succ_r. reflexivity. }
      rewrite G. rewrite Nat.add_0_r. reflexivity.
    + f_equal; [exact Hret|]. rewrite IHret.
      set (n := List.length (run_from self rest last' w')).
      clearbody n. clear -Hsr.
      assert (G : forall o, map (set_returns w') (seq o n)
                            = map (set_returns w) (seq (List.length calls + o) n)).
      { induction n as [|n IHn]; intros o; [reflexivity|].
        cbn [seq map]. rewrite Hsr. f_equal.
        rewrite IHn. rewrite Nat.add_succ_r. reflexivity. }
      rewrite G. rewrite Nat.add_0_r. reflexivity.
    + apply Forall_app. split; assumption.
Qed.

(** X17: Within a run the document ids are pairwise distinct as long as no two
    readings of the clock fall in the same millisecond. *)
Theorem run_document_ids_distinct self nows w :
  (forall i j, i <> j ->
               int (clock w i * 1000) <> int (clock w j * 1000)) ->
  NoDup (map doc_id (run_simulation self nows w)).
Proof.
  intros Hd. unfold run_simulation.
  destruct (run_from_clock self nows None w) as (Hid & _). rewrite Hid.
  apply Finite.Injective_map_NoDup; [|apply seq_NoDup].
  intros i j E. apply append_inj_r, append_inj_r, str_int_inj in E.
  destruct (Nat.eq_dec i j) as [Hij|Hij]; [exact Hij|].
  exfalso. exact (Hd i j Hij E).
Qed.

Lemma minute_clock_distinct i j :
  i <> j ->
  int (clock Scenarios.world i * 1000) <> int (clock Scenarios.world j * 1000).
Proof.
  intros Hij. cbn [Scenarios.world clock].
  assert (E : forall k, (1735689600 + 60 * inject_Z (Z.of_nat k)) * 1000
                        == inject_Z (1735689600000 + 60000 * Z.of_nat k)).
  { intros k. rewrite inject_Z_plus, inject_Z_mult.
    change (inject_Z 1735689600000) with 1735689600000.
    change (inject_Z 60000) with 60000. ring. }
  rewrite (int_compat _ _ (E i)), (int_compat _ _ (E j)).
  rewrite !int_floor by (change 0 with (inject_Z 0); rewrite <- Zle_Qle; lia).
  rewrite !Qfloor_Z. lia.
Qed.

Lemma run_document_ids_distinct_witness :
  NoDup (map doc_id (run_simulation SimulatorExamples.simulator
                       Scenarios.three_midnights Scenarios.world)).
Proof.
  apply (run_document_ids_distinct SimulatorExamples.simulator
           Scenarios.three_midnights Scenarios.world).
  exact minute_clock_distinct.
Defined.

(** A call without the outcome of [set]. *)
Lemma iteration_ignores_outcomes self t last g c r1 r2 :
  let '(calls1, last1, w1) :=
    iteration self t last {| random := g; clock := c; set_returns := r1 |} in
  let '(calls2, last2, w2) :=
    iteration self t last {| random := g; clock := c; set_returns := r2 |} in
  map (fun k => (user k, collection k, doc_id k, data k, data_id k)) calls1
  = map (fun k => (user k, collection k, doc_id k, data k, data_id k)) calls2
  /\ last1 = last2 /\ random w1 = random w2 /\ clock w1 = clock w2.
Proof.
  unfold iteration. cbn [random clock set_returns].
  destruct (generate_metrics self t g) as [m g1].
  cbn [send_to_firestore fst snd random clock set_returns].
  destruct ((hour t =? 0)%Z && date_differs (date_of t) last)%bool.
  - destruct (generate_sleep_data self t g1) as [s g2].
    cbn. repeat split; reflexivity.
  - cbn. repeat split; reflexivity.
Qed.

Lemma run_from_ignores_outcomes self nows :
  forall last g c r1 r2,
    map (fun k => (user k, collection k, doc_id k, data k, data_id k))
        (run_from self nows last {| random := g; clock := c; set_returns := r1 |})
    = map (fun k => (user k, collection k, doc_id k, data k, data_id k))
          (run_from self nows last {| random := g; clock := c; set_returns := r2 |}).
Proof.
  induction nows as [|t rest IH]; intros last g c r1 r2; [reflexivity|].
  cbn [run_from].
  pose proof (iteration_ignores_outcomes self t last g c r1 r2) as H.
  destruct (iteration self t last {| random := g; clock := c; set_returns := r1 |})
    as [[calls1 last1] w1].
  destruct (iteration self t last {| random := g; clock := c; set_returns := r2 |})
    as [[calls2 last2] w2].
  destruct H as (Hc & -> & Hg & Hk). rewrite !map_app, Hc. f_equal.
  destruct w1 as [g1 c1 s1], w2 as [g2 c2 s2]. cbn in Hg, Hk. subst. apply IH.
Qed.

(** X18: A write that fails changes nothing else: the same documents go to the
    same places whatever the outcomes of [set], and each call ends as the
    outcome in its turn says.  Nothing is sent again. *)
Theorem run_never_retries_a_failed_write self nows w outcomes :
  map (fun k => (user k, collection k, doc_id k, data k, data_id k))
      (run_simulation self nows w)
  = map (fun k => (user k, collection k, doc_id k, data k, data_id k))
        (run_simulation self nows
           {| random := random w; clock := clock w; set_returns := outcomes |}) /\
  map returned (run_simulation self nows w)
  = map (set_returns w) (seq 0 (List.length (run_simulation self nows w))).
Proof.
  split.
  - destruct w as [g c r]. apply run_from_ignores_outcomes.
  - apply run_from_clock.
Qed.

End DocumentIds.

Section HealthEndpoint.
Import Relay.

Lemma health_handler_inr {A} py (c : Result A) a :
  health_handler py c = inr a -> c = inr a.
Proof.
  destruct c as [e|x]; cbn; [|congruence].
  destruct e as [[]| | | | | |]; discriminate.
Qed.

Lemma and_then_inr {A B} (c : Result A) (k : A -> Result B) b :
  and_then c k = inr b -> exists a, c = inr a /\ k a = inr b.
Proof. destruct c as [e|a]; cbn; [discriminate|]. intros H. exists a. auto. Qed.

Lemma get_inr value key v :
  get value key = inr v -> exists d, value = JDict d /\ v = get_default d key JNull.
Proof.
  destruct value; cbn; try discriminate. intros E. injection E as <-.
  eexists. split; reflexivity.
Qed.

(** An empty batch is answered with status 400 whatever the provider
    replies. *)
Lemma health_endpoint_rejects_empty_batch py request r :
  Main.metrics request = [] ->
  analyze_health py request r
  = inl (Raised (HTTPException 400 "No health metrics provided")).
Proof.
  intros E. unfold analyze_health, Main.aggregate. rewrite E. reflexivity.
Qed.




(** The steps of the endpoint once the aggregation has returned. *)
Lemma analyze_health_after_aggregation py request r loc :
  Main.aggregate request = inr loc ->
  analyze_health py request r
  = health_handler py
      (prompt <== build_prompt loc ;;
       analysis <== health_analysis_of py r ;;
       summary <== get analysis "summary" ;;
       action <== get analysis "action" ;;
       breakfastSuggestion <== get analysis "breakfastSuggestion" ;;
       indicatorToWatch <== get analysis "indicatorToWatch" ;;
       sleepRemark <== get analysis "sleepRemark" ;;
       sleepPractices <== get analysis "sleepPractices" ;;
       ok {| summary := _coerce_text py summary;
             action := _coerce_text py action;
             breakfastSuggestion := _coerce_text py breakfastSuggestion;
             indicatorToWatch := _coerce_text py indicatorToWatch;
             sleepRemark := _coerce_text py sleepRemark;
             sleepPractices := _coerce_text py sleepPractices;
             alerts := Main.alerts loc;
             dailyStats := Main.dailyStats (Main.build_response loc) |}).
Proof. intros E. unfold analyze_health. rewrite E. reflexivity. Qed.

(** Every failure of the relay is an [HTTPException] 502 or an exception of
    another kind. *)
Lemma health_analysis_of_error py r e :
  health_analysis_of py r = inl e ->
  (exists d, e = Raised (HTTPException 502 d))
  \/ (forall s d, e <> Raised (HTTPException s d)).
Proof.
  assert (Hitem : forall v e0, item0 v = inl e0 ->
                               forall s d, e0 <> Raised (HTTPException s d)).
  { intros v e0. unfold item0, fail.
    destruct v as [| | | |[|c s']|[|x l]|]; cbn; intros E s0 d0;
      try discriminate; injection E as <-; discriminate. }
  assert (Hget : forall v k e0, get v k = inl e0 ->
                                forall s d, e0 <> Raised (HTTPException s d)).
  { intros v k e0. unfold get, fail.
    destruct v; cbn; intros E s0 d0; try discriminate;
      injection E as <-; discriminate. }
  unfold health_analysis_of. destruct r as [|status body].
  { intros E. injection E as <-. right. discriminate. }
  destruct (is_error_status status).
  { intros E. injection E as <-. left. eexists. reflexivity. }
  destruct body as [result|]; cbn [response_json and_then ok fail].
  2:{ intros E. injection E as <-. right. discriminate. }
  destruct (get result "choices") as [e0|choices] eqn:Ec; cbn [and_then].
  { intros E. injection E as <-. right. eapply Hget, Ec. }
  destruct (truth choices); cbn [negb].
  2:{ intros E. injection E as <-. left. eexists. reflexivity. }
  unfold message_of.
  destruct (item0 choices) as [e0|first] eqn:Ei; cbn [and_then].
  { intros E. injection E as <-. right. eapply Hitem, Ei. }
  assert (Hmsg : forall e1,
             match first with
             | JDict _ => get first "message"
             | _ => ok JNull
             end = inl e1 -> forall s d, e1 <> Raised (HTTPException s d)).
  { intros e1. destruct first; cbn; intros E s0 d0; discriminate. }
  destruct (match first with JDict _ => get first "message" | _ => ok JNull end)
    as [e1|message] eqn:Em; cbn [and_then].
  { intros E. injection E as <-. right. apply Hmsg. reflexivity. }
  unfold content_of.
  assert (Hcon : forall e2,
             match message with
             | JDict _ => get (if truth message then message else JDict []) "content"
             | _ => ok JNull
             end = inl e2 -> forall s d, e2 <> Raised (HTTPException s d)).
  { intros e2. destruct message; cbn; intros E s0 d0; try discriminate;
      eapply (Hget _ _ _ E). }
  destruct (match message with
            | JDict _ => get (if truth message then message else JDict []) "content"
            | _ => ok JNull
            end) as [e2|content] eqn:Eo; cbn [and_then].
  { intros E. injection E as <-. right. apply Hcon. reflexivity. }
  destruct (truth content); cbn [negb].
  2:{ intros E. injection E as <-. left. eexists. reflexivity. }
  unfold json_loads, fail. destruct content; try (intros E; injection E as <-; right; discriminate).
  destruct (loads py s); intros E; [discriminate|].
  injection E as <-. right. discriminate.
Qed.

(** X20: Every failure of the health endpoint is an [HTTPException] with
    status 400, 500 or 502, and the status is 400 exactly when the batch is
    empty. *)
Theorem health_endpoint_statuses py request r e :
  analyze_health py request r = inl e ->
  exists status detail,
    e = Raised (HTTPException status detail) /\
    (status = 400 \/ status = 500 \/ status = 502)%Z /\
    (status = 400%Z <-> Main.metrics request = []).
Proof.
  intros H.
  destruct (Main.aggregate request) as [e0|loc] eqn:E.
  - destruct (aggregate_raises request e0 E) as [[Em ->]|[Hne ->]].
    + rewrite (health_endpoint_rejects_empty_batch py request r Em) in H.
      injection H as <-. exists 400%Z. eexists. split; [reflexivity|].
      split; [auto|]. tauto.
    + unfold analyze_health in H. rewrite E in H. cbn in H.
      injection H as <-. exists 500%Z. eexists. split; [reflexivity|].
      split; [auto|]. split; [discriminate | intros Em; contradiction].
  - assert (Hne : Main.metrics request <> []) by exact (aggregate_inr _ _ E).
    rewrite (analyze_health_after_aggregation py request r loc E) in H.
    assert (G : exists status detail,
               e = Raised (HTTPException status detail)
               /\ (status = 500 \/ status = 502)%Z).
    { revert H. unfold build_prompt.
      destruct (Main.avg_spo2 loc); cbn [and_then ok fail].
      2:{ cbn. intros H. injection H as <-. exists 500%Z. eexists. auto. }
      destruct (health_analysis_of py r) as [e0|analysis] eqn:Ea; cbn [and_then].
      - destruct (health_analysis_of_error py r e0 Ea) as [(d & ->)|Hn].
        + cbn. intros H. injection H as <-. exists 502%Z, d. auto.
        + intros H. exists 500%Z. eexists. split; [|auto].
          destruct e0 as [[]| | | | | |]; cbn in H;
            try (injection H as <-; reflexivity).
          exfalso. eapply Hn. reflexivity.
      - destruct analysis; cbn; intros H; try discriminate;
          injection H as <-; exists 500%Z; eexists; auto. }
    destruct G as (status & detail & -> & Hs).
    exists status, detail. split; [reflexivity|]. split; [tauto|].
    split; [intros ->; lia | intros Em; contradiction].
Qed.

Lemma health_endpoint_statuses_witness :
  exists status detail,
    Raised (HTTPException 400 "No health metrics provided")
    = Raised (HTTPException status detail) /\
    (status = 400 \/ status = 500 \/ status = 502)%Z /\
    (status = 400%Z <-> Main.metrics (Examples.request []) = []).
Proof.
  apply (health_endpoint_statuses RelayExamples.library (Examples.request [])
           NoResponse).
  reflexivity.
Defined.

End HealthEndpoint.

Section HealthAnswer.
Import Relay.

Lemma get_default_absent d key default :
  (forall v, ~ In (key, v) d) -> get_default d key default = default.
Proof.
  induction d as [|[k v] d IH]; intros H; [reflexivity|]. cbn [get_default].
  destruct (String.eqb k key) eqn:E.
  - apply String.eqb_eq in E. subst. exfalso. apply (H v). left. reflexivity.
  - apply IH. intros v' Hv'. apply (H v'). right. exact Hv'.
Qed.

(** X21: A successful answer of the health endpoint carries the alerts and the
    daily statistics of the aggregation, untouched by the provider's reply,
    and six texts: [_coerce_text] of the entries of the object the provider's
    content decodes to.  A missing entry gives the empty text. *)
Theorem health_endpoint_answer py request r resp :
  analyze_health py request r = inr resp ->
  exists stats fields,
    Main.analyze_health request = inr stats /\
    health_analysis_of py r = inr (JDict fields) /\
    alerts resp = Main.resp_alerts stats /\
    dailyStats resp = Main.dailyStats stats /\
    summary resp = _coerce_text py (get_default fields "summary" JNull) /\
    action resp = _coerce_text py (get_default fields "action" JNull) /\
    breakfastSuggestion resp
    = _coerce_text py (get_default fields "breakfastSuggestion" JNull) /\
    indicatorToWatch resp
    = _coerce_text py (get_default fields "indicatorToWatch" JNull) /\
    sleepRemark resp = _coerce_text py (get_default fields "sleepRemark" JNull) /\
    sleepPractices resp
    = _coerce_text py (get_default fields "sleepPractices" JNull) /\
    ((forall v, ~ In ("sleepPractices"%string, v) fields) ->
     sleepPractices resp = ""%string).
Proof.
  intros H.
  destruct (Main.aggregate request) as [e|loc] eqn:E.
  { unfold analyze_health in H. rewrite E in H. cbn in H.
    destruct e; discriminate. }
  rewrite (analyze_health_after_aggregation py request r loc E) in H.
  apply health_handler_inr in H.
  apply and_then_inr in H. destruct H as ([] & _ & H).
  apply and_then_inr in H. destruct H as (analysis & Ea & H).
  apply and_then_inr in H. destruct H as (v1 & E1 & H).
  apply get_inr in E1. destruct E1 as (fields & -> & ->).
  cbn [get and_then ok] in H. injection H as <-.
  exists (Main.build_response loc), fields.
  split.
  { unfold Main.analyze_health. rewrite E. reflexivity. }
  split; [exact Ea|].
  cbn [alerts dailyStats summary action breakfastSuggestion indicatorToWatch
       sleepRemark sleepPractices Main.build_response Main.resp_alerts
       Main.dailyStats].
  repeat (split; [reflexivity|]).
  intros Hv. rewrite (get_default_absent _ _ _ Hv). reflexivity.
Qed.

Lemma health_endpoint_answer_witness :
  exists resp,
    analyze_health RelayExamples.library Scenarios.four_samples_sorted
      (RelayExamples.completion "{}") = inr resp /\
    exists stats fields,
      Main.analyze_health Scenarios.four_samples_sorted = inr stats /\
      health_analysis_of RelayExamples.library (RelayExamples.completion "{}")
      = inr (JDict fields) /\
      alerts resp = Main.resp_alerts stats /\
      dailyStats resp = Main.dailyStats stats /\
      summary resp
      = _coerce_text RelayExamples.library (get_default fields "summary" JNull) /\
      action resp
      = _coerce_text RelayExamples.library (get_default fields "action" JNull) /\
      breakfastSuggestion resp
      = _coerce_text RelayExamples.library
          (get_default fields "breakfastSuggestion" JNull) /\
      indicatorToWatch resp
      = _coerce_text RelayExamples.library
          (get_default fields "indicatorToWatch" JNull) /\
      sleepRemark resp
      = _coerce_text RelayExamples.library
          (get_default fields "sleepRemark" JNull) /\
      sleepPractices resp
      = _coerce_text RelayExamples.library
          (get_default fields "sleepPractices" JNull) /\
      ((forall v, ~ In ("sleepPractices"%string, v) fields) ->
       sleepPractices resp = ""%string).
Proof.
  eexists.
  refine ((fun E => conj E (health_endpoint_answer _ _ _ _ E)) _).
  vm_compute. reflexivity.
Defined.




(** X6: A successful answer of the health endpoint carries the alerts of the
    aggregation unchanged, its step and active-minute totals exactly, and the
    resting heart rate, median HRV, calories and stress level within 0.05 of
    the computed values.  Some sample carried SpO2; with SpO2 readings
    between 0 and 100, the average SpO2 is absent when the computed average is
    zero and within 0.05 of it otherwise. *)
Theorem reported_statistics py request r resp :
  analyze_health py request r = inr resp ->
  exists loc a,
    Main.aggregate request = inr loc /\
    Main.avg_spo2 loc = Some a /\
    alerts resp = Main.alerts loc /\
    Main.totalSteps (dailyStats resp) = Main.total_steps loc /\
    Main.totalActiveMinutes (dailyStats resp) = Main.total_active_minutes loc /\
    Qabs (Main.avgRestingHR (dailyStats resp) - Main.avg_resting_hr loc) <= 0.05 /\
    Qabs (Main.medianHRV (dailyStats resp) - Main.median_hrv loc) <= 0.05 /\
    Qabs (Main.totalCalories (dailyStats resp) - Main.total_calories loc) <= 0.05 /\
    Qabs (Main.stressLevel (dailyStats resp) - Main.stress_level loc) <= 0.05 /\
    ((forall m v, In m (Main.metrics request) -> Main.spo2 m = Some v ->
                  0 <= v /\ v <= 100) ->
     (a == 0 -> Main.avgSpO2 (dailyStats resp) = None) /\
     (~ a == 0 -> exists v, Main.avgSpO2 (dailyStats resp) = Some v
                            /\ Qabs (v - a) <= 0.05)).
Proof.
  intros H.
  destruct (Main.aggregate request) as [e|loc] eqn:E.
  { unfold analyze_health in H. rewrite E in H. cbn in H.
    destruct e; discriminate. }
  rewrite (analyze_health_after_aggregation py request r loc E) in H.
  apply health_handler_inr in H.
  apply and_then_inr in H. destruct H as ([] & Hp & H).
  apply and_then_inr in H. destruct H as (analysis & Ea & H).
  apply and_then_inr in H. destruct H as (v1 & E1 & H).
  apply get_inr in E1. destruct E1 as (fields & -> & ->).
  cbn [get and_then ok] in H. injection H as <-.
  unfold build_prompt in Hp.
  destruct (Main.avg_spo2 loc) as [a|] eqn:Es; [|discriminate Hp].
  exists loc, a. split; [reflexivity|]. split; [exact Es|].
  cbn [alerts dailyStats Main.build_response Main.dailyStats Main.totalSteps
       Main.totalActiveMinutes Main.avgRestingHR Main.medianHRV
       Main.totalCalories Main.stressLevel Main.avgSpO2].
  repeat (split; [first [reflexivity | apply round_to_1_near]|]).
  intros _. try rewrite Es. cbn [Py.truthy]. split.
  - intros Ha. apply Qeq_bool_iff in Ha. rewrite Ha. reflexivity.
  - intros Hnz. destruct (Qeq_bool a 0) eqn:Eb;
      [apply Qeq_bool_eq in Eb; contradiction|].
    cbn [negb]. eexists. split; [reflexivity | apply round_to_1_near].
Qed.

Lemma reported_statistics_witness :
  exists resp,
    analyze_health RelayExamples.library Scenarios.four_samples_sorted
      (RelayExamples.completion "{}") = inr resp /\
    exists loc a,
      Main.aggregate Scenarios.four_samples_sorted = inr loc /\
      Main.avg_spo2 loc = Some a /\
      alerts resp = Main.alerts loc /\
      Main.totalSteps (dailyStats resp) = Main.total_steps loc /\
      Main.totalActiveMinutes (dailyStats resp)
      = Main.total_active_minutes loc /\
      Qabs (Main.avgRestingHR (dailyStats resp) - Main.avg_resting_hr loc)
      <= 0.05.
Proof.
  eexists.
  refine ((fun E =>
             conj E
                  match reported_statistics _ _ _ _ E with
                  | ex_intro _ loc (ex_intro _ a
                      (conj E1 (conj E2 (conj E3 (conj E4 (conj E5 (conj E6 _))))))) =>
                      ex_intro _ loc (ex_intro _ a
                        (conj E1 (conj E2 (conj E3 (conj E4 (conj E5 E6))))))
                  end) _).
  vm_compute. reflexivity.
Defined.

End HealthAnswer.

Section DailyEndpoint.
Import Relay.
Open Scope string_scope.

Lemma daily_handler_inr {A} py (c : Result A) a :
  daily_handler py c = inr a -> c = inr a.
Proof. destruct c as [e|x]; cbn; [discriminate | congruence]. Qed.

(** X23: Every failure of the daily endpoint is answered with status 500 and a
    detail that starts with the endpoint's own prefix. *)
Theorem daily_endpoint_errors_are_500 py request r e :
  analyze_daily py request r = inl e ->
  exists cause,
    e = Raised (HTTPException 500
                  ("Erreur d'analyse journalière: " ++ str_error py cause)).
Proof.
  unfold analyze_daily. cbv zeta.
  match goal with
  | |- daily_handler py ?c = _ -> _ => destruct c as [cause|s]
  end; cbn [daily_handler http fail]; intros H; [|discriminate].
  injection H as <-. exists cause. reflexivity.
Qed.

Lemma daily_endpoint_errors_are_500_witness :
  exists cause,
    Raised (HTTPException 500
              ("Erreur d'analyse journalière: "
               ++ str_error RelayExamples.library RequestException))
    = Raised (HTTPException 500
                ("Erreur d'analyse journalière: "
                 ++ str_error RelayExamples.library cause)).
Proof.
  apply (daily_endpoint_errors_are_500 RelayExamples.library
           RelayExamples.no_meals NoResponse).
  reflexivity.
Defined.

(** X24: A reply without choices and without an error entry, for which the
    daily endpoint raises an [HTTPException] with status 502, is answered with
    status 500: the endpoint's only handler catches its own 502. *)
Theorem daily_endpoint_reports_502_as_500 py request status fields :
  is_error_status status = false ->
  truth (get_default fields "choices" JNull) = false ->
  (forall v, ~ In ("error", v) fields) ->
  analyze_daily py request (Response status (Some (JDict fields)))
  = inl (Raised (HTTPException 500
                   ("Erreur d'analyse journalière: "
                    ++ str_error py
                         (Raised (HTTPException 502
                            "Réponse inattendue du fournisseur OpenRouter."))))).
Proof.
  intros Hs Hc He. unfold analyze_daily. cbv zeta.
  unfold daily_analysis_of. rewrite Hs.
  cbn [response_json and_then ok get get_or]. rewrite Hc. cbn [negb].
  rewrite (get_default_absent fields "error" (JDict []) He).
  reflexivity.
Qed.

Lemma daily_endpoint_reports_502_as_500_witness :
  analyze_daily RelayExamples.library RelayExamples.no_meals
    (Response 200 (Some (JDict [])))
  = inl (Raised (HTTPException 500
                   ("Erreur d'analyse journalière: "
                    ++ str_error RelayExamples.library
                         (Raised (HTTPException 502
                            "Réponse inattendue du fournisseur OpenRouter."))))).
Proof.
  apply (daily_endpoint_reports_502_as_500 RelayExamples.library
           RelayExamples.no_meals 200 []).
  - reflexivity.
  - reflexivity.
  - intros v [].
Defined.

(** X25: A successful daily summary: its id is [userId_date], its meal ids are
    the timestamps of the meals in order, its totals are the sums of the five
    nutrients over the meals (zero for a day without meals, which is
    accepted), and [needsMet] is false when the provider's object has no such
    entry. *)
Theorem daily_endpoint_answer py request r s :
  analyze_daily py request r = inr s ->
  exists fields,
    daily_analysis_of py r = inr (JDict fields) /\
    id s = userId request ++ "_" ++ date request /\
    summary_userId s = userId request /\
    summary_date s = date request /\
    mealAnalysisIds s = map timestamp (meals request) /\
    calories (totalNutrition s)
    == fold_right Qplus 0 (map (fun meal => calories (nutrition meal))
                               (meals request)) /\
    proteins (totalNutrition s)
    == fold_right Qplus 0 (map (fun meal => proteins (nutrition meal))
                               (meals request)) /\
    carbs (totalNutrition s)
    == fold_right Qplus 0 (map (fun meal => carbs (nutrition meal))
                               (meals request)) /\
    fats (totalNutrition s)
    == fold_right Qplus 0 (map (fun meal => fats (nutrition meal))
                               (meals request)) /\
    fibers (totalNutrition s)
    == fold_right Qplus 0 (map (fun meal => fibers (nutrition meal))
                               (meals request)) /\
    needsMet s = needs_met_of py (get_default fields "needsMet" (JBool false)) /\
    ((forall v, ~ In ("needsMet", v) fields) -> needsMet s = false) /\
    globalAdvice s = _coerce_text py (get_default fields "globalAdvice" JNull) /\
    recommendations s
    = _coerce_text py (get_default fields "recommendations" JNull).
Proof.
  unfold analyze_daily. cbv zeta. intros H.
  apply daily_handler_inr in H.
  apply and_then_inr in H. destruct H as (analysis & Ea & H).
  apply and_then_inr in H. destruct H as (n & En & H).
  destruct analysis as [| | | | | |fields]; try discriminate En.
  cbn [get get_or ok] in En. injection En as <-.
  cbn [get and_then ok] in H. injection H as <-.
  exists fields. split; [exact Ea|].
  cbn [id summary_userId summary_date mealAnalysisIds totalNutrition calories
       proteins carbs fats fibers needsMet globalAdvice recommendations].
  repeat (split; [first [reflexivity | apply sum_fold_right]|]).
  split; [|split; reflexivity].
  intros Hn. rewrite (get_default_absent fields "needsMet" (JBool false) Hn).
  reflexivity.
Qed.

Lemma daily_endpoint_answer_witness :
  exists s,
    analyze_daily RelayExamples.library RelayExamples.two_meals
      (RelayExamples.completion "{}") = inr s /\
    mealAnalysisIds s = ["2025-01-01T12:00:00"; "2025-01-01T19:00:00"] /\
    calories (totalNutrition s) == 1000 /\
    needsMet s = false.
Proof.
  assert (E : { s | analyze_daily RelayExamples.library RelayExamples.two_meals
                      (RelayExamples.completion "{}") = inr s }).
  { eexists. vm_compute. reflexivity. }
  destruct E as [s E]. exists s. split; [exact E|].
  destruct (daily_endpoint_answer RelayExamples.library RelayExamples.two_meals
              (RelayExamples.completion "{}") s E)
    as (fields & Ea & _ & _ & _ & Hm & Hc & _ & _ & _ & _ & Hn & _).
  split; [exact Hm|]. split.
  - rewrite Hc. vm_compute. reflexivity.
  - vm_compute in Ea. injection Ea as <-. exact Hn.
Defined.

End DailyEndpoint.

Section CoerceText.
Import Relay.
Open Scope string_scope.

Lemma filter_kept_idempotent l : filter kept (filter kept l) = filter kept l.
Proof.
  induction l as [|x l IH]; [reflexivity|]. cbn [filter].
  destruct (kept x) eqn:E; [|exact IH]. cbn [filter]. rewrite E, IH. reflexivity.
Qed.

(** X26: [_coerce_text] of a list ignores its [None] and empty-string items; a
    list holding one string reads as that string; the result of a list is a
    text [_coerce_text] leaves alone. *)
Theorem coerce_text_drops_blank_items py l s :
  _coerce_text py (JList l) = _coerce_text py (JList (filter kept l)) /\
  _coerce_text py (JList (JNull :: l)) = _coerce_text py (JList l) /\
  _coerce_text py (JList (JStr "" :: l)) = _coerce_text py (JList l) /\
  _coerce_text py (JList [JStr s]) = _coerce_text py (JStr s) /\
  _coerce_text py (JStr (_coerce_text py (JList l))) = _coerce_text py (JList l).
Proof.
  cbn [_coerce_text]. rewrite filter_kept_idempotent.
  repeat split.
  cbn [filter]. destruct s as [|c s]; cbn [kept]; [reflexivity|].
  cbn [map str String.concat]. reflexivity.
Qed.

End CoerceText.
